(** * ControllerEmulator: the input-to-gamepad transformation engine

    A shallow embedding of the controller core
    ([infrastructure/gamepad_controller.py]), of the input handlers
    ([application/input_handlers.py]), of the conditional listeners
    ([application/input_listeners.py]) and of the configuration
    ([config/config.py]), with the properties of the design document
    stated and proved over it.

    Python [float] is IEEE 754 binary64 with round-to-nearest-even; it is
    modelled by Rocq's primitive floats, which are the same format, so the
    axis arithmetic below is bit-exact, including signed zeros, infinities
    and NaN. *)

From Stdlib Require Import ZArith Bool List String Ascii QArith.
From Stdlib Require Import Floats.
From stdpp Require Import base option gmap strings.

Set Warnings "-inexact-float".

Import ListNotations.
Local Open Scope Z_scope.
Local Open Scope string_scope.

(** ** Python's float builtins *)

Module Py.

Local Open Scope float_scope.

(** [a > b] on floats; false as soon as one side is NaN. *)
Definition gtb (a b : float) : bool := b <? a.

(** [a != b] on floats. *)
Definition neb (a b : float) : bool := negb (a =? b).

(** [min(a, b)]: the builtin keeps its first argument unless the second
    one compares strictly smaller. *)
Definition min (a b : float) : float := if b <? a then b else a.

(** [max(a, b)]: the builtin keeps its first argument unless the second
    one compares strictly greater. *)
Definition max (a b : float) : float := if gtb b a then b else a.

(** [float(n)] for a Python [int]: nearest binary64, ties to even.
    (CPython raises [OverflowError] beyond the binary64 range, where this
    function gives an infinity; screen coordinates are far below it.) *)
Definition float_of_int (n : Z) : float :=
  SF2Prim (binary_normalize prec emax n 0 false).

End Py.

(** ** Python strings (ASCII) *)

(** [str.lower()] on ASCII text. *)
Definition lower_ascii (c : ascii) : ascii :=
  let n := nat_of_ascii c in
  if (Nat.leb 65 n && Nat.leb n 90)%bool then ascii_of_nat (n + 32) else c.

Fixpoint lower (s : string) : string :=
  match s with
  | EmptyString => EmptyString
  | String c s' => String (lower_ascii c) (lower s')
  end.

(** [s.replace('Key.', '')]: every occurrence of the prefix of pynput's
    special-key names is dropped, scanning from the left. *)
Fixpoint remove_Key_prefix (s : string) : string :=
  match s with
  | String "K" (String "e" (String "y" (String "." rest))) =>
      remove_Key_prefix rest
  | String c rest => String c (remove_Key_prefix rest)
  | EmptyString => EmptyString
  end.

(** [k in l] for a list of strings. *)
Definition str_in (k : string) (l : list string) : bool :=
  existsb (String.eqb k) l.

(** ** The virtual device binding ([vgamepad])

    The binding is a collaborator outside the repository.  It is modelled at
    its interface: the setters stage values in a report held by the device
    object, and [update] flushes the staged report to the bus (recorded in
    the world's trace, see [Flush] below). *)

Module vg.

Inductive XUSB_BUTTON :=
| XUSB_GAMEPAD_DPAD_UP | XUSB_GAMEPAD_DPAD_DOWN
| XUSB_GAMEPAD_DPAD_LEFT | XUSB_GAMEPAD_DPAD_RIGHT
| XUSB_GAMEPAD_START | XUSB_GAMEPAD_BACK
| XUSB_GAMEPAD_LEFT_THUMB | XUSB_GAMEPAD_RIGHT_THUMB
| XUSB_GAMEPAD_LEFT_SHOULDER | XUSB_GAMEPAD_RIGHT_SHOULDER
| XUSB_GAMEPAD_GUIDE
| XUSB_GAMEPAD_A | XUSB_GAMEPAD_B | XUSB_GAMEPAD_X | XUSB_GAMEPAD_Y.

#[global] Instance XUSB_BUTTON_eq_dec : EqDecision XUSB_BUTTON.
Proof. solve_decision. Defined.

(** The staged report: both sticks, the pressed buttons, both triggers. *)
Record VX360Gamepad := {
  left_joystick : float * float;
  right_joystick : float * float;
  pressed : list XUSB_BUTTON;
  left_trigger : float;
  right_trigger : float
}.

(** A freshly created device, and a device after [reset()]: everything
    neutral. *)
Definition new : VX360Gamepad :=
  {| left_joystick := (0, 0)%float; right_joystick := (0, 0)%float;
     pressed := []; left_trigger := 0%float; right_trigger := 0%float |}.

Definition left_joystick_float (x y : float) (g : VX360Gamepad) :=
  {| left_joystick := (x, y); right_joystick := right_joystick g;
     pressed := pressed g; left_trigger := left_trigger g;
     right_trigger := right_trigger g |}.

Definition right_joystick_float (x y : float) (g : VX360Gamepad) :=
  {| left_joystick := left_joystick g; right_joystick := (x, y);
     pressed := pressed g; left_trigger := left_trigger g;
     right_trigger := right_trigger g |}.

Definition is_pressed (b : XUSB_BUTTON) (g : VX360Gamepad) : bool :=
  bool_decide (b ∈ pressed g).

Definition set_pressed (l : list XUSB_BUTTON) (g : VX360Gamepad) :=
  {| left_joystick := left_joystick g; right_joystick := right_joystick g;
     pressed := l; left_trigger := left_trigger g;
     right_trigger := right_trigger g |}.

Definition release_button (b : XUSB_BUTTON) (g : VX360Gamepad) :=
  set_pressed (filter (λ b', b' ≠ b) (pressed g)) g.

Definition press_button (b : XUSB_BUTTON) (g : VX360Gamepad) :=
  set_pressed (b :: filter (λ b', b' ≠ b) (pressed g)) g.

Definition left_trigger_float (v : float) (g : VX360Gamepad) :=
  {| left_joystick := left_joystick g; right_joystick := right_joystick g;
     pressed := pressed g; left_trigger := v;
     right_trigger := right_trigger g |}.

Definition right_trigger_float (v : float) (g : VX360Gamepad) :=
  {| left_joystick := left_joystick g; right_joystick := right_joystick g;
     pressed := pressed g; left_trigger := left_trigger g;
     right_trigger := v |}.

End vg.

(** ** Configuration ([config/config.py]) *)

Module Config.

Import vg.

(** The class attributes of [Config].  They are mutable at run time, so the
    engine's functions take the current value as an argument. *)
Record t := {
  UPDATE_RATE_HZ : Z;
  DPI_SCALING : float;
  SENS_X : float;
  SENS_Y : float;
  ADS_SENS_MULTIPLIER : float;
  DEADZONE : float;
  SMOOTHING : float;
  RECOIL_CONTROL_ENABLED : bool;
  RECOIL_COMPENSATION : float;
  KEY_MAPPINGS : list (string * XUSB_BUTTON);
  TOGGLE_KEY : string
}.

(** [JOYSTICK_KEYS] is never reassigned. *)
Definition JOYSTICK_KEYS : list string := ["w"; "a"; "s"; "d"].

Definition default_mappings : list (string * XUSB_BUTTON) :=
  [ ("space", XUSB_GAMEPAD_A); ("c", XUSB_GAMEPAD_B);
    ("r", XUSB_GAMEPAD_X); ("1", XUSB_GAMEPAD_Y);
    ("2", XUSB_GAMEPAD_DPAD_UP); ("alt_l", XUSB_GAMEPAD_DPAD_DOWN);
    ("b", XUSB_GAMEPAD_DPAD_LEFT); ("3", XUSB_GAMEPAD_DPAD_RIGHT);
    ("q", XUSB_GAMEPAD_LEFT_SHOULDER); ("e", XUSB_GAMEPAD_RIGHT_SHOULDER);
    ("esc", XUSB_GAMEPAD_START); ("tab", XUSB_GAMEPAD_BACK);
    ("shift", XUSB_GAMEPAD_LEFT_THUMB); ("f", XUSB_GAMEPAD_RIGHT_THUMB) ].

(** The values the class is defined with. *)
Definition defaults : t :=
  {| UPDATE_RATE_HZ := 120;
     DPI_SCALING := 0.013%float;
     SENS_X := 1.0%float;
     SENS_Y := 1.0%float;
     ADS_SENS_MULTIPLIER := 0.9%float;
     DEADZONE := 0.0012%float;
     SMOOTHING := 0.0%float;
     RECOIL_CONTROL_ENABLED := true;
     RECOIL_COMPENSATION := 1.8%float;
     KEY_MAPPINGS := default_mappings;
     TOGGLE_KEY := "t" |}.

(** [Config.UPDATE_RATE_HZ = new_rate] *)
Definition with_rate (new_rate : Z) (c : t) : t :=
  {| UPDATE_RATE_HZ := new_rate;
     DPI_SCALING := DPI_SCALING c; SENS_X := SENS_X c; SENS_Y := SENS_Y c;
     ADS_SENS_MULTIPLIER := ADS_SENS_MULTIPLIER c;
     DEADZONE := DEADZONE c; SMOOTHING := SMOOTHING c;
     RECOIL_CONTROL_ENABLED := RECOIL_CONTROL_ENABLED c;
     RECOIL_COMPENSATION := RECOIL_COMPENSATION c;
     KEY_MAPPINGS := KEY_MAPPINGS c; TOGGLE_KEY := TOGGLE_KEY c |}.

(** [Config.TOGGLE_KEY = new_key], as the remap dialog does it (it does not
    tell the keyboard listener). *)
Definition with_toggle_key (new_key : string) (c : t) : t :=
  {| UPDATE_RATE_HZ := UPDATE_RATE_HZ c;
     DPI_SCALING := DPI_SCALING c; SENS_X := SENS_X c; SENS_Y := SENS_Y c;
     ADS_SENS_MULTIPLIER := ADS_SENS_MULTIPLIER c;
     DEADZONE := DEADZONE c; SMOOTHING := SMOOTHING c;
     RECOIL_CONTROL_ENABLED := RECOIL_CONTROL_ENABLED c;
     RECOIL_COMPENSATION := RECOIL_COMPENSATION c;
     KEY_MAPPINGS := KEY_MAPPINGS c; TOGGLE_KEY := new_key |}.

(** [KEY_MAPPINGS.keys()], [KEY_MAPPINGS.values()] and [k in KEY_MAPPINGS]. *)
Definition mapped_keys (c : t) : list string := map fst (KEY_MAPPINGS c).
Definition mapped_buttons (c : t) : list XUSB_BUTTON :=
  map snd (KEY_MAPPINGS c).
Definition is_mapped (k : string) (c : t) : bool := str_in k (mapped_keys c).

(** [Config.ADS_SENS_MULTIPLIER = value] and
    [Config.RECOIL_COMPENSATION = value], as the settings window does them,
    and [Config.KEY_MAPPINGS] after a change in place. *)
Definition with_ads_sens_multiplier (value : float) (c : t) : t :=
  {| UPDATE_RATE_HZ := UPDATE_RATE_HZ c;
     DPI_SCALING := DPI_SCALING c; SENS_X := SENS_X c; SENS_Y := SENS_Y c;
     ADS_SENS_MULTIPLIER := value;
     DEADZONE := DEADZONE c; SMOOTHING := SMOOTHING c;
     RECOIL_CONTROL_ENABLED := RECOIL_CONTROL_ENABLED c;
     RECOIL_COMPENSATION := RECOIL_COMPENSATION c;
     KEY_MAPPINGS := KEY_MAPPINGS c; TOGGLE_KEY := TOGGLE_KEY c |}.

Definition with_recoil_compensation (value : float) (c : t) : t :=
  {| UPDATE_RATE_HZ := UPDATE_RATE_HZ c;
     DPI_SCALING := DPI_SCALING c; SENS_X := SENS_X c; SENS_Y := SENS_Y c;
     ADS_SENS_MULTIPLIER := ADS_SENS_MULTIPLIER c;
     DEADZONE := DEADZONE c; SMOOTHING := SMOOTHING c;
     RECOIL_CONTROL_ENABLED := RECOIL_CONTROL_ENABLED c;
     RECOIL_COMPENSATION := value;
     KEY_MAPPINGS := KEY_MAPPINGS c; TOGGLE_KEY := TOGGLE_KEY c |}.

Definition with_mappings (m : list (string * XUSB_BUTTON)) (c : t) : t :=
  {| UPDATE_RATE_HZ := UPDATE_RATE_HZ c;
     DPI_SCALING := DPI_SCALING c; SENS_X := SENS_X c; SENS_Y := SENS_Y c;
     ADS_SENS_MULTIPLIER := ADS_SENS_MULTIPLIER c;
     DEADZONE := DEADZONE c; SMOOTHING := SMOOTHING c;
     RECOIL_CONTROL_ENABLED := RECOIL_CONTROL_ENABLED c;
     RECOIL_COMPENSATION := RECOIL_COMPENSATION c;
     KEY_MAPPINGS := m; TOGGLE_KEY := TOGGLE_KEY c |}.

(** [reset_to_defaults]: five attributes are assigned, the others are left
    as they are. *)
Definition reset_to_defaults (c : t) : t :=
  {| UPDATE_RATE_HZ := 120;
     DPI_SCALING := DPI_SCALING c; SENS_X := SENS_X c; SENS_Y := SENS_Y c;
     ADS_SENS_MULTIPLIER := 0.9%float;
     DEADZONE := DEADZONE c; SMOOTHING := SMOOTHING c;
     RECOIL_CONTROL_ENABLED := RECOIL_CONTROL_ENABLED c;
     RECOIL_COMPENSATION := 1.8%float;
     KEY_MAPPINGS := default_mappings;
     TOGGLE_KEY := "t" |}.

End Config.

(** ** Collaborators: cursor control and the conditional listeners *)

(** What the engine asks of the outside world, in the order it asks. *)
Inductive Effect :=
| Flush (report : vg.VX360Gamepad)   (* [gamepad.update()] *)
| Sleep (seconds : float)            (* [time.sleep] *)
| SuppressMouse (on : bool)          (* [mouse_listener.suppress_events] *)
| SuppressKeyboard (on : bool)       (* [keyboard_listener.suppress_events] *)
| SetCursorPos (x y : Z)             (* [lock_to_center] *)
| HideCursor                         (* [hide_cursor] *)
| ShowCursor.                        (* [show_cursor] *)

Module CursorManager.

(** [infrastructure/cursor_manager.py].  When the Windows API cannot be
    loaded the constructor sets [enabled = False] and the centre attributes
    are never assigned. *)
Record t := {
  enabled : bool;
  center_x : option Z;
  center_y : option Z
}.

(** [lock_to_center], [hide_cursor], [show_cursor]: the requests sent to the
    operating system; none when the manager is disabled. *)
Definition lock_to_center (cm : t) : list Effect :=
  if negb (enabled cm) then []
  else match center_x cm, center_y cm with
       | Some x, Some y => [SetCursorPos x y]
       | _, _ => []
       end.

Definition hide_cursor (cm : t) : list Effect :=
  if negb (enabled cm) then [] else [HideCursor].

Definition show_cursor (cm : t) : list Effect :=
  if negb (enabled cm) then [] else [ShowCursor].

End CursorManager.

Module ConditionalSuppressMouseListener.

Record t := { _suppress : bool }.

Definition suppress_events (suppress : bool) (l : t) : t :=
  {| _suppress := suppress |}.

Definition _suppress_event (l : t) : bool := _suppress l.

End ConditionalSuppressMouseListener.

(** A key object handed over by the capture layer ([pynput]): a character
    key (attribute [char], possibly [None], and its printed form), or a
    member of the enumeration of special keys, printed [Key.<name>] and
    without a [char] attribute. *)
Inductive Key :=
| KeyCode (char : option string) (printed : string)
| SpecialKey (name : string).

(** [hasattr(key, 'char') and key.char], giving the character when the
    test succeeds. *)
Definition truthy_char (key : Key) : option string :=
  match key with
  | KeyCode (Some c) _ => if String.eqb c "" then None else Some c
  | KeyCode None _ => None
  | SpecialKey _ => None
  end.

(** [str(key)] *)
Definition str_of_key (key : Key) : string :=
  match key with
  | KeyCode _ printed => printed
  | SpecialKey name => "Key." ++ name
  end.

(** [key == keyboard.Key.<name>] *)
Definition is_special (key : Key) (name : string) : bool :=
  match key with
  | SpecialKey n => String.eqb n name
  | KeyCode _ _ => false
  end.

Module ConditionalSuppressKeyboardListener.

Record t := { _suppress : bool; _toggle_key : string }.

Definition suppress_events (suppress : bool) (l : t) : t :=
  {| _suppress := suppress; _toggle_key := _toggle_key l |}.

Definition set_toggle_key (key : string) (l : t) : t :=
  {| _suppress := _suppress l; _toggle_key := key |}.

(** The toggle key is let through when the event carries a character;
    every other event follows the suppression flag. *)
Definition _suppress_event (l : t) (event : Key) : bool :=
  match truthy_char event with
  | Some c => if String.eqb (lower c) (_toggle_key l) then false
              else _suppress l
  | None => _suppress l
  end.

End ConditionalSuppressKeyboardListener.

(** ** The controller object ([infrastructure/gamepad_controller.py]) *)

(** The attributes of a [GamepadController] (the lock apart: the model runs
    one call at a time). *)
Record GamepadController := {
  _gamepad : option vg.VX360Gamepad;
  _active : bool;
  cursor_manager : CursorManager.t;
  mouse_dx : float;
  mouse_dy : float;
  keys : gmap string bool;
  joystick_keys : gmap string bool;
  last_lx : float;
  last_ly : float;
  last_rx : float;
  last_ry : float;
  r2_held : bool;
  l2_held : bool;
  _last_update : float;
  _update_interval : float;
  mouse_listener : option ConditionalSuppressMouseListener.t;
  keyboard_listener : option ConditionalSuppressKeyboardListener.t
}.

(** Attribute assignment, one function per assigned attribute. *)
Definition set_gamepad (v : option vg.VX360Gamepad) (c : GamepadController) : GamepadController :=
  {| _gamepad := v;
     _active := _active c;
     cursor_manager := cursor_manager c;
     mouse_dx := mouse_dx c;
     mouse_dy := mouse_dy c;
     keys := keys c;
     joystick_keys := joystick_keys c;
     last_lx := last_lx c;
     last_ly := last_ly c;
     last_rx := last_rx c;
     last_ry := last_ry c;
     r2_held := r2_held c;
     l2_held := l2_held c;
     _last_update := _last_update c;
     _update_interval := _update_interval c;
     mouse_listener := mouse_listener c;
     keyboard_listener := keyboard_listener c |}.

Definition set_active (v : bool) (c : GamepadController) : GamepadController :=
  {| _gamepad := _gamepad c;
     _active := v;
     cursor_manager := cursor_manager c;
     mouse_dx := mouse_dx c;
     mouse_dy := mouse_dy c;
     keys := keys c;
     joystick_keys := joystick_keys c;
     last_lx := last_lx c;
     last_ly := last_ly c;
     last_rx := last_rx c;
     last_ry := last_ry c;
     r2_held := r2_held c;
     l2_held := l2_held c;
     _last_update := _last_update c;
     _update_interval := _update_interval c;
     mouse_listener := mouse_listener c;
     keyboard_listener := keyboard_listener c |}.

Definition set_mouse_dx (v : float) (c : GamepadController) : GamepadController :=
  {| _gamepad := _gamepad c;
     _active := _active c;
     cursor_manager := cursor_manager c;
     mouse_dx := v;
     mouse_dy := mouse_dy c;
     keys := keys c;
     joystick_keys := joystick_keys c;
     last_lx := last_lx c;
     last_ly := last_ly c;
     last_rx := last_rx c;
     last_ry := last_ry c;
     r2_held := r2_held c;
     l2_held := l2_held c;
     _last_update := _last_update c;
     _update_interval := _update_interval c;
     mouse_listener := mouse_listener c;
     keyboard_listener := keyboard_listener c |}.

Definition set_mouse_dy (v : float) (c : GamepadController) : GamepadController :=
  {| _gamepad := _gamepad c;
     _active := _active c;
     cursor_manager := cursor_manager c;
     mouse_dx := mouse_dx c;
     mouse_dy := v;
     keys := keys c;
     joystick_keys := joystick_keys c;
     last_lx := last_lx c;
     last_ly := last_ly c;
     last_rx := last_rx c;
     last_ry := last_ry c;
     r2_held := r2_held c;
     l2_held := l2_held c;
     _last_update := _last_update c;
     _update_interval := _update_interval c;
     mouse_listener := mouse_listener c;
     keyboard_listener := keyboard_listener c |}.

Definition set_keys (v : gmap string bool) (c : GamepadController) : GamepadController :=
  {| _gamepad := _gamepad c;
     _active := _active c;
     cursor_manager := cursor_manager c;
     mouse_dx := mouse_dx c;
     mouse_dy := mouse_dy c;
     keys := v;
     joystick_keys := joystick_keys c;
     last_lx := last_lx c;
     last_ly := last_ly c;
     last_rx := last_rx c;
     last_ry := last_ry c;
     r2_held := r2_held c;
     l2_held := l2_held c;
     _last_update := _last_update c;
     _update_interval := _update_interval c;
     mouse_listener := mouse_listener c;
     keyboard_listener := keyboard_listener c |}.

Definition set_joystick_keys (v : gmap string bool) (c : GamepadController) : GamepadController :=
  {| _gamepad := _gamepad c;
     _active := _active c;
     cursor_manager := cursor_manager c;
     mouse_dx := mouse_dx c;
     mouse_dy := mouse_dy c;
     keys := keys c;
     joystick_keys := v;
     last_lx := last_lx c;
     last_ly := last_ly c;
     last_rx := last_rx c;
     last_ry := last_ry c;
     r2_held := r2_held c;
     l2_held := l2_held c;
     _last_update := _last_update c;
     _update_interval := _update_interval c;
     mouse_listener := mouse_listener c;
     keyboard_listener := keyboard_listener c |}.

Definition set_last_lx (v : float) (c : GamepadController) : GamepadController :=
  {| _gamepad := _gamepad c;
     _active := _active c;
     cursor_manager := cursor_manager c;
     mouse_dx := mouse_dx c;
     mouse_dy := mouse_dy c;
     keys := keys c;
     joystick_keys := joystick_keys c;
     last_lx := v;
     last_ly := last_ly c;
     last_rx := last_rx c;
     last_ry := last_ry c;
     r2_held := r2_held c;
     l2_held := l2_held c;
     _last_update := _last_update c;
     _update_interval := _update_interval c;
     mouse_listener := mouse_listener c;
     keyboard_listener := keyboard_listener c |}.

Definition set_last_ly (v : float) (c : GamepadController) : GamepadController :=
  {| _gamepad := _gamepad c;
     _active := _active c;
     cursor_manager := cursor_manager c;
     mouse_dx := mouse_dx c;
     mouse_dy := mouse_dy c;
     keys := keys c;
     joystick_keys := joystick_keys c;
     last_lx := last_lx c;
     last_ly := v;
     last_rx := last_rx c;
     last_ry := last_ry c;
     r2_held := r2_held c;
     l2_held := l2_held c;
     _last_update := _last_update c;
     _update_interval := _update_interval c;
     mouse_listener := mouse_listener c;
     keyboard_listener := keyboard_listener c |}.

Definition set_last_rx (v : float) (c : GamepadController) : GamepadController :=
  {| _gamepad := _gamepad c;
     _active := _active c;
     cursor_manager := cursor_manager c;
     mouse_dx := mouse_dx c;
     mouse_dy := mouse_dy c;
     keys := keys c;
     joystick_keys := joystick_keys c;
     last_lx := last_lx c;
     last_ly := last_ly c;
     last_rx := v;
     last_ry := last_ry c;
     r2_held := r2_held c;
     l2_held := l2_held c;
     _last_update := _last_update c;
     _update_interval := _update_interval c;
     mouse_listener := mouse_listener c;
     keyboard_listener := keyboard_listener c |}.

Definition set_last_ry (v : float) (c : GamepadController) : GamepadController :=
  {| _gamepad := _gamepad c;
     _active := _active c;
     cursor_manager := cursor_manager c;
     mouse_dx := mouse_dx c;
     mouse_dy := mouse_dy c;
     keys := keys c;
     joystick_keys := joystick_keys c;
     last_lx := last_lx c;
     last_ly := last_ly c;
     last_rx := last_rx c;
     last_ry := v;
     r2_held := r2_held c;
     l2_held := l2_held c;
     _last_update := _last_update c;
     _update_interval := _update_interval c;
     mouse_listener := mouse_listener c;
     keyboard_listener := keyboard_listener c |}.

Definition set_r2_held (v : bool) (c : GamepadController) : GamepadController :=
  {| _gamepad := _gamepad c;
     _active := _active c;
     cursor_manager := cursor_manager c;
     mouse_dx := mouse_dx c;
     mouse_dy := mouse_dy c;
     keys := keys c;
     joystick_keys := joystick_keys c;
     last_lx := last_lx c;
     last_ly := last_ly c;
     last_rx := last_rx c;
     last_ry := last_ry c;
     r2_held := v;
     l2_held := l2_held c;
     _last_update := _last_update c;
     _update_interval := _update_interval c;
     mouse_listener := mouse_listener c;
     keyboard_listener := keyboard_listener c |}.

Definition set_l2_held (v : bool) (c : GamepadController) : GamepadController :=
  {| _gamepad := _gamepad c;
     _active := _active c;
     cursor_manager := cursor_manager c;
     mouse_dx := mouse_dx c;
     mouse_dy := mouse_dy c;
     keys := keys c;
     joystick_keys := joystick_keys c;
     last_lx := last_lx c;
     last_ly := last_ly c;
     last_rx := last_rx c;
     last_ry := last_ry c;
     r2_held := r2_held c;
     l2_held := v;
     _last_update := _last_update c;
     _update_interval := _update_interval c;
     mouse_listener := mouse_listener c;
     keyboard_listener := keyboard_listener c |}.

Definition set_last_update (v : float) (c : GamepadController) : GamepadController :=
  {| _gamepad := _gamepad c;
     _active := _active c;
     cursor_manager := cursor_manager c;
     mouse_dx := mouse_dx c;
     mouse_dy := mouse_dy c;
     keys := keys c;
     joystick_keys := joystick_keys c;
     last_lx := last_lx c;
     last_ly := last_ly c;
     last_rx := last_rx c;
     last_ry := last_ry c;
     r2_held := r2_held c;
     l2_held := l2_held c;
     _last_update := v;
     _update_interval := _update_interval c;
     mouse_listener := mouse_listener c;
     keyboard_listener := keyboard_listener c |}.

Definition set_update_interval (v : float) (c : GamepadController) : GamepadController :=
  {| _gamepad := _gamepad c;
     _active := _active c;
     cursor_manager := cursor_manager c;
     mouse_dx := mouse_dx c;
     mouse_dy := mouse_dy c;
     keys := keys c;
     joystick_keys := joystick_keys c;
     last_lx := last_lx c;
     last_ly := last_ly c;
     last_rx := last_rx c;
     last_ry := last_ry c;
     r2_held := r2_held c;
     l2_held := l2_held c;
     _last_update := _last_update c;
     _update_interval := v;
     mouse_listener := mouse_listener c;
     keyboard_listener := keyboard_listener c |}.

Definition set_mouse_listener (v : option ConditionalSuppressMouseListener.t) (c : GamepadController) : GamepadController :=
  {| _gamepad := _gamepad c;
     _active := _active c;
     cursor_manager := cursor_manager c;
     mouse_dx := mouse_dx c;
     mouse_dy := mouse_dy c;
     keys := keys c;
     joystick_keys := joystick_keys c;
     last_lx := last_lx c;
     last_ly := last_ly c;
     last_rx := last_rx c;
     last_ry := last_ry c;
     r2_held := r2_held c;
     l2_held := l2_held c;
     _last_update := _last_update c;
     _update_interval := _update_interval c;
     mouse_listener := v;
     keyboard_listener := keyboard_listener c |}.

Definition set_keyboard_listener (v : option ConditionalSuppressKeyboardListener.t) (c : GamepadController) : GamepadController :=
  {| _gamepad := _gamepad c;
     _active := _active c;
     cursor_manager := cursor_manager c;
     mouse_dx := mouse_dx c;
     mouse_dy := mouse_dy c;
     keys := keys c;
     joystick_keys := joystick_keys c;
     last_lx := last_lx c;
     last_ly := last_ly c;
     last_rx := last_rx c;
     last_ry := last_ry c;
     r2_held := r2_held c;
     l2_held := l2_held c;
     _last_update := _last_update c;
     _update_interval := _update_interval c;
     mouse_listener := mouse_listener c;
     keyboard_listener := v |}.

(** ** The world and the monad of the engine's methods *)

(** The controller object, the requests sent so far (oldest first), and
    whether the bus driver accepts a new virtual device. *)
Record World := {
  self : GamepadController;
  trace : list Effect;
  vigem_available : bool
}.

Inductive Exn := AttributeError | DeviceError | ZeroDivisionError.

Inductive Result (A : Type) :=
| Ok (a : A)
| Raise (e : Exn).
Arguments Ok {A} a.
Arguments Raise {A} e.

(** A method call: it may raise, and what it changed before raising stays
    changed. *)
Definition M (A : Type) : Type := World -> Result A * World.

Definition ret {A} (a : A) : M A := fun w => (Ok a, w).

Definition raise {A} (e : Exn) : M A := fun w => (Raise e, w).

Definition bind {A B} (m : M A) (k : A -> M B) : M B :=
  fun w => match m w with
           | (Ok a, w') => k a w'
           | (Raise e, w') => (Raise e, w')
           end.

Notation "x <- m ;; k" := (bind m (fun x => k))
  (at level 100, m at next level, k at level 200, right associativity).
Notation "m ;; k" := (bind m (fun _ => k))
  (at level 100, k at level 200, right associativity).

(** [try: m  except Exception: h] *)
Definition try_except {A} (m : M A) (h : M A) : M A :=
  fun w => match m w with
           | (Ok a, w') => (Ok a, w')
           | (Raise _, w') => h w'
           end.

Definition get_self : M GamepadController := fun w => (Ok (self w), w).

(** The world with the controller object changed by [f]. *)
Definition with_self (f : GamepadController -> GamepadController)
    (w : World) : World :=
  {| self := f (self w); trace := trace w;
     vigem_available := vigem_available w |}.

(** The world after the requests [es]. *)
Definition with_requests (es : list Effect) (w : World) : World :=
  {| self := self w; trace := trace w ++ es;
     vigem_available := vigem_available w |}.

Definition modify (f : GamepadController -> GamepadController) : M unit :=
  fun w => (Ok tt, with_self f w).

Definition emit (es : list Effect) : M unit :=
  fun w => (Ok tt, with_requests es w).

Definition when (b : bool) (m : M unit) : M unit := if b then m else ret tt.

Fixpoint for_each {A} (l : list A) (body : A -> M unit) : M unit :=
  match l with
  | [] => ret tt
  | x :: l' => body x ;; for_each l' body
  end.

(** [vg.VX360Gamepad()]: a neutral device, or an exception when the driver
    refuses.  (What the constructor itself sends to the bus is not part of
    the trace.) *)
Definition new_VX360Gamepad : M vg.VX360Gamepad :=
  fun w => if vigem_available w then (Ok vg.new, w) else (Raise DeviceError, w).

(** A setter called on [self._gamepad]. *)
Definition gamepad_call (f : vg.VX360Gamepad -> vg.VX360Gamepad) : M unit :=
  c <- get_self ;;
  match _gamepad c with
  | Some g => modify (set_gamepad (Some (f g)))
  | None => raise AttributeError
  end.

(** [self._gamepad.update()] *)
Definition gamepad_update : M unit :=
  c <- get_self ;;
  match _gamepad c with
  | Some g => emit [Flush g]
  | None => raise AttributeError
  end.

(** [dict.get(key, False)] *)
Definition dict_get (d : gmap string bool) (key : string) : bool :=
  default false (d !! key).

(** ** Methods of [GamepadController] *)

(** [__init__], at time [now], with the cursor manager the constructor
    built.  (With a rate of zero [1.0 / Config.UPDATE_RATE_HZ] raises and no
    controller is constructed; the model is meant for the other rates.) *)
Definition init_controller (cfg : Config.t) (now : float)
    (cm : CursorManager.t) : GamepadController :=
  {| _gamepad := None;
     _active := false;
     cursor_manager := cm;
     mouse_dx := 0.0; mouse_dy := 0.0;
     keys := list_to_map (map (fun k => (k, false)) (Config.mapped_keys cfg));
     joystick_keys :=
       list_to_map (map (fun k => (k, false)) Config.JOYSTICK_KEYS);
     last_lx := 0.0; last_ly := 0.0; last_rx := 0.0; last_ry := 0.0;
     r2_held := false; l2_held := false;
     _last_update := now;
     _update_interval := 1.0 / Py.float_of_int (Config.UPDATE_RATE_HZ cfg);
     mouse_listener := None; keyboard_listener := None |}%float.

Definition initialize_gamepad : M bool :=
  try_except
    (c <- get_self ;;
     match _gamepad c with
     | None => g <- new_VX360Gamepad ;; modify (set_gamepad (Some g))
     | Some _ => ret tt
     end ;;
     ret true)
    (ret false).

Definition init_world (cfg : Config.t) (now : float) (cm : CursorManager.t)
    (vigem : bool) : World :=
  snd (initialize_gamepad
         {| self := init_controller cfg now cm; trace := [];
            vigem_available := vigem |}).

(** [mouse_listener.suppress_events(b)], when a listener is attached. *)
Definition suppress_mouse (b : bool) : M unit :=
  c <- get_self ;;
  match mouse_listener c with
  | Some l =>
      modify (set_mouse_listener
                (Some (ConditionalSuppressMouseListener.suppress_events b l))) ;;
      emit [SuppressMouse b]
  | None => ret tt
  end.

Definition suppress_keyboard (b : bool) : M unit :=
  c <- get_self ;;
  match keyboard_listener c with
  | Some l =>
      modify (set_keyboard_listener
                (Some (ConditionalSuppressKeyboardListener.suppress_events b l))) ;;
      emit [SuppressKeyboard b]
  | None => ret tt
  end.

(** One round of the wake-up signal sent on activation. *)
Definition wake_round : M unit :=
  gamepad_call (vg.right_joystick_float 0.5 0.0) ;;
  gamepad_call (vg.press_button vg.XUSB_GAMEPAD_BACK) ;;
  gamepad_update ;;
  emit [Sleep 0.03%float] ;;
  gamepad_call (vg.right_joystick_float 0.0 0.0) ;;
  gamepad_call (vg.release_button vg.XUSB_GAMEPAD_BACK) ;;
  gamepad_update ;;
  emit [Sleep 0.03%float].

Definition activate : M bool :=
  c <- get_self ;;
  if _active c then ret true
  else
    ok <- initialize_gamepad ;;
    if negb ok then ret false
    else
      c <- get_self ;;
      when (bool_decide (is_Some (_gamepad c)))
           (for_each (seq 0 2) (fun _ => wake_round)) ;;
      suppress_mouse true ;;
      suppress_keyboard true ;;
      c <- get_self ;;
      emit (CursorManager.lock_to_center (cursor_manager c)) ;;
      emit (CursorManager.hide_cursor (cursor_manager c)) ;;
      modify (set_active true) ;;
      ret true.

Definition _reset_gamepad (cfg : Config.t) : M unit :=
  c <- get_self ;;
  if bool_decide (_gamepad c = None) then ret tt
  else
    try_except
      (gamepad_call (vg.left_joystick_float 0.0 0.0) ;;
       gamepad_call (vg.right_joystick_float 0.0 0.0) ;;
       for_each (Config.mapped_buttons cfg)
                (fun button => gamepad_call (vg.release_button button)) ;;
       gamepad_call (vg.left_trigger_float 0.0) ;;
       gamepad_call (vg.right_trigger_float 0.0) ;;
       gamepad_update)
      (ret tt).

Definition deactivate (cfg : Config.t) : M unit :=
  c <- get_self ;;
  if negb (_active c) then ret tt
  else
    modify (set_active false) ;;
    _reset_gamepad cfg ;;
    modify (fun c => set_joystick_keys ((fun _ => false) <$> joystick_keys c) c) ;;
    modify (fun c => set_keys ((fun _ => false) <$> keys c) c) ;;
    suppress_mouse false ;;
    suppress_keyboard false ;;
    c <- get_self ;;
    emit (CursorManager.show_cursor (cursor_manager c)).

(** [update_rate]: the caller has stored [new_rate] in the configuration;
    the division raises when it is zero. *)
Definition update_rate (new_rate : Z) : M unit :=
  if (new_rate =? 0)%Z then raise ZeroDivisionError
  else modify (set_update_interval (1.0 / Py.float_of_int new_rate)%float).

(** [shutdown] *)
Definition shutdown (cfg : Config.t) : M unit :=
  deactivate cfg ;;
  c <- get_self ;;
  when (bool_decide (is_Some (_gamepad c)))
       (try_except (gamepad_call (fun _ => vg.new) ;; gamepad_update)
                   (ret tt) ;;
        modify (set_gamepad None)).

(** *** The movement stick *)

Local Open Scope float_scope.

(** One iteration of the loop over [JOYSTICK_KEYS]; the accumulator is
    [(lx, ly, any_key)]. *)
Definition left_step (jk : gmap string bool)
    (acc : float * float * bool) (key : string) : float * float * bool :=
  let '(lx, ly, any_key) := acc in
  if dict_get jk key then
    if String.eqb key "d" then (lx + 1.0, ly, true)
    else if String.eqb key "a" then (lx - 1.0, ly, true)
    else if String.eqb key "w" then (lx, ly + 1.0, true)
    else if String.eqb key "s" then (lx, ly - 1.0, true)
    else (lx, ly, true)
  else acc.

(** The loop: the contributions of the held directions, and whether any
    direction is held. *)
Definition left_contributions (jk : gmap string bool)
    : float * float * bool :=
  fold_left (left_step jk) Config.JOYSTICK_KEYS (0.0, 0.0, false).

(** The vector handed to the device by [_process_left_joystick].  (Python's
    [/] raises on a zero divisor; the divisor here is [sqrt 2] whenever the
    division is reached, see [normalization_divisor] below.) *)
Definition left_axes (jk : gmap string bool) : float * float :=
  let '(lx, ly, any_key) := left_contributions jk in
  let '(lx, ly) :=
    if Py.neb lx 0 && Py.neb ly 0 then
      let magnitude := sqrt (lx * lx + ly * ly) in
      (lx / magnitude, ly / magnitude)
    else (lx, ly) in
  if negb any_key then (0.0, 0.0) else (lx, ly).

Definition _process_left_joystick : M unit :=
  c <- get_self ;;
  let '(lx, ly) := left_axes (joystick_keys c) in
  gamepad_call (vg.left_joystick_float lx ly) ;;
  modify (fun c => set_last_ly ly (set_last_lx lx c)).

(** *** The look stick *)

Definition _get_mouse_movement : M (float * float) :=
  c <- get_self ;;
  let dx := mouse_dx c in
  let dy := mouse_dy c in
  modify (set_mouse_dx 0.0) ;;
  modify (set_mouse_dy 0.0) ;;
  ret (dx, dy).

(** The body of [_process_right_joystick] between the drain and the call to
    the device: recoil, sensitivity, deadzone, smoothing, clamp. *)
Definition right_axes (cfg : Config.t) (c : GamepadController)
    (dx dy : float) : float * float :=
  let dy :=
    if Config.RECOIL_CONTROL_ENABLED cfg && l2_held c
    then dy + Config.RECOIL_COMPENSATION cfg else dy in
  let sens_multiplier :=
    if r2_held c then Config.ADS_SENS_MULTIPLIER cfg else 1.0 in
  let rx := dx * Config.SENS_X cfg * sens_multiplier * Config.DPI_SCALING cfg in
  let ry := - dy * Config.SENS_Y cfg * sens_multiplier * Config.DPI_SCALING cfg in
  let rx := if Py.gtb (abs rx) (Config.DEADZONE cfg) then rx else 0.0 in
  let ry := if Py.gtb (abs ry) (Config.DEADZONE cfg) then ry else 0.0 in
  let rx := last_rx c * Config.SMOOTHING cfg
            + rx * (1.0 - Config.SMOOTHING cfg) in
  let ry := last_ry c * Config.SMOOTHING cfg
            + ry * (1.0 - Config.SMOOTHING cfg) in
  let rx := Py.max (-1.0) (Py.min 1.0 rx) in
  let ry := Py.max (-1.0) (Py.min 1.0 ry) in
  (rx, ry).

Definition _process_right_joystick (cfg : Config.t) : M unit :=
  d <- _get_mouse_movement ;;
  c <- get_self ;;
  let '(rx, ry) := right_axes cfg c (fst d) (snd d) in
  gamepad_call (vg.right_joystick_float rx ry) ;;
  modify (fun c => set_last_ry ry (set_last_rx rx c)).

(** *** Buttons and triggers *)

Definition _process_buttons (cfg : Config.t) : M unit :=
  for_each (Config.KEY_MAPPINGS cfg)
    (fun kb =>
       c <- get_self ;;
       if dict_get (keys c) (fst kb)
       then gamepad_call (vg.press_button (snd kb))
       else gamepad_call (vg.release_button (snd kb))).

Definition _process_triggers : M unit :=
  c <- get_self ;;
  (if l2_held c then gamepad_call (vg.right_trigger_float 1.0)
   else gamepad_call (vg.right_trigger_float 0.0)) ;;
  c <- get_self ;;
  (if r2_held c then gamepad_call (vg.left_trigger_float 1.0)
   else gamepad_call (vg.left_trigger_float 0.0)).

(** *** The scheduler tick *)

(** [process_inputs], with the value [time.time()] returns as argument. *)
Definition process_inputs (cfg : Config.t) (current_time : float) : M unit :=
  c <- get_self ;;
  if current_time - _last_update c <? _update_interval c then ret tt
  else
    modify (set_last_update current_time) ;;
    c <- get_self ;;
    if bool_decide (_gamepad c = None) then ret tt
    else
      when (_active c)
           (_process_left_joystick ;;
            _process_right_joystick cfg ;;
            _process_buttons cfg ;;
            _process_triggers) ;;
      gamepad_update.

Local Close Scope float_scope.

(** ** The input handlers ([application/input_handlers.py]) *)

Module InputHandler.

(** The key identifier the handlers work with. *)
Definition _parse_key (key : Key) : string :=
  match truthy_char key with
  | Some c => lower c
  | None =>
      let key_str := lower (remove_Key_prefix (str_of_key key)) in
      if String.eqb key_str "alt" then
        if is_special key "alt_l" then "alt_l" else "alt_r"
      else if str_in key_str ["shift"; "shift_l"; "shift_r"] then "shift"
      else if is_special key "esc" then "esc"
      else if is_special key "tab" then "tab"
      else if is_special key "space" then "space"
      else key_str
  end.

Definition on_key_press (cfg : Config.t) (key : Key) : M unit :=
  try_except
    (let key_str := _parse_key key in
     if String.eqb key_str (Config.TOGGLE_KEY cfg) then
       c <- get_self ;;
       if _active c then deactivate cfg
       else (_ <- activate ;; ret tt)
     else if str_in key_str Config.JOYSTICK_KEYS then
       modify (fun c => set_joystick_keys (<[key_str := true]> (joystick_keys c)) c)
     else if Config.is_mapped key_str cfg then
       modify (fun c => set_keys (<[key_str := true]> (keys c)) c)
     else ret tt)
    (ret tt).

Definition on_key_release (cfg : Config.t) (key : Key) : M unit :=
  try_except
    (let key_str := _parse_key key in
     if str_in key_str Config.JOYSTICK_KEYS then
       modify (fun c => set_joystick_keys (<[key_str := false]> (joystick_keys c)) c)
     else if Config.is_mapped key_str cfg then
       modify (fun c => set_keys (<[key_str := false]> (keys c)) c)
     else ret tt)
    (ret tt).

(** Reading an attribute the cursor manager never assigned raises. *)
Definition attribute (a : option Z) : M Z :=
  match a with
  | Some v => ret v
  | None => raise AttributeError
  end.

Definition on_mouse_move (x y : Z) : M unit :=
  c <- get_self ;;
  if negb (_active c) then ret tt
  else
    cx <- attribute (CursorManager.center_x (cursor_manager c)) ;;
    let dx := (x - cx)%Z in
    cy <- attribute (CursorManager.center_y (cursor_manager c)) ;;
    let dy := (y - cy)%Z in
    modify (fun c => set_mouse_dx (mouse_dx c + Py.float_of_int dx)%float c) ;;
    modify (fun c => set_mouse_dy (mouse_dy c + Py.float_of_int dy)%float c) ;;
    c <- get_self ;;
    emit (CursorManager.lock_to_center (cursor_manager c)).

Inductive Button := left | right | middle.

Definition on_mouse_click (x y : Z) (button : Button) (pressed : bool)
    : M unit :=
  match button with
  | left => modify (set_l2_held pressed)
  | right => modify (set_r2_held pressed)
  | middle => ret tt
  end.

End InputHandler.

(** ** Python dictionaries in insertion order

    [Config.KEY_MAPPINGS] is a [dict] that the key-mapping window changes in
    place; the loops over it see its entries in insertion order.  It is an
    association list with one entry per key. *)

(** [d[k]]; [None] stands for [KeyError]. *)
Fixpoint getitem {V} (k : string) (d : list (string * V)) : option V :=
  match d with
  | [] => None
  | (k', v) :: d' => if String.eqb k' k then Some v else getitem k d'
  end.

(** [del d[k]], for a key that is present. *)
Fixpoint delitem {V} (k : string) (d : list (string * V))
    : list (string * V) :=
  match d with
  | [] => []
  | (k', v) :: d' => if String.eqb k' k then d' else (k', v) :: delitem k d'
  end.

(** [d[k] = v]: the value is replaced where the key is, or a new entry is
    added at the end. *)
Fixpoint setitem {V} (k : string) (v : V) (d : list (string * V))
    : list (string * V) :=
  match d with
  | [] => [(k, v)]
  | (k', v') :: d' =>
      if String.eqb k' k then (k', v) :: d' else (k', v') :: setitem k v d'
  end.

(** ** The windows ([presentation/gui.py])

    The callbacks of the windows are modelled by what they do to the
    configuration and to the controller; the widgets they repaint are left
    out.  A callback takes the configuration and the world it finds and
    gives the ones it leaves.  The toolkit reports an exception raised by a
    callback and goes on, so what the callback changed before raising stays
    changed. *)

Module MainWindow.

(** The button of the main window. *)
Definition _toggle_controller (cfg : Config.t) : M unit :=
  c <- get_self ;;
  if _active c then deactivate cfg
  else (_ <- activate ;; ret tt).

End MainWindow.

Module KeyMappingDialog.

(** [_remap_toggle_key]: a key that is mapped to a button or that is a
    direction key is refused. *)
Definition _remap_toggle_key (new_key : string) (cfg : Config.t) : Config.t :=
  if Config.is_mapped new_key cfg || str_in new_key Config.JOYSTICK_KEYS
  then cfg
  else Config.with_toggle_key new_key cfg.

(** [_remap_button_key], with [self.remapping_key] as argument.  The first
    statement raises [KeyError] when the key is not in the table, and then
    nothing was changed.  (The statements after the ones modelled here
    repaint the entry field.) *)
Definition _remap_button_key (remapping_key new_key : string)
    (cfg : Config.t) (w : World) : Config.t * World :=
  match getitem remapping_key (Config.KEY_MAPPINGS cfg) with
  | None => (cfg, w)
  | Some old_button =>
      (Config.with_mappings
         (setitem new_key old_button
            (delitem remapping_key (Config.KEY_MAPPINGS cfg))) cfg,
       with_self
         (fun c =>
            match keys c !! remapping_key with
            | Some old_state =>
                set_keys (<[new_key := old_state]>
                            (delete remapping_key (keys c))) c
            | None => c
            end) w)
  end.

(** [_reset_defaults] of the key-mapping window. *)
Definition _reset_defaults (cfg : Config.t) (w : World) : Config.t * World :=
  let cfg' := Config.reset_to_defaults cfg in
  (cfg',
   with_self
     (set_keys
        (list_to_map (map (fun k => (k, false)) (Config.mapped_keys cfg'))))
     w).

End KeyMappingDialog.

Module SettingsDialog.

(** [_update_rate_changed]; [value] is what [int(entry.get())] returned,
    [None] when it raised [ValueError]. *)
Definition _update_rate_changed (value : option Z)
    (cfg : Config.t) (w : World) : Config.t * World :=
  match value with
  | Some value =>
      if (60 <=? value)%Z && (value <=? 240)%Z
      then (Config.with_rate value cfg, snd (update_rate value w))
      else (cfg, w)
  | None => (cfg, w)
  end.

(** [_ads_sens_changed] and [_recoil_comp_changed]; [value] is what
    [float(entry.get())] returned. *)
Definition _ads_sens_changed (value : option float) (cfg : Config.t)
    : Config.t :=
  match value with
  | Some value =>
      if (0.1 <=? value)%float && (value <=? 2.0)%float
      then Config.with_ads_sens_multiplier value cfg
      else cfg
  | None => cfg
  end.

Definition _recoil_comp_changed (value : option float) (cfg : Config.t)
    : Config.t :=
  match value with
  | Some value =>
      if (0.0 <=? value)%float && (value <=? 5.0)%float
      then Config.with_recoil_compensation value cfg
      else cfg
  | None => cfg
  end.

(** [_reset_defaults] of the settings window. *)
Definition _reset_defaults (cfg : Config.t) (w : World) : Config.t * World :=
  let cfg' := Config.reset_to_defaults cfg in
  (cfg', snd (update_rate (Config.UPDATE_RATE_HZ cfg') w)).

End SettingsDialog.

(** What the user can do in the windows, and a session of such actions. *)
Inductive Action :=
| ToggleController
| RemapToggleKey (new_key : string)
| RemapButtonKey (remapping_key new_key : string)
| MappingResetDefaults
| UpdateRateChanged (value : option Z)
| AdsSensChanged (value : option float)
| RecoilCompChanged (value : option float)
| SettingsResetDefaults.

Definition act (a : Action) (s : Config.t * World) : Config.t * World :=
  let '(cfg, w) := s in
  match a with
  | ToggleController => (cfg, snd (MainWindow._toggle_controller cfg w))
  | RemapToggleKey k => (KeyMappingDialog._remap_toggle_key k cfg, w)
  | RemapButtonKey old k => KeyMappingDialog._remap_button_key old k cfg w
  | MappingResetDefaults => KeyMappingDialog._reset_defaults cfg w
  | UpdateRateChanged v => SettingsDialog._update_rate_changed v cfg w
  | AdsSensChanged v => (SettingsDialog._ads_sens_changed v cfg, w)
  | RecoilCompChanged v => (SettingsDialog._recoil_comp_changed v cfg, w)
  | SettingsResetDefaults => SettingsDialog._reset_defaults cfg w
  end.

Definition session (acts : list Action) (s : Config.t * World)
    : Config.t * World :=
  fold_left (fun s a => act a s) acts s.

(** ** Runs of the engine *)

(** What can happen to a running engine: a scheduler tick at some clock
    value, a callback of the capture layer, a change of the configuration
    or of the tick rate from the settings window, or the shutdown. *)
Inductive Event :=
| Tick (current_time : float)
| KeyPress (key : Key)
| KeyRelease (key : Key)
| MouseMove (x y : Z)
| MouseClick (button : InputHandler.Button) (pressed : bool)
| Reconfigure (cfg : Config.t)
| UpdateRate (new_rate : Z)
| Shutdown.

Definition handle (cfg : Config.t) (ev : Event) : M unit :=
  match ev with
  | Tick t => process_inputs cfg t
  | KeyPress k => InputHandler.on_key_press cfg k
  | KeyRelease k => InputHandler.on_key_release cfg k
  | MouseMove x y => InputHandler.on_mouse_move x y
  | MouseClick b p => InputHandler.on_mouse_click 0 0 b p
  | Reconfigure _ => ret tt
  | UpdateRate n => update_rate n
  | Shutdown => shutdown cfg
  end.

(** The world after a sequence of events; an exception ends the callback
    that raised it and the run goes on. *)
Fixpoint run (cfg : Config.t) (evs : list Event) (w : World)
    : Config.t * World :=
  match evs with
  | [] => (cfg, w)
  | Reconfigure cfg' :: evs' => run cfg' evs' w
  | UpdateRate n :: evs' =>
      run (Config.with_rate n cfg) evs'
          (snd (handle (Config.with_rate n cfg) (UpdateRate n) w))
  | ev :: evs' => run cfg evs' (snd (handle cfg ev w))
  end.

(** ** The look-stick stages in the design document's words

    These predicates restate, stage by stage, what the document asks of the
    look stick; the theorems below relate [right_axes] to them. *)

Local Open Scope float_scope.

(** [x] lies in [[-1, 1]]. *)
Definition in_unit_range (x : float) : Prop :=
  (-1 <=? x) = true /\ (x <=? 1) = true.

(** [r] is [v] after the deadzone: zero when [|v| <= deadzone], [v] itself
    when [|v| > deadzone]. *)
Definition deadzoned (deadzone v r : float) : Prop :=
  ((abs v <=? deadzone) = true -> r = 0) /\
  ((deadzone <? abs v) = true -> r = v).

(** The smoothing filter. *)
Definition smoothed (last smoothing v : float) : float :=
  last * smoothing + v * (1 - smoothing).

(** [r] is [v] clamped to [[-1, 1]]. *)
Definition clamped (v r : float) : Prop :=
  in_unit_range r /\
  ((v <? -1) = true -> r = -1) /\
  ((1 <? v) = true -> r = 1) /\
  (in_unit_range v -> r = v).

Local Close Scope float_scope.

(** ** What deactivation leaves behind *)

(** Releasing a list of buttons, one after the other. *)
Definition release_all (buttons : list vg.XUSB_BUTTON)
    (g : vg.VX360Gamepad) : vg.VX360Gamepad :=
  fold_left (fun g b => vg.release_button b g) buttons g.

(** The staged report after the calls of [_reset_gamepad]. *)
Definition reset_report (cfg : Config.t) (g : vg.VX360Gamepad)
    : vg.VX360Gamepad :=
  vg.right_trigger_float 0.0
    (vg.left_trigger_float 0.0
       (release_all (Config.mapped_buttons cfg)
          (vg.right_joystick_float 0.0 0.0
             (vg.left_joystick_float 0.0 0.0 g)))).

(** A report is neutral: both sticks at the origin, no mapped button
    pressed, both triggers at zero. *)
Definition neutral (cfg : Config.t) (g : vg.VX360Gamepad) : Prop :=
  vg.left_joystick g = (0, 0)%float /\
  vg.right_joystick g = (0, 0)%float /\
  (forall b, b ∈ Config.mapped_buttons cfg -> vg.is_pressed b g = false) /\
  vg.left_trigger g = 0%float /\
  vg.right_trigger g = 0%float.

(** No flag of the dictionary is set. *)
Definition all_clear (d : gmap string bool) : Prop :=
  forall k v, d !! k = Some v -> v = false.

(** The device and the key flags after a deactivation that went from [w]
    to [w']: inactive, a neutral report staged and flushed, every key flag
    and joystick-key flag cleared. *)
Definition deactivated (cfg : Config.t) (w w' : World) : Prop :=
  _active (self w') = false /\
  (exists g' rest,
      _gamepad (self w') = Some g' /\ neutral cfg g' /\
      trace w' = (trace w ++ Flush g' :: rest)%list) /\
  all_clear (keys (self w')) /\
  all_clear (joystick_keys (self w')).

(** Deactivation as the design document words it: the above, and both
    trigger-held flags cleared. *)
Definition deactivated_as_documented (cfg : Config.t) (w w' : World) : Prop :=
  deactivated cfg w w' /\
  l2_held (self w') = false /\ r2_held (self w') = false.

(** Deactivation as the code does it: the above, and both trigger-held
    flags left as they were. *)
Definition deactivated_as_coded (cfg : Config.t) (w w' : World) : Prop :=
  deactivated cfg w w' /\
  l2_held (self w') = l2_held (self w) /\ r2_held (self w') = r2_held (self w).

(** ** What a scheduler tick computes *)

(** The tick is not skipped: the time since the last one is not below the
    period. *)
Definition tick_due (c : GamepadController) (current_time : float) : bool :=
  negb (current_time - _last_update c <? _update_interval c)%float.

(** The report after the loop of [_process_buttons]. *)
Definition buttons_report (cfg : Config.t) (ks : gmap string bool)
    (g : vg.VX360Gamepad) : vg.VX360Gamepad :=
  fold_left
    (fun g kb => if dict_get ks (fst kb) then vg.press_button (snd kb) g
                 else vg.release_button (snd kb) g)
    (Config.KEY_MAPPINGS cfg) g.

(** The report staged by the four mappers, from the controller [c] and the
    report [g] staged before. *)
Definition staged_by_tick (cfg : Config.t) (c : GamepadController)
    (g : vg.VX360Gamepad) : vg.VX360Gamepad :=
  let l := left_axes (joystick_keys c) in
  let r := right_axes cfg c (mouse_dx c) (mouse_dy c) in
  vg.left_trigger_float (if r2_held c then 1.0 else 0.0)
    (vg.right_trigger_float (if l2_held c then 1.0 else 0.0)
       (buttons_report cfg (keys c)
          (vg.right_joystick_float (fst r) (snd r)
             (vg.left_joystick_float (fst l) (snd l) g))))%float.

(** The controller after the four mappers of a tick at [current_time]. *)
Definition after_tick (cfg : Config.t) (current_time : float)
    (g : vg.VX360Gamepad) (c : GamepadController) : GamepadController :=
  let l := left_axes (joystick_keys c) in
  let r := right_axes cfg c (mouse_dx c) (mouse_dy c) in
  set_gamepad (Some (staged_by_tick cfg c g))
    (set_last_ry (snd r) (set_last_rx (fst r)
       (set_mouse_dy 0.0 (set_mouse_dx 0.0
          (set_last_ly (snd l) (set_last_lx (fst l)
             (set_last_update current_time c)))))))%float.

(** The call went from [w] to [w'] and flushed the device exactly once. *)
Definition flushed_once (w w' : World) : Prop :=
  exists g, trace w' = (trace w ++ [Flush g])%list.

(** The tick of the design document: skipped when not due; otherwise the
    device is flushed, whatever the activation state. *)
Definition tick_as_documented (cfg : Config.t) (now : float) (w : World)
    : Prop :=
  (tick_due (self w) now = false -> process_inputs cfg now w = (Ok tt, w)) /\
  (tick_due (self w) now = true ->
   flushed_once w (snd (process_inputs cfg now w))).

(** ** The length of the movement vector *)

(** The rational number a finite binary64 value stands for. *)
Definition exact (x : float) : option Q :=
  match Prim2SF x with
  | S754_zero _ => Some 0%Q
  | S754_finite s m e =>
      Some (inject_Z (if s then Z.neg m else Z.pos m) * 2 ^ e)%Q
  | _ => None
  end.

(** The square of the Euclidean norm of [(x, y)], computed exactly. *)
Definition norm_sq (x y : float) : option Q :=
  match exact x, exact y with
  | Some a, Some b => Some (a * a + b * b)%Q
  | _, _ => None
  end.

(** The Euclidean norm of [(x, y)] is at most 1. *)
Definition norm_at_most_one (x y : float) : Prop :=
  match norm_sq x y with
  | Some q => (q <= 1)%Q
  | None => False
  end.

(** [(x, y)] has unit length to the precision of binary64: the square of
    its norm is within [2^-52] (the gap between 1 and the next float) of 1,
    and not above it. *)
Definition unit_length (x y : float) : Prop :=
  match norm_sq x y with
  | Some q => (1 - 2 ^ (-52) <= q)%Q /\ (q <= 1)%Q
  | None => False
  end.

(** The documented movement stick, for a dictionary [jk] of held
    directions and the vector [(lx, ly)] handed to the device. *)
Definition movement_stick_ok (jk : gmap string bool) (lx ly : float) : Prop :=
  let '(cx, cy, _) := left_contributions jk in
  (* norm at most 1, exactly and as [math.sqrt] computes it *)
  norm_at_most_one lx ly /\
  (sqrt (lx * lx + ly * ly) <=? 1)%float = true /\
  (* nothing held: exactly the origin *)
  (dict_get jk "w" = false -> dict_get jk "a" = false ->
   dict_get jk "s" = false -> dict_get jk "d" = false ->
   (lx, ly) = (0, 0)%float) /\
  (* both contributions non-zero: divided by the norm, unit length *)
  (Py.neb cx 0 = true -> Py.neb cy 0 = true ->
   (lx, ly) = (cx / sqrt (cx * cx + cy * cy),
               cy / sqrt (cx * cx + cy * cy))%float /\
   unit_length lx ly) /\
  (* forward and right alone: the unit diagonal *)
  (dict_get jk "w" = true -> dict_get jk "d" = true ->
   dict_get jk "a" = false -> dict_get jk "s" = false ->
   (lx, ly) = (1 / sqrt 2, 1 / sqrt 2)%float /\
   (lx, ly) = (0.7071067811865475, 0.7071067811865475)%float).

(** [x] is a zero or NaN: what a product with a zero factor can be. *)
Definition zero_or_nan (x : float) : bool :=
  match Prim2SF x with
  | S754_zero _ | S754_nan => true
  | _ => false
  end.

(** ** Re-activation *)

(** Nothing is held: no mapped key, no direction, neither mouse button. *)
Definition nothing_held (c : GamepadController) : Prop :=
  all_clear (keys c) /\ all_clear (joystick_keys c) /\
  l2_held c = false /\ r2_held c = false.

(** Activating [w] and running one tick at [now] ends with the flush of a
    neutral report. *)
Definition first_tick_neutral (cfg : Config.t) (now : float) (w : World)
    : Prop :=
  let w' := snd (process_inputs cfg now (snd (activate w))) in
  exists g, last (trace w') = Some (Flush g) /\ neutral cfg g.

(** The staged report after the wake-up signal of [activate]. *)
Definition woken (g : vg.VX360Gamepad) : vg.VX360Gamepad :=
  let round g :=
    vg.release_button vg.XUSB_GAMEPAD_BACK
      (vg.right_joystick_float 0.0 0.0
         (vg.press_button vg.XUSB_GAMEPAD_BACK
            (vg.right_joystick_float 0.5 0.0 g))) in
  round (round g).

(** ** One look-stick tick, stage by stage *)

(** [w'] is [w] after one look-stick tick on the staged report [g], as the
    design document describes it: recoil folded into [dy], sensitivity with
    the ADS multiplier, Y inverted, deadzone on each axis, smoothing against
    the previous output, clamp, and the clamped values both staged on the
    device and stored for the next tick.  The pending displacement is
    drained; nothing else changes. *)
Definition look_stick_tick (cfg : Config.t) (w : World)
    (g : vg.VX360Gamepad) (w' : World) : Prop :=
  let c := self w in
  let dx := mouse_dx c in
  let dy :=
    if Config.RECOIL_CONTROL_ENABLED cfg && l2_held c
    then (mouse_dy c + Config.RECOIL_COMPENSATION cfg)%float
    else mouse_dy c in
  let m := if r2_held c then Config.ADS_SENS_MULTIPLIER cfg else 1%float in
  let rx0 := (dx * Config.SENS_X cfg * m * Config.DPI_SCALING cfg)%float in
  let ry0 := (- (dy * Config.SENS_Y cfg * m * Config.DPI_SCALING cfg))%float in
  exists rx1 ry1 rx ry : float,
    deadzoned (Config.DEADZONE cfg) rx0 rx1 /\
    deadzoned (Config.DEADZONE cfg) ry0 ry1 /\
    clamped (smoothed (last_rx c) (Config.SMOOTHING cfg) rx1) rx /\
    clamped (smoothed (last_ry c) (Config.SMOOTHING cfg) ry1) ry /\
    w' = with_self
           (fun c =>
              set_last_ry ry (set_last_rx rx
                (set_gamepad (Some (vg.right_joystick_float rx ry g))
                   (set_mouse_dy 0 (set_mouse_dx 0 c))))) w.

(** ** The look-stick invariant *)

(** The look stick of a report lies in the device's range. *)
Definition stick_ok (g : vg.VX360Gamepad) : Prop :=
  in_unit_range (fst (vg.right_joystick g)) /\
  in_unit_range (snd (vg.right_joystick g)).

Definition effect_ok (e : Effect) : Prop :=
  match e with
  | Flush g => stick_ok g
  | _ => True
  end.

(** The stored look-stick output and the staged look stick are in range. *)
Definition controller_ok (c : GamepadController) : Prop :=
  in_unit_range (last_rx c) /\ in_unit_range (last_ry c) /\
  forall g, _gamepad c = Some g -> stick_ok g.

(** ... and so is the look stick of every report flushed so far. *)
Definition look_stick_invariant (w : World) : Prop :=
  controller_ok (self w) /\ Forall effect_ok (trace w).

(** [m] preserves the invariant, and what it returns satisfies [Q]. *)
Definition keeps {A} (m : M A) (Q : A -> Prop) : Prop :=
  forall w, look_stick_invariant w ->
    look_stick_invariant (snd (m w)) /\
    forall a, fst (m w) = Ok a -> Q a.

(** The postcondition that asks nothing of the returned value. *)
Definition any {A} : A -> Prop := fun _ => True.

(** ** The device of an active controller *)

(** An active controller has a device. *)
Definition device_invariant (w : World) : Prop :=
  _active (self w) = true -> is_Some (_gamepad (self w)).

(** [w'] has the activation state of [w], and a device if [w] has one. *)
Definition same_device (w w' : World) : Prop :=
  _active (self w') = _active (self w) /\
  (is_Some (_gamepad (self w)) -> is_Some (_gamepad (self w'))).

(** ** Sample worlds

    The engine as [main] sets it up (default configuration, clock at 0,
    a 1920x1080 screen, both listeners attached), used to evaluate the
    definitions on concrete inputs. *)

Definition sample_cursor : CursorManager.t :=
  {| CursorManager.enabled := true;
     CursorManager.center_x := Some 960;
     CursorManager.center_y := Some 540 |}.

Definition attach_listeners (c : GamepadController) : GamepadController :=
  set_keyboard_listener
    (Some {| ConditionalSuppressKeyboardListener._suppress := false;
             ConditionalSuppressKeyboardListener._toggle_key :=
               Config.TOGGLE_KEY Config.defaults |})
    (set_mouse_listener
       (Some {| ConditionalSuppressMouseListener._suppress := false |}) c).

(** Just started: inactive, device created. *)
Definition started : World :=
  with_self attach_listeners
    (init_world Config.defaults 0%float sample_cursor true).

(** Just started on a machine whose bus driver refuses the device. *)
Definition started_without_driver : World :=
  with_self attach_listeners
    (init_world Config.defaults 0%float sample_cursor false).

(** After the toggle key was pressed once: active. *)
Definition running : World := snd (activate started).

(** Active, with the fire button (left mouse button) held. *)
Definition firing : World :=
  snd (InputHandler.on_mouse_click 0 0 InputHandler.left true running).

(** Active, after the mouse moved 100 pixels right and 50 down. *)
Definition moved : World :=
  snd (InputHandler.on_mouse_move 1060 590 running).

(** Deactivated again, at rest. *)
Definition paused : World := snd (deactivate Config.defaults running).

(** Deactivated right after the mouse moved, before any tick drained the
    movement. *)
Definition paused_after_move : World :=
  snd (deactivate Config.defaults moved).

(** A keyboard listener whose toggle key is the special key F1, with
    suppression enabled (the controller is active). *)
Definition f1_listener : ConditionalSuppressKeyboardListener.t :=
  {| ConditionalSuppressKeyboardListener._suppress := true;
     ConditionalSuppressKeyboardListener._toggle_key := "f1" |}.

(** ** Buttons in line with the key flags *)

(** The report [g'] is [g] with the mapped buttons brought in line with
    the key flags [ks]: a mapped button is pressed exactly when the flag of
    its key is set (a key without a flag counts as not held); the other
    buttons, the sticks and the triggers are those of [g]. *)
Definition buttons_synced (cfg : Config.t) (ks : gmap string bool)
    (g g' : vg.VX360Gamepad) : Prop :=
  (forall key button, (key, button) ∈ Config.KEY_MAPPINGS cfg ->
     vg.is_pressed button g' = dict_get ks key) /\
  (forall button, button ∉ Config.mapped_buttons cfg ->
     vg.is_pressed button g' = vg.is_pressed button g) /\
  vg.left_joystick g' = vg.left_joystick g /\
  vg.right_joystick g' = vg.right_joystick g /\
  vg.left_trigger g' = vg.left_trigger g /\
  vg.right_trigger g' = vg.right_trigger g.

(** ** Activation and deactivation, request by request *)

(** The controller after both listeners, where attached, were told to
    suppress ([b] true) or to let through ([b] false), and the requests
    this sends: to the mouse listener first. *)
Definition told_listeners (b : bool) (c : GamepadController)
    : GamepadController :=
  set_keyboard_listener
    (ConditionalSuppressKeyboardListener.suppress_events b
       <$> keyboard_listener c)
    (set_mouse_listener
       (ConditionalSuppressMouseListener.suppress_events b
          <$> mouse_listener c) c).

Definition suppression_requests (b : bool) (c : GamepadController)
    : list Effect :=
  match mouse_listener c with Some _ => [SuppressMouse b] | None => [] end
  ++ match keyboard_listener c with
     | Some _ => [SuppressKeyboard b]
     | None => []
     end.

(** One round of the wake-up signal on the staged report [g]: the report
    flushed first (look stick pushed right, BACK pressed), the report
    flushed second (look stick centred, BACK released), and the requests of
    the round. *)
Definition wake_report (g : vg.VX360Gamepad) : vg.VX360Gamepad :=
  vg.press_button vg.XUSB_GAMEPAD_BACK (vg.right_joystick_float 0.5 0.0 g).

Definition rest_report (g : vg.VX360Gamepad) : vg.VX360Gamepad :=
  vg.release_button vg.XUSB_GAMEPAD_BACK
    (vg.right_joystick_float 0.0 0.0 (wake_report g)).

Definition wake_requests (g : vg.VX360Gamepad) : list Effect :=
  [Flush (wake_report g); Sleep 0.03%float;
   Flush (rest_report g); Sleep 0.03%float].

(** What [activate] sends for a controller [c] whose staged report is [g],
    in the order it is sent, and the controller it leaves. *)
Definition activation_requests (c : GamepadController)
    (g : vg.VX360Gamepad) : list Effect :=
  wake_requests g ++ wake_requests (rest_report g)
  ++ suppression_requests true c
  ++ CursorManager.lock_to_center (cursor_manager c)
  ++ CursorManager.hide_cursor (cursor_manager c).

Definition activated (g : vg.VX360Gamepad) (c : GamepadController)
    : GamepadController :=
  set_active true
    (told_listeners true
       (set_gamepad (Some (rest_report (rest_report g))) c)).

(** What [deactivate] sends for an active controller [c], and the
    controller it leaves. *)
Definition deactivation_requests (cfg : Config.t) (c : GamepadController)
    : list Effect :=
  match _gamepad c with
  | Some g => [Flush (reset_report cfg g)]
  | None => []
  end
  ++ suppression_requests false c
  ++ CursorManager.show_cursor (cursor_manager c).

Definition deactivated_controller (cfg : Config.t) (c : GamepadController)
    : GamepadController :=
  told_listeners false
    (set_keys ((fun _ => false) <$> keys c)
       (set_joystick_keys ((fun _ => false) <$> joystick_keys c)
          (set_gamepad (reset_report cfg <$> _gamepad c)
             (set_active false c)))).

(** ** Sessions: callbacks, ticks and window actions interleaved *)

Inductive Input :=
| Engine (ev : Event)
| Window (a : Action).

Definition step (i : Input) (s : Config.t * World) : Config.t * World :=
  match i with
  | Engine ev => run (fst s) [ev] (snd s)
  | Window a => act a s
  end.

Definition play (ins : list Input) (s : Config.t * World)
    : Config.t * World :=
  fold_left (fun s i => step i s) ins s.

(** ** Suppression follows activation *)

(** Each attached listener suppresses exactly when the controller is
    active. *)
Definition suppression_invariant (w : World) : Prop :=
  (forall l, mouse_listener (self w) = Some l ->
     ConditionalSuppressMouseListener._suppress l = _active (self w)) /\
  (forall l, keyboard_listener (self w) = Some l ->
     ConditionalSuppressKeyboardListener._suppress l = _active (self w)).

(** [w'] has the activation state and the listeners of [w]. *)
Definition same_listeners (w w' : World) : Prop :=
  _active (self w') = _active (self w) /\
  mouse_listener (self w') = mouse_listener (self w) /\
  keyboard_listener (self w') = keyboard_listener (self w).

(** What the listeners do with the events of the capture layer in the
    world [w]: nothing is held back. *)
Definition lets_everything_through (w : World) : Prop :=
  (forall l, mouse_listener (self w) = Some l ->
     ConditionalSuppressMouseListener._suppress_event l = false) /\
  (forall l event, keyboard_listener (self w) = Some l ->
     ConditionalSuppressKeyboardListener._suppress_event l event = false).

(** The reports flushed to the bus, oldest first. *)
Definition flushes (tr : list Effect) : list vg.VX360Gamepad :=
  omap (fun e => match e with Flush g => Some g | _ => None end) tr.

(** [x] is a number: neither an infinity nor NaN. *)
Definition isfinite (x : float) : bool :=
  match Prim2SF x with
  | S754_zero _ | S754_finite _ _ _ => true
  | _ => false
  end.

(** ** The configuration in the hands of the windows *)

(** The attributes no window assigns and [reset_to_defaults] does not
    reset. *)
Definition fixed_part (c : Config.t)
    : float * float * float * float * float * bool :=
  (Config.DPI_SCALING c, Config.SENS_X c, Config.SENS_Y c,
   Config.DEADZONE c, Config.SMOOTHING c, Config.RECOIL_CONTROL_ENABLED c).

(** The three settings of the settings window lie in the ranges the window
    accepts. *)
Definition settings_in_range (c : Config.t) : Prop :=
  (60 <= Config.UPDATE_RATE_HZ c <= 240)%Z /\
  (0.1 <=? Config.ADS_SENS_MULTIPLIER c)%float = true /\
  (Config.ADS_SENS_MULTIPLIER c <=? 2.0)%float = true /\
  (0.0 <=? Config.RECOIL_COMPENSATION c)%float = true /\
  (Config.RECOIL_COMPENSATION c <=? 5.0)%float = true.

(** The controller's tick period is the one of the configured rate. *)
Definition period_in_step (s : Config.t * World) : Prop :=
  _update_interval (self (snd s))
  = (1.0 / Py.float_of_int (Config.UPDATE_RATE_HZ (fst s)))%float.

(** The mapping table has one entry per key, as a [dict] has. *)
Definition is_dict {V} (d : list (string * V)) : Prop := NoDup (map fst d).

(** ** The cursor's display counter ([infrastructure/cursor_manager.py])

    Windows keeps a display counter for the cursor and shows the cursor
    while the counter is at least zero.  [hide_cursor] and [show_cursor]
    drive that counter through [ShowCursor]; the requests [HideCursor] and
    [ShowCursor] of the trace stand for the bodies of these two methods
    once the manager is enabled. *)

Module user32.

(** [ShowCursor(bShow)] adds one to the display counter, or takes one off,
    and returns the new value. *)
Definition ShowCursor (bShow : bool) (counter : Z) : Z :=
  if bShow then counter + 1 else counter - 1.

Definition visible (counter : Z) : bool := (0 <=? counter)%Z.

End user32.

(** The loop of [hide_cursor], with [remaining] standing for
    [100 - count]: it goes on while the value returned last is at least
    zero. *)
Fixpoint hide_loop (remaining : nat) (cursor_count : Z) : Z :=
  match remaining with
  | O => cursor_count
  | S n =>
      if (0 <=? cursor_count)%Z
      then hide_loop n (user32.ShowCursor false cursor_count)
      else cursor_count
  end.

(** The loop of [show_cursor]: it goes on while the value returned last is
    below zero. *)
Fixpoint show_loop (remaining : nat) (cursor_count : Z) : Z :=
  match remaining with
  | O => cursor_count
  | S n =>
      if (cursor_count <? 0)%Z
      then show_loop n (user32.ShowCursor true cursor_count)
      else cursor_count
  end.

(** The display counter after [hide_cursor] and after [show_cursor]. *)
Definition counter_after_hide (counter : Z) : Z :=
  hide_loop 100 (user32.ShowCursor false counter).

Definition counter_after_show (counter : Z) : Z :=
  show_loop 100 (user32.ShowCursor true counter).

(** The display counter after the requests of a trace. *)
Definition display_counter (tr : list Effect) (counter : Z) : Z :=
  fold_left
    (fun counter e =>
       match e with
       | HideCursor => counter_after_hide counter
       | ShowCursor => counter_after_show counter
       | _ => counter
       end) tr counter.

(** With an enabled cursor manager and the counter at zero when the engine
    started, the cursor is hidden, one step below zero, exactly while the
    controller is active. *)
Definition cursor_invariant (w : World) : Prop :=
  CursorManager.enabled (cursor_manager (self w)) = true /\
  display_counter (trace w) 0 = (if _active (self w) then -1 else 0)%Z.

(** ** The engine as [main] sets it up ([main.py])

    [main] constructs the controller, constructs the two listeners (not
    suppressing, the keyboard listener with the configured toggle key) and
    stores them in the controller, before anything else runs. *)
Definition main_world (cfg : Config.t) (now : float) (cm : CursorManager.t)
    (vigem : bool) : World :=
  with_self
    (fun c =>
       set_mouse_listener
         (Some {| ConditionalSuppressMouseListener._suppress := false |})
         (set_keyboard_listener
            (Some {| ConditionalSuppressKeyboardListener._suppress := false;
                     ConditionalSuppressKeyboardListener._toggle_key :=
                       Config.TOGGLE_KEY cfg |}) c))
    (init_world cfg now cm vigem).

(** * Properties *)

(** ** Facts about binary64 comparison and multiplication *)

Section FloatFacts.

Local Open Scope float_scope.

Lemma SFcompare_antisym (x y : spec_float) :
  SFcompare y x = option_map CompOpp (SFcompare x y).
Proof.
  destruct x as [sx|sx| |sx mx ex], y as [sy|sy| |sy my ey]; simpl;
    try destruct sx; try destruct sy; simpl; try reflexivity;
    rewrite (Z.compare_antisym ex ey);
    destruct (ex ?= ey)%Z; simpl; try reflexivity;
    rewrite (Pos.compare_cont_antisym mx my Eq); reflexivity.
Qed.

Lemma ltb_leb (x y : float) : (x <? y) = true -> (x <=? y) = true.
Proof.
  rewrite ltb_spec, leb_spec. unfold SFltb, SFleb.
  destruct (SFcompare _ _) as [[]|]; congruence.
Qed.

Lemma ltb_asym (x y : float) : (x <? y) = true -> (y <? x) = false.
Proof.
  rewrite !ltb_spec. unfold SFltb.
  rewrite (SFcompare_antisym (Prim2SF x) (Prim2SF y)).
  destruct (SFcompare _ _) as [[]|]; simpl; congruence.
Qed.

Lemma leb_not_gtb (x y : float) : (x <=? y) = true -> (y <? x) = false.
Proof.
  rewrite ltb_spec, leb_spec. unfold SFltb, SFleb.
  rewrite (SFcompare_antisym (Prim2SF x) (Prim2SF y)).
  destruct (SFcompare _ _) as [[]|]; simpl; congruence.
Qed.

(** Comparing equal to a non-zero finite number means being that number. *)
Lemma SFcompare_Eq_finite (x : spec_float) s m e :
  SFcompare x (S754_finite s m e) = Some Eq -> x = S754_finite s m e.
Proof.
  destruct x as [sx|sx| |sx mx ex]; simpl.
  - destruct s; discriminate.
  - destruct sx; discriminate.
  - discriminate.
  - destruct sx, s; try discriminate.
    + destruct (ex ?= e)%Z eqn:He; try discriminate.
      apply Z.compare_eq in He. subst ex.
      destruct (Pos.compare_cont Eq mx m) eqn:Hm; try discriminate.
      apply Pos.compare_eq in Hm. subst. reflexivity.
    + destruct (ex ?= e)%Z eqn:He; try discriminate.
      apply Z.compare_eq in He. subst ex.
      destruct (Pos.compare_cont Eq mx m) eqn:Hm; try discriminate.
      apply Pos.compare_eq in Hm. subst. reflexivity.
Qed.

Lemma leb_not_ltb_one (x : float) :
  (x <=? 1) = true -> (x <? 1) = false -> x = 1.
Proof.
  rewrite ltb_spec, leb_spec. unfold SFltb, SFleb. intros Hle Hlt.
  apply Prim2SF_inj.
  change (Prim2SF 1) with (S754_finite false 4503599627370496 (-52)) in *.
  apply SFcompare_Eq_finite.
  destruct (SFcompare _ _) as [[]|]; congruence.
Qed.

Lemma leb_not_ltb_minus_one (x : float) :
  (-1 <=? x) = true -> (-1 <? x) = false -> x = -1.
Proof.
  rewrite ltb_spec, leb_spec. unfold SFltb, SFleb.
  rewrite (SFcompare_antisym (Prim2SF x) (Prim2SF (-1))).
  intros Hle Hlt. apply Prim2SF_inj.
  change (Prim2SF (-1)) with (S754_finite true 4503599627370496 (-52)) in *.
  apply SFcompare_Eq_finite.
  destruct (SFcompare _ _) as [[]|]; simpl in *; congruence.
Qed.

Lemma ltb_minus_one_ltb_one (x : float) :
  (x <? -1) = true -> (x <? 1) = true.
Proof.
  rewrite !ltb_spec. unfold SFltb.
  change (Prim2SF (-1)) with (S754_finite true 4503599627370496 (-52)).
  change (Prim2SF 1) with (S754_finite false 4503599627370496 (-52)).
  destruct (Prim2SF x) as [s|s| |s m e];
    try destruct s; cbv beta iota delta [SFcompare]; congruence.
Qed.

(** Python's [max(-1.0, min(1.0, x))] clamps, NaN included. *)
Lemma clamp_clamped (x : float) : clamped x (Py.max (-1) (Py.min 1 x)).
Proof.
  unfold clamped, in_unit_range, Py.max, Py.min, Py.gtb.
  destruct (x <? 1) eqn:H1.
  - destruct (-1 <? x) eqn:H2.
    + repeat split; auto using ltb_leb.
      * intros H. apply ltb_asym in H. congruence.
      * intros H. apply ltb_asym in H. congruence.
    + repeat split; try reflexivity.
      * intros H. apply ltb_asym in H. congruence.
      * intros [Ha _]. symmetry. now apply leb_not_ltb_minus_one.
  - change (-1 <? 1) with true. cbv iota.
    repeat split; try reflexivity.
    + intros H. apply ltb_minus_one_ltb_one in H. congruence.
    + intros [_ Hb]. symmetry. now apply leb_not_ltb_one.
Qed.

Lemma clamp_in_unit_range (x : float) :
  in_unit_range (Py.max (-1) (Py.min 1 x)).
Proof. apply clamp_clamped. Qed.

(** The deadzone test of the code, [abs(v) > deadzone]. *)
Lemma deadzone_deadzoned (dz v : float) :
  deadzoned dz v (if Py.gtb (abs v) dz then v else 0).
Proof.
  unfold deadzoned, Py.gtb. split; intros H.
  - apply leb_not_gtb in H. now rewrite H.
  - now rewrite H.
Qed.

Lemma binary_round_aux_opp s m e l :
  binary_round_aux prec emax (negb s) m e l
  = SFopp (binary_round_aux prec emax s m e l).
Proof.
  unfold binary_round_aux.
  destruct (shr_fexp prec emax m e l) as [mrs e'].
  destruct (shr_fexp prec emax _ e' loc_Exact) as [mrs' e''].
  destruct (shr_m mrs'); try reflexivity.
  destruct (e'' <=? emax - prec)%Z; reflexivity.
Qed.

Lemma SFmul_opp_l (x y : spec_float) :
  SFmul prec emax (SFopp x) y = SFopp (SFmul prec emax x y).
Proof.
  destruct x as [sx|sx| |sx mx ex], y as [sy|sy| |sy my ey]; simpl;
    try reflexivity; try (now destruct sx, sy).
  rewrite <- binary_round_aux_opp. now destruct sx, sy.
Qed.

(** Negating a factor negates the product, exactly. *)
Lemma mul_opp_l (x y : float) : (- x) * y = - (x * y).
Proof.
  apply Prim2SF_inj.
  rewrite mul_spec, !opp_spec, mul_spec. apply SFmul_opp_l.
Qed.

End FloatFacts.

(** ** Calls that leave the world as it is *)

(** C10: a mouse movement reported while the controller is inactive is
    discarded: the handler returns at once, so the pending displacement, the
    rest of the controller and the requests sent to the cursor are all
    unchanged. *)
Theorem mouse_move_while_inactive (x y : Z) (w : World) :
  _active (self w) = false ->
  InputHandler.on_mouse_move x y w = (Ok tt, w).
Proof.
  intros H. unfold InputHandler.on_mouse_move, bind, get_self.
  rewrite H. reflexivity.
Qed.

Lemma mouse_move_while_inactive_witness :
  _active (self started) = false /\
  InputHandler.on_mouse_move 1000 600 started = (Ok tt, started).
Proof.
  split; [reflexivity | apply mouse_move_while_inactive; reflexivity].
Defined.

(** While active, with the screen centre known, the same call adds the
    offset from the centre to the pending displacement and re-centres the
    cursor. *)
Lemma mouse_move_while_active (x y cx cy : Z) (w : World) :
  _active (self w) = true ->
  CursorManager.center_x (cursor_manager (self w)) = Some cx ->
  CursorManager.center_y (cursor_manager (self w)) = Some cy ->
  let w' := snd (InputHandler.on_mouse_move x y w) in
  mouse_dx (self w') = (mouse_dx (self w) + Py.float_of_int (x - cx))%float /\
  mouse_dy (self w') = (mouse_dy (self w) + Py.float_of_int (y - cy))%float /\
  trace w'
  = (trace w ++ CursorManager.lock_to_center (cursor_manager (self w)))%list.
Proof.
  intros Ha Hx Hy.
  unfold InputHandler.on_mouse_move, InputHandler.attribute, bind, get_self,
    modify, emit, ret.
  rewrite Ha. cbn. rewrite Hx, Hy. cbn. auto.
Qed.

(** C7: a request for the state the controller is already in changes
    nothing: the controller object, the staged report and the trace of
    requests (flushes, pauses, suppression, cursor) are the ones before the
    call. *)
Theorem transition_to_current_state_is_noop (cfg : Config.t) (w : World) :
  (_active (self w) = true -> activate w = (Ok true, w)) /\
  (_active (self w) = false -> deactivate cfg w = (Ok tt, w)).
Proof.
  split; intros H.
  - unfold activate, bind, get_self. rewrite H. reflexivity.
  - unfold deactivate, bind, get_self. rewrite H. reflexivity.
Qed.

Lemma transition_to_current_state_is_noop_witness :
  (_active (self running) = true /\ activate running = (Ok true, running)) /\
  (_active (self started) = false /\
   deactivate Config.defaults started = (Ok tt, started)).
Proof.
  split; (split; [reflexivity |]).
  - apply (transition_to_current_state_is_noop Config.defaults running).
    reflexivity.
  - apply (transition_to_current_state_is_noop Config.defaults started).
    reflexivity.
Defined.

(** [initialize_gamepad] reports failure as a value. *)
Lemma initialize_gamepad_returns (w : World) :
  exists b, fst (initialize_gamepad w) = Ok b.
Proof.
  unfold initialize_gamepad, try_except, bind, get_self, new_VX360Gamepad.
  cbn. destruct (_gamepad (self w)); cbn; eauto.
  destruct (vigem_available w); cbn; eauto.
Qed.

Lemma initialize_gamepad_false (w : World) :
  fst (initialize_gamepad w) = Ok false -> initialize_gamepad w = (Ok false, w).
Proof.
  unfold initialize_gamepad, try_except, bind, get_self, new_VX360Gamepad.
  cbn. destruct (_gamepad (self w)); cbn; try discriminate.
  destruct (vigem_available w); cbn; try discriminate. reflexivity.
Qed.

(** C8: when the device cannot be initialised, [activate] returns [False]
    (it does not raise), the controller stays inactive, and nothing was
    requested: no wake-up signal, no suppression, no cursor request. *)
Theorem activate_without_device (w : World) :
  _active (self w) = false ->
  fst (initialize_gamepad w) = Ok false ->
  activate w = (Ok false, w).
Proof.
  intros Ha Hi. apply initialize_gamepad_false in Hi.
  unfold activate, bind, get_self. rewrite Ha, Hi. reflexivity.
Qed.

Lemma activate_without_device_witness :
  _active (self started_without_driver) = false /\
  fst (initialize_gamepad started_without_driver) = Ok false /\
  activate started_without_driver = (Ok false, started_without_driver).
Proof.
  split; [reflexivity | split; [reflexivity |]].
  apply activate_without_device; reflexivity.
Defined.

(** ** Running the methods on a world whose device exists *)

Lemma bind_ok {A B} (m : M A) (k : A -> M B) (w w' : World) (a : A) :
  m w = (Ok a, w') -> (x <- m ;; k x) w = k a w'.
Proof. intros H. unfold bind. now rewrite H. Qed.

Lemma with_self_set_gamepad_id (w : World) g :
  _gamepad (self w) = Some g -> with_self (set_gamepad (Some g)) w = w.
Proof. destruct w as [[] ? ?]; cbn; intros ->; reflexivity. Qed.

Lemma with_self_set_gamepad_twice (w : World) x y :
  with_self (set_gamepad x) (with_self (set_gamepad y) w)
  = with_self (set_gamepad x) w.
Proof. destruct w as [[] ? ?]; reflexivity. Qed.

Lemma gamepad_call_Some f (w : World) g :
  _gamepad (self w) = Some g ->
  gamepad_call f w = (Ok tt, with_self (set_gamepad (Some (f g))) w).
Proof.
  intros H. unfold gamepad_call, bind, get_self. rewrite H. reflexivity.
Qed.

Lemma gamepad_update_Some (w : World) g :
  _gamepad (self w) = Some g ->
  gamepad_update w = (Ok tt, with_requests [Flush g] w).
Proof.
  intros H. unfold gamepad_update, bind, get_self. rewrite H. reflexivity.
Qed.

Lemma release_loop (l : list vg.XUSB_BUTTON) (w : World) g :
  _gamepad (self w) = Some g ->
  for_each l (fun b => gamepad_call (vg.release_button b)) w
  = (Ok tt, with_self (set_gamepad (Some (release_all l g))) w).
Proof.
  revert w g. induction l as [|b l IH]; intros w g H; cbn.
  - now rewrite with_self_set_gamepad_id.
  - unfold bind. rewrite (gamepad_call_Some _ w g H).
    rewrite (IH _ (vg.release_button b g)).
    + now rewrite with_self_set_gamepad_twice.
    + destruct w as [[] ? ?]; reflexivity.
Qed.

Lemma suppress_mouse_run (b : bool) (w : World) :
  exists ml tr,
    suppress_mouse b w
    = (Ok tt, with_requests tr (with_self (set_mouse_listener ml) w)).
Proof.
  destruct w as [[? ? ? ? ? ? ? ? ? ? ? ? ? ? ? [ml|] kl] tr v].
  - eexists _, _. reflexivity.
  - exists None, []. unfold suppress_mouse, bind, get_self, ret,
      with_requests, with_self. cbn. now rewrite app_nil_r.
Qed.

Lemma suppress_keyboard_run (b : bool) (w : World) :
  exists kl tr,
    suppress_keyboard b w
    = (Ok tt, with_requests tr (with_self (set_keyboard_listener kl) w)).
Proof.
  destruct w as [[? ? ? ? ? ? ? ? ? ? ? ? ? ? ? ml [kl|]] tr v].
  - eexists _, _. reflexivity.
  - exists None, []. unfold suppress_keyboard, bind, get_self, ret,
      with_requests, with_self. cbn. now rewrite app_nil_r.
Qed.

Lemma _reset_gamepad_Some (cfg : Config.t) (w : World) g :
  _gamepad (self w) = Some g ->
  _reset_gamepad cfg w
  = (Ok tt, with_requests [Flush (reset_report cfg g)]
              (with_self (set_gamepad (Some (reset_report cfg g))) w)).
Proof.
  intros H. unfold _reset_gamepad, bind, get_self, try_except.
  rewrite H. cbn [bool_decide decide_rel].
  rewrite bool_decide_eq_false_2 by discriminate.
  unfold bind.
  rewrite (gamepad_call_Some _ w g H).
  set (w1 := with_self _ w).
  assert (H1 : _gamepad (self w1) = Some (vg.left_joystick_float 0 0 g))
    by (destruct w as [[] ? ?]; reflexivity).
  rewrite (gamepad_call_Some _ w1 _ H1).
  set (w2 := with_self _ w1).
  assert (H2 : _gamepad (self w2)
               = Some (vg.right_joystick_float 0 0
                         (vg.left_joystick_float 0 0 g)))
    by (destruct w as [[] ? ?]; reflexivity).
  rewrite (release_loop _ w2 _ H2).
  set (w3 := with_self _ w2).
  assert (H3 : _gamepad (self w3)
               = Some (release_all (Config.mapped_buttons cfg)
                         (vg.right_joystick_float 0 0
                            (vg.left_joystick_float 0 0 g))))
    by (destruct w as [[] ? ?]; reflexivity).
  rewrite (gamepad_call_Some _ w3 _ H3).
  set (w4 := with_self _ w3).
  assert (H4 : _gamepad (self w4)
               = Some (vg.left_trigger_float 0
                         (release_all (Config.mapped_buttons cfg)
                            (vg.right_joystick_float 0 0
                               (vg.left_joystick_float 0 0 g)))))
    by (destruct w as [[] ? ?]; reflexivity).
  rewrite (gamepad_call_Some _ w4 _ H4).
  set (w5 := with_self _ w4).
  assert (H5 : _gamepad (self w5) = Some (reset_report cfg g))
    by (destruct w as [[] ? ?]; reflexivity).
  rewrite (gamepad_update_Some w5 _ H5).
  subst w5 w4 w3 w2 w1.
  rewrite !with_self_set_gamepad_twice. reflexivity.
Qed.

Lemma release_all_left_joystick l g :
  vg.left_joystick (release_all l g) = vg.left_joystick g.
Proof. revert g. induction l as [|b l IH]; intros g; cbn; [|rewrite IH]; reflexivity. Qed.

Lemma release_all_right_joystick l g :
  vg.right_joystick (release_all l g) = vg.right_joystick g.
Proof. revert g. induction l as [|b l IH]; intros g; cbn; [|rewrite IH]; reflexivity. Qed.

Lemma release_all_pressed l g x :
  x ∈ vg.pressed (release_all l g) <-> x ∈ vg.pressed g /\ x ∉ l.
Proof.
  revert g. induction l as [|b l IH]; intros g; cbn.
  - split; [intros H; split; [exact H | apply not_elem_of_nil] | tauto].
  - rewrite IH. cbn. rewrite list_elem_of_filter, not_elem_of_cons. tauto.
Qed.

Lemma reset_report_neutral (cfg : Config.t) g : neutral cfg (reset_report cfg g).
Proof.
  unfold neutral, reset_report. cbn.
  rewrite release_all_left_joystick, release_all_right_joystick. cbn.
  repeat split; try reflexivity.
  intros b Hb. unfold vg.is_pressed. apply bool_decide_eq_false_2. cbn.
  rewrite release_all_pressed. tauto.
Qed.

Lemma fmap_false_all_clear (d : gmap string bool) :
  all_clear ((fun _ => false) <$> d).
Proof.
  intros k v. rewrite lookup_fmap.
  destruct (d !! k); cbn; congruence.
Qed.

(** ** Deactivation *)

(** Leaving the active state on an existing device, step by step. *)
Lemma deactivate_active (cfg : Config.t) (w : World) g :
  _active (self w) = true ->
  _gamepad (self w) = Some g ->
  exists ml kl tr,
    deactivate cfg w
    = (Ok tt,
       with_requests (Flush (reset_report cfg g) :: tr)
         (with_self
            (fun c =>
               set_keyboard_listener kl
                 (set_mouse_listener ml
                    (set_keys ((fun _ => false) <$> keys c)
                       (set_joystick_keys
                          ((fun _ => false) <$> joystick_keys c)
                          (set_gamepad (Some (reset_report cfg g))
                             (set_active false c)))))) w)).
Proof.
  intros Ha Hg. unfold deactivate.
  rewrite (bind_ok _ _ w w (self w)) by reflexivity. rewrite Ha. cbn [negb].
  erewrite bind_ok by reflexivity.
  erewrite bind_ok
    by (eapply _reset_gamepad_Some; destruct w as [[] ? ?]; exact Hg).
  erewrite bind_ok by reflexivity.
  erewrite bind_ok by reflexivity.
  match goal with
  | |- context [bind (suppress_mouse false) _ ?W] =>
      destruct (suppress_mouse_run false W) as (ml & tr2 & E2)
  end.
  erewrite bind_ok by exact E2.
  match goal with
  | |- context [bind (suppress_keyboard false) _ ?W] =>
      destruct (suppress_keyboard_run false W) as (kl & tr3 & E3)
  end.
  erewrite bind_ok by exact E3.
  erewrite bind_ok by reflexivity.
  destruct w as [[] ? ?]. exists ml, kl. eexists.
  unfold emit, modify, with_requests, with_self.
  cbn [self trace vigem_available set_gamepad _gamepad _active
       cursor_manager mouse_dx mouse_dy keys joystick_keys last_lx last_ly
       last_rx last_ry r2_held l2_held _last_update _update_interval
       mouse_listener keyboard_listener set_mouse_listener
       set_keyboard_listener set_active set_keys set_joystick_keys].
  rewrite <- !app_assoc. reflexivity.
Qed.

(** C4, as the code has it: leaving the active state stages and flushes a
    neutral report (both sticks at the origin, every mapped button released,
    both triggers at zero) and clears every key flag and every joystick-key
    flag, whatever was held; the two trigger-held flags are left as they
    were. *)
Theorem deactivate_resets (cfg : Config.t) (w : World) g :
  _active (self w) = true ->
  _gamepad (self w) = Some g ->
  fst (deactivate cfg w) = Ok tt /\
  deactivated_as_coded cfg w (snd (deactivate cfg w)).
Proof.
  intros Ha Hg.
  destruct (deactivate_active cfg w g Ha Hg) as (ml & kl & tr & E).
  rewrite E. cbn [fst snd]. split; [reflexivity |].
  destruct w as [[] ? ?]. unfold deactivated_as_coded, deactivated.
  cbn [self trace with_requests with_self l2_held r2_held _active _gamepad
       keys joystick_keys set_keyboard_listener set_mouse_listener set_keys
       set_joystick_keys set_gamepad set_active].
  repeat split.
  - exists (reset_report cfg g), tr.
    split; [reflexivity | split; [apply reset_report_neutral | reflexivity]].
  - apply fmap_false_all_clear.
  - apply fmap_false_all_clear.
Qed.

Lemma deactivate_resets_witness :
  _active (self firing) = true /\
  _gamepad (self firing) = Some vg.new /\
  fst (deactivate Config.defaults firing) = Ok tt /\
  deactivated_as_coded Config.defaults firing
    (snd (deactivate Config.defaults firing)).
Proof.
  split; [reflexivity | split; [reflexivity |]].
  apply (deactivate_resets Config.defaults firing vg.new); reflexivity.
Defined.

(** C4, as documented, fails: deactivating while the fire button is held
    leaves its trigger-held flag set. *)
Lemma deactivate_keeps_trigger_flags :
  _active (self firing) = true /\
  l2_held (self (snd (deactivate Config.defaults firing))) = true /\
  ~ deactivated_as_documented Config.defaults firing
      (snd (deactivate Config.defaults firing)).
Proof.
  split; [reflexivity | split; [reflexivity |]].
  intros [_ [H _]]. vm_compute in H. discriminate.
Qed.

(** ** The scheduler tick *)

Lemma _process_left_joystick_Some (w : World) g :
  _gamepad (self w) = Some g ->
  _process_left_joystick w
  = (Ok tt,
     with_self
       (fun c =>
          let l := left_axes (joystick_keys c) in
          set_last_ly (snd l) (set_last_lx (fst l)
            (set_gamepad (Some (vg.left_joystick_float (fst l) (snd l) g)) c)))
       w).
Proof.
  intros H. unfold _process_left_joystick.
  rewrite (bind_ok _ _ w w (self w)) by reflexivity.
  destruct w as [c tr v]. cbn [self] in *.
  destruct (left_axes (joystick_keys c)) as [lx ly] eqn:Hl.
  erewrite bind_ok by (apply gamepad_call_Some; exact H).
  unfold modify, with_self. cbn [self trace vigem_available].
  destruct c; cbn. cbn in Hl. rewrite Hl. reflexivity.
Qed.

Lemma _process_right_joystick_Some (cfg : Config.t) (w : World) g :
  _gamepad (self w) = Some g ->
  _process_right_joystick cfg w
  = (Ok tt,
     with_self
       (fun c =>
          let r := right_axes cfg c (mouse_dx c) (mouse_dy c) in
          set_last_ry (snd r) (set_last_rx (fst r)
            (set_gamepad (Some (vg.right_joystick_float (fst r) (snd r) g))
               (set_mouse_dy 0 (set_mouse_dx 0 c)))))
       w).
Proof.
  intros H. unfold _process_right_joystick, _get_mouse_movement.
  destruct w as [c tr v]. destruct c. cbn in H. subst.
  cbv [bind get_self modify ret with_self self trace vigem_available
       set_mouse_dx set_mouse_dy fst snd mouse_dx mouse_dy _gamepad
       _active cursor_manager keys joystick_keys last_lx last_ly last_rx
       last_ry r2_held l2_held _last_update _update_interval mouse_listener
       keyboard_listener].
  match goal with |- context [right_axes cfg ?c ?x ?y] =>
    assert (Hr : right_axes cfg c x y
                 = right_axes cfg
                     {| _gamepad := Some g; _active := _active0;
                        cursor_manager := cursor_manager0;
                        mouse_dx := mouse_dx0; mouse_dy := mouse_dy0;
                        keys := keys0; joystick_keys := joystick_keys0;
                        last_lx := last_lx0; last_ly := last_ly0;
                        last_rx := last_rx0; last_ry := last_ry0;
                        r2_held := r2_held0; l2_held := l2_held0;
                        _last_update := _last_update0;
                        _update_interval := _update_interval0;
                        mouse_listener := mouse_listener0;
                        keyboard_listener := keyboard_listener0 |} x y)
      by reflexivity;
    rewrite Hr; clear Hr;
    destruct (right_axes cfg _ x y) as [rx ry]
  end.
  reflexivity.
Qed.

Lemma _process_buttons_Some (cfg : Config.t) (w : World) g :
  _gamepad (self w) = Some g ->
  _process_buttons cfg w
  = (Ok tt,
     with_self (set_gamepad (Some (buttons_report cfg (keys (self w)) g))) w).
Proof.
  unfold _process_buttons, buttons_report.
  generalize (Config.KEY_MAPPINGS cfg) as l.
  intros l. revert w g. induction l as [|kb l IH]; intros w g H.
  - cbn. now rewrite with_self_set_gamepad_id.
  - change (for_each (kb :: l) ?body) with (body kb ;; for_each l body).
    set (g1 := if dict_get (keys (self w)) (fst kb)
               then vg.press_button (snd kb) g
               else vg.release_button (snd kb) g).
    rewrite (bind_ok _ _ w (with_self (set_gamepad (Some g1)) w) tt).
    + rewrite (IH _ g1) by (destruct w as [[] ? ?]; reflexivity).
      rewrite with_self_set_gamepad_twice.
      destruct w as [[] ? ?]; reflexivity.
    + rewrite (bind_ok _ _ w w (self w)) by reflexivity.
      subst g1. destruct (dict_get _ _); now apply gamepad_call_Some.
Qed.

Lemma _process_triggers_Some (w : World) g :
  _gamepad (self w) = Some g ->
  _process_triggers w
  = (Ok tt,
     with_self
       (fun c =>
          set_gamepad
            (Some (vg.left_trigger_float (if r2_held c then 1 else 0)
                     (vg.right_trigger_float (if l2_held c then 1 else 0) g)))%float
            c) w).
Proof.
  intros H. unfold _process_triggers.
  destruct w as [c tr v]. destruct c. cbn in H. subst.
  destruct l2_held0, r2_held0; reflexivity.
Qed.

(** A due tick of an active controller runs the four mappers and flushes
    what they staged, once. *)
Lemma process_inputs_active (cfg : Config.t) (now : float) (w : World) g :
  tick_due (self w) now = true ->
  _gamepad (self w) = Some g ->
  _active (self w) = true ->
  process_inputs cfg now w
  = (Ok tt, with_requests [Flush (staged_by_tick cfg (self w) g)]
              (with_self (after_tick cfg now g) w)).
Proof.
  unfold tick_due. intros Hd Hg Ha. apply negb_true_iff in Hd.
  unfold process_inputs.
  rewrite (bind_ok _ _ w w (self w)) by reflexivity. rewrite Hd.
  rewrite (bind_ok _ _ w (with_self (set_last_update now) w) tt)
    by reflexivity.
  set (w0 := with_self (set_last_update now) w).
  rewrite (bind_ok _ _ w0 w0 (self w0)) by reflexivity.
  assert (H0 : _gamepad (self w0) = Some g)
    by (destruct w as [[] ? ?]; exact Hg).
  assert (A0 : _active (self w0) = true)
    by (destruct w as [[] ? ?]; exact Ha).
  rewrite H0, A0. rewrite bool_decide_eq_false_2 by discriminate.
  unfold when.
  pose proof (_process_left_joystick_Some w0 g H0) as E1.
  set (w1 := with_self _ w0) in E1.
  assert (H1 : _gamepad (self w1) = Some _)
    by (destruct w as [[] ? ?]; reflexivity).
  pose proof (_process_right_joystick_Some cfg w1 _ H1) as E2.
  set (w2 := with_self _ w1) in E2.
  assert (H2 : _gamepad (self w2) = Some _)
    by (destruct w as [[] ? ?]; reflexivity).
  pose proof (_process_buttons_Some cfg w2 _ H2) as E3.
  set (w3 := with_self _ w2) in E3.
  assert (H3 : _gamepad (self w3) = Some _)
    by (destruct w as [[] ? ?]; reflexivity).
  pose proof (_process_triggers_Some w3 _ H3) as E4.
  set (w4 := with_self _ w3) in E4.
  assert (H4 : _gamepad (self w4) = Some (staged_by_tick cfg (self w) g))
    by (destruct w as [[] ? ?]; reflexivity).
  rewrite (bind_ok _ _ w0 w4 tt).
  - rewrite (gamepad_update_Some w4 _ H4).
    destruct w as [[] ? ?]; reflexivity.
  - rewrite (bind_ok _ _ _ _ _ E1), (bind_ok _ _ _ _ _ E2),
      (bind_ok _ _ _ _ _ E3). exact E4.
Qed.

(** A due tick of an inactive controller flushes the report as it stands
    and runs no mapper. *)
Lemma process_inputs_inactive (cfg : Config.t) (now : float) (w : World) g :
  tick_due (self w) now = true ->
  _gamepad (self w) = Some g ->
  _active (self w) = false ->
  process_inputs cfg now w
  = (Ok tt, with_requests [Flush g] (with_self (set_last_update now) w)).
Proof.
  unfold tick_due. intros Hd Hg Ha. apply negb_true_iff in Hd.
  unfold process_inputs.
  rewrite (bind_ok _ _ w w (self w)) by reflexivity. rewrite Hd.
  rewrite (bind_ok _ _ w (with_self (set_last_update now) w) tt)
    by reflexivity.
  set (w0 := with_self (set_last_update now) w).
  rewrite (bind_ok _ _ w0 w0 (self w0)) by reflexivity.
  assert (H0 : _gamepad (self w0) = Some g)
    by (destruct w as [[] ? ?]; exact Hg).
  assert (A0 : _active (self w0) = false)
    by (destruct w as [[] ? ?]; exact Ha).
  rewrite H0, A0. rewrite bool_decide_eq_false_2 by discriminate.
  unfold when. rewrite (bind_ok _ _ w0 w0 tt) by reflexivity.
  now apply gamepad_update_Some.
Qed.

Lemma process_inputs_skipped (cfg : Config.t) (now : float) (w : World) :
  tick_due (self w) now = false ->
  process_inputs cfg now w = (Ok tt, w).
Proof.
  unfold tick_due. intros Hd. apply negb_false_iff in Hd.
  unfold process_inputs.
  rewrite (bind_ok _ _ w w (self w)) by reflexivity. now rewrite Hd.
Qed.

Lemma process_inputs_no_device (cfg : Config.t) (now : float) (w : World) :
  tick_due (self w) now = true ->
  _gamepad (self w) = None ->
  process_inputs cfg now w = (Ok tt, with_self (set_last_update now) w).
Proof.
  unfold tick_due. intros Hd Hg. apply negb_true_iff in Hd.
  unfold process_inputs.
  rewrite (bind_ok _ _ w w (self w)) by reflexivity. rewrite Hd.
  rewrite (bind_ok _ _ w (with_self (set_last_update now) w) tt)
    by reflexivity.
  set (w0 := with_self (set_last_update now) w).
  rewrite (bind_ok _ _ w0 w0 (self w0)) by reflexivity.
  assert (H0 : _gamepad (self w0) = None)
    by (destruct w as [[] ? ?]; exact Hg).
  rewrite H0. reflexivity.
Qed.

(** C5, as the code has it: a tick that is not due changes nothing (no
    mapper, no flush); a due tick on an existing device flushes exactly one
    report, active or not, and runs the four mappers only when active; a due
    tick without a device only records its time. *)
Theorem scheduler_tick (cfg : Config.t) (now : float) (w : World) :
  (tick_due (self w) now = false -> process_inputs cfg now w = (Ok tt, w)) /\
  (tick_due (self w) now = true ->
   forall g, _gamepad (self w) = Some g ->
     process_inputs cfg now w
     = (Ok tt,
        if _active (self w)
        then with_requests [Flush (staged_by_tick cfg (self w) g)]
               (with_self (after_tick cfg now g) w)
        else with_requests [Flush g] (with_self (set_last_update now) w))) /\
  (tick_due (self w) now = true ->
   _gamepad (self w) = None ->
   process_inputs cfg now w = (Ok tt, with_self (set_last_update now) w)).
Proof.
  split; [apply process_inputs_skipped |].
  split; [| apply process_inputs_no_device].
  intros Hd g Hg. destruct (_active (self w)) eqn:Ha.
  - now apply process_inputs_active.
  - now apply process_inputs_inactive.
Qed.

Lemma scheduler_tick_witness :
  (tick_due (self running) 0.001 = false /\
   process_inputs Config.defaults 0.001 running = (Ok tt, running)) /\
  (tick_due (self running) 1 = true /\
   _gamepad (self running) = Some vg.new /\
   process_inputs Config.defaults 1 running
   = (Ok tt,
      with_requests [Flush (staged_by_tick Config.defaults (self running) vg.new)]
        (with_self (after_tick Config.defaults 1 vg.new) running))) /\
  (tick_due (self started_without_driver) 1 = true /\
   _gamepad (self started_without_driver) = None /\
   process_inputs Config.defaults 1 started_without_driver
   = (Ok tt, with_self (set_last_update 1) started_without_driver)).
Proof.
  split; [| split].
  - split; [vm_compute; reflexivity |].
    apply (proj1 (scheduler_tick Config.defaults 0.001 running)).
    vm_compute; reflexivity.
  - split; [vm_compute; reflexivity | split; [vm_compute; reflexivity |]].
    apply (proj1 (proj2 (scheduler_tick Config.defaults 1 running)) eq_refl
             vg.new).
    vm_compute; reflexivity.
  - split; [vm_compute; reflexivity | split; [vm_compute; reflexivity |]].
    apply (proj2 (proj2 (scheduler_tick Config.defaults 1
                            started_without_driver)));
      vm_compute; reflexivity.
Defined.

(** C5, as documented, fails where the device could not be created: the
    tick is due, yet nothing is flushed. *)
Lemma tick_without_device_does_not_flush :
  ~ tick_as_documented Config.defaults 1 started_without_driver.
Proof.
  intros [_ H]. destruct (H eq_refl) as [g Hg].
  vm_compute in Hg. discriminate.
Qed.

(** ** Every method preserves the look-stick invariant *)

Section Keeps.

Context {A B : Type}.

Lemma keeps_ret (a : A) (Q : A -> Prop) : Q a -> keeps (ret a) Q.
Proof.
  intros H w Hw. split; [exact Hw |]. cbn.
  intros a0 E. injection E as <-. exact H.
Qed.

Lemma keeps_raise (e : Exn) (Q : A -> Prop) : keeps (raise e) Q.
Proof. intros w Hw. split; [exact Hw |]. cbn. discriminate. Qed.

Lemma keeps_bind (m : M A) (k : A -> M B) (Q : A -> Prop) (R : B -> Prop) :
  keeps m Q -> (forall a, Q a -> keeps (k a) R) -> keeps (bind m k) R.
Proof.
  intros Hm Hk w Hw. unfold bind. destruct (Hm w Hw) as [H1 H2].
  destruct (m w) as [[a|e] w']; cbn in *.
  - apply (Hk a (H2 a eq_refl) w' H1).
  - split; [exact H1 | discriminate].
Qed.

Lemma keeps_weaken (m : M A) (Q R : A -> Prop) :
  keeps m Q -> (forall a, Q a -> R a) -> keeps m R.
Proof. intros Hm HQ w Hw. destruct (Hm w Hw). split; auto. Qed.

Lemma keeps_try (m h : M A) (Q : A -> Prop) :
  keeps m Q -> keeps h Q -> keeps (try_except m h) Q.
Proof.
  intros Hm Hh w Hw. unfold try_except. destruct (Hm w Hw) as [H1 H2].
  destruct (m w) as [[a|e] w']; cbn in *.
  - split; [exact H1 |]. intros a0 E. injection E as <-. now apply H2.
  - apply (Hh w' H1).
Qed.

End Keeps.

Lemma keeps_any {A} (m : M A) (Q : A -> Prop) : keeps m Q -> keeps m any.
Proof. intros H. apply (keeps_weaken m Q); [exact H | easy]. Qed.

Lemma keeps_get_self : keeps get_self controller_ok.
Proof.
  intros w Hw. split; [exact Hw |]. cbn.
  intros a0 E. injection E as <-. apply Hw.
Qed.

Lemma keeps_modify (f : GamepadController -> GamepadController) :
  (forall c, controller_ok c -> controller_ok (f c)) -> keeps (modify f) any.
Proof. intros Hf w [Hc Ht]. split; [split; [now apply Hf | exact Ht] | easy]. Qed.

Lemma keeps_emit (es : list Effect) :
  Forall effect_ok es -> keeps (emit es) any.
Proof.
  intros He w [Hc Ht]. split; [| easy].
  split; [exact Hc |]. cbn. apply Forall_app. now split.
Qed.

Lemma keeps_when (b : bool) (m : M unit) : keeps m any -> keeps (when b m) any.
Proof. intros H. destruct b; cbn; [exact H | now apply keeps_ret]. Qed.

Lemma keeps_for_each {A} (l : list A) (body : A -> M unit) :
  (forall x, keeps (body x) any) -> keeps (for_each l body) any.
Proof.
  intros H. induction l as [|x l IH]; cbn.
  - now apply keeps_ret.
  - apply (keeps_bind _ _ any); [apply H | intros; exact IH].
Qed.

Lemma keeps_new_VX360Gamepad : keeps new_VX360Gamepad stick_ok.
Proof.
  intros w Hw. unfold new_VX360Gamepad.
  destruct (vigem_available w); cbn; (split; [exact Hw |]).
  - intros a0 E. injection E as <-. split; split; reflexivity.
  - discriminate.
Qed.

Lemma controller_ok_set_gamepad g c :
  stick_ok g -> controller_ok c -> controller_ok (set_gamepad (Some g) c).
Proof.
  intros Hg (H1 & H2 & H3). destruct c; cbn in *.
  split; [exact H1 | split; [exact H2 |]].
  intros g0 E. injection E as <-. exact Hg.
Qed.

Lemma controller_ok_set_last rx ry c :
  in_unit_range rx -> in_unit_range ry -> controller_ok c ->
  controller_ok (set_last_ry ry (set_last_rx rx c)).
Proof.
  intros Hx Hy (H1 & H2 & H3). destruct c; cbn in *.
  split; [exact Hx | split; [exact Hy | exact H3]].
Qed.

(** Assignments to the other attributes leave the invariant alone. *)
Ltac frame_ok :=
  let c := fresh "c" in
  let H := fresh "H" in
  intros c H; destruct c; exact H.

Lemma keeps_gamepad_call (f : vg.VX360Gamepad -> vg.VX360Gamepad) :
  (forall g, stick_ok g -> stick_ok (f g)) -> keeps (gamepad_call f) any.
Proof.
  intros Hf. unfold gamepad_call.
  apply (keeps_bind _ _ controller_ok); [apply keeps_get_self |].
  intros c Hc. destruct (_gamepad c) as [g|] eqn:Hg.
  - apply keeps_modify. intros c'. apply controller_ok_set_gamepad.
    apply Hf. now apply Hc.
  - apply keeps_raise.
Qed.

Lemma keeps_gamepad_update : keeps gamepad_update any.
Proof.
  unfold gamepad_update.
  apply (keeps_bind _ _ controller_ok); [apply keeps_get_self |].
  intros c Hc. destruct (_gamepad c) as [g|] eqn:Hg.
  - apply keeps_emit. constructor; [| constructor]. now apply Hc.
  - apply keeps_raise.
Qed.

(** One step through the structure of a method. *)
Ltac keeps_step :=
  cbv beta;
  lazymatch goal with
  | |- keeps (bind get_self _) _ =>
      apply (keeps_bind _ _ controller_ok);
      [apply keeps_get_self | intros ? ?]
  | |- keeps (bind _ _) _ =>
      apply (keeps_bind _ _ any); [| intros ? _]
  | |- keeps (ret _) _ => apply keeps_ret; exact I
  | |- keeps (raise _) _ => apply keeps_raise
  | |- keeps (emit _) _ => apply keeps_emit
  | |- keeps (modify _) _ => apply keeps_modify
  | |- keeps (when _ _) _ => apply keeps_when
  | |- keeps (for_each _ _) _ => apply keeps_for_each; intros ?
  | |- keeps (try_except _ _) _ => apply keeps_try
  | |- keeps (gamepad_call _) _ => apply keeps_gamepad_call
  | |- keeps gamepad_update _ => apply keeps_gamepad_update
  | |- keeps (if ?b then _ else _) _ => destruct b
  | |- keeps (match ?x with _ => _ end) _ => destruct x
  end.

Ltac keeps_auto :=
  repeat keeps_step;
  try frame_ok;
  try (intros ? ?; assumption).

Lemma in_unit_range_zero : in_unit_range 0.
Proof. split; reflexivity. Qed.

Lemma in_unit_range_half : in_unit_range 0.5.
Proof. split; reflexivity. Qed.

Lemma stick_ok_right_joystick_float x y g :
  in_unit_range x -> in_unit_range y ->
  stick_ok (vg.right_joystick_float x y g).
Proof. intros Hx Hy. split; assumption. Qed.

Lemma right_axes_in_unit_range (cfg : Config.t) c dx dy :
  in_unit_range (fst (right_axes cfg c dx dy)) /\
  in_unit_range (snd (right_axes cfg c dx dy)).
Proof. unfold right_axes. cbn [fst snd]. split; apply clamp_in_unit_range. Qed.

Lemma keeps_initialize_gamepad : keeps initialize_gamepad any.
Proof.
  unfold initialize_gamepad.
  apply keeps_try; [| keeps_auto].
  apply (keeps_bind _ _ controller_ok); [apply keeps_get_self |].
  intros c Hc. apply (keeps_bind _ _ any); [| intros _ _; keeps_auto].
  destruct (_gamepad c) eqn:Hg; [keeps_auto |].
  apply (keeps_bind _ _ stick_ok); [apply keeps_new_VX360Gamepad |].
  intros g Hs. apply keeps_modify. intros c'. now apply controller_ok_set_gamepad.
Qed.

Lemma keeps_suppress_mouse b : keeps (suppress_mouse b) any.
Proof. unfold suppress_mouse. keeps_auto. repeat constructor. Qed.

Lemma keeps_suppress_keyboard b : keeps (suppress_keyboard b) any.
Proof. unfold suppress_keyboard. keeps_auto. repeat constructor. Qed.

Lemma keeps_wake_round : keeps wake_round any.
Proof.
  unfold wake_round. keeps_auto; try (repeat constructor);
    intros g _; apply stick_ok_right_joystick_float;
    auto using in_unit_range_half, in_unit_range_zero.
Qed.

Lemma Forall_effect_ok_cursor (cm : CursorManager.t) :
  Forall effect_ok (CursorManager.lock_to_center cm) /\
  Forall effect_ok (CursorManager.hide_cursor cm) /\
  Forall effect_ok (CursorManager.show_cursor cm).
Proof.
  unfold CursorManager.lock_to_center, CursorManager.hide_cursor,
    CursorManager.show_cursor.
  destruct (CursorManager.enabled cm), (CursorManager.center_x cm),
    (CursorManager.center_y cm); cbn; repeat constructor.
Qed.

Lemma keeps_activate : keeps activate any.
Proof.
  unfold activate.
  apply (keeps_bind _ _ controller_ok); [apply keeps_get_self |].
  intros c _. destruct (_active c); [keeps_auto |].
  apply (keeps_bind _ _ any); [apply keeps_initialize_gamepad |].
  intros ok _. destruct (negb ok); [keeps_auto |].
  apply (keeps_bind _ _ controller_ok); [apply keeps_get_self |].
  intros c1 _.
  apply (keeps_bind _ _ any);
    [apply keeps_when, keeps_for_each; intros _; apply keeps_wake_round |].
  intros _ _.
  apply (keeps_bind _ _ any); [apply keeps_suppress_mouse |]. intros _ _.
  apply (keeps_bind _ _ any); [apply keeps_suppress_keyboard |]. intros _ _.
  apply (keeps_bind _ _ controller_ok); [apply keeps_get_self |].
  intros c2 _.
  apply (keeps_bind _ _ any);
    [apply keeps_emit, Forall_effect_ok_cursor |]. intros _ _.
  apply (keeps_bind _ _ any);
    [apply keeps_emit, Forall_effect_ok_cursor |]. intros _ _.
  keeps_auto.
Qed.

Lemma keeps__reset_gamepad (cfg : Config.t) : keeps (_reset_gamepad cfg) any.
Proof.
  unfold _reset_gamepad.
  apply (keeps_bind _ _ controller_ok); [apply keeps_get_self |].
  intros c _. destruct (bool_decide _); [keeps_auto |].
  keeps_auto; try (intros g Hg; exact Hg);
    intros g _; apply stick_ok_right_joystick_float;
    apply in_unit_range_zero.
Qed.

Lemma keeps_deactivate (cfg : Config.t) : keeps (deactivate cfg) any.
Proof.
  unfold deactivate.
  apply (keeps_bind _ _ controller_ok); [apply keeps_get_self |].
  intros c _. destruct (negb (_active c)); [keeps_auto |].
  apply (keeps_bind _ _ any); [keeps_auto |]. intros _ _.
  apply (keeps_bind _ _ any); [apply keeps__reset_gamepad |]. intros _ _.
  apply (keeps_bind _ _ any); [keeps_auto |]. intros _ _.
  apply (keeps_bind _ _ any); [keeps_auto |]. intros _ _.
  apply (keeps_bind _ _ any); [apply keeps_suppress_mouse |]. intros _ _.
  apply (keeps_bind _ _ any); [apply keeps_suppress_keyboard |]. intros _ _.
  apply (keeps_bind _ _ controller_ok); [apply keeps_get_self |].
  intros c2 _. apply keeps_emit, Forall_effect_ok_cursor.
Qed.

Lemma keeps__process_left_joystick : keeps _process_left_joystick any.
Proof.
  unfold _process_left_joystick.
  apply (keeps_bind _ _ controller_ok); [apply keeps_get_self |].
  intros c _. destruct (left_axes (joystick_keys c)) as [lx ly].
  keeps_auto.
Qed.

Lemma keeps__process_right_joystick (cfg : Config.t) :
  keeps (_process_right_joystick cfg) any.
Proof.
  unfold _process_right_joystick, _get_mouse_movement.
  apply (keeps_bind _ _ any); [keeps_auto |]. intros d _.
  apply (keeps_bind _ _ controller_ok); [apply keeps_get_self |].
  intros c _.
  pose proof (right_axes_in_unit_range cfg c (fst d) (snd d)) as [Hx Hy].
  destruct (right_axes cfg c (fst d) (snd d)) as [rx ry]. cbn in Hx, Hy.
  apply (keeps_bind _ _ any).
  - apply keeps_gamepad_call. intros g _.
    now apply stick_ok_right_joystick_float.
  - intros _ _. apply keeps_modify. intros c'.
    now apply controller_ok_set_last.
Qed.

Lemma keeps__process_buttons (cfg : Config.t) :
  keeps (_process_buttons cfg) any.
Proof.
  unfold _process_buttons. keeps_auto.
Qed.

Lemma keeps__process_triggers : keeps _process_triggers any.
Proof.
  unfold _process_triggers. keeps_auto.
Qed.

Lemma keeps_process_inputs (cfg : Config.t) (now : float) :
  keeps (process_inputs cfg now) any.
Proof.
  unfold process_inputs.
  apply (keeps_bind _ _ controller_ok); [apply keeps_get_self |].
  intros c _. destruct (_ <? _)%float; [keeps_auto |].
  apply (keeps_bind _ _ any); [keeps_auto |]. intros _ _.
  apply (keeps_bind _ _ controller_ok); [apply keeps_get_self |].
  intros c1 _. destruct (bool_decide _); [keeps_auto |].
  apply (keeps_bind _ _ any); [| intros _ _; apply keeps_gamepad_update].
  apply keeps_when.
  apply (keeps_bind _ _ any); [apply keeps__process_left_joystick |].
  intros _ _.
  apply (keeps_bind _ _ any); [apply keeps__process_right_joystick |].
  intros _ _.
  apply (keeps_bind _ _ any); [apply keeps__process_buttons |].
  intros _ _. apply keeps__process_triggers.
Qed.

Lemma keeps_handle (cfg : Config.t) (ev : Event) : keeps (handle cfg ev) any.
Proof.
  destruct ev as [t|k|k|x y|b p|cfg'|n|]; cbn [handle].
  - apply keeps_process_inputs.
  - unfold InputHandler.on_key_press.
    apply keeps_try; [| keeps_auto].
    destruct (String.eqb _ _).
    + apply (keeps_bind _ _ controller_ok); [apply keeps_get_self |].
      intros c _. destruct (_active c); [apply keeps_deactivate |].
      apply (keeps_bind _ _ any); [apply keeps_activate |].
      intros _ _. keeps_auto.
    + keeps_auto.
  - unfold InputHandler.on_key_release. keeps_auto.
  - unfold InputHandler.on_mouse_move, InputHandler.attribute.
    apply (keeps_bind _ _ controller_ok); [apply keeps_get_self |].
    intros c _. destruct (negb (_active c)); [keeps_auto |].
    apply (keeps_bind _ _ any); [keeps_auto |]. intros cx _.
    apply (keeps_bind _ _ any); [keeps_auto |]. intros cy _.
    apply (keeps_bind _ _ any); [keeps_auto |]. intros _ _.
    apply (keeps_bind _ _ any); [keeps_auto |]. intros _ _.
    apply (keeps_bind _ _ controller_ok); [apply keeps_get_self |].
    intros c2 _. apply keeps_emit, Forall_effect_ok_cursor.
  - unfold InputHandler.on_mouse_click. keeps_auto.
  - keeps_auto.
  - unfold update_rate. keeps_auto.
  - unfold shutdown.
    apply (keeps_bind _ _ any); [apply keeps_deactivate |]. intros _ _.
    apply (keeps_bind _ _ controller_ok); [apply keeps_get_self |].
    intros c _. apply keeps_when.
    apply (keeps_bind _ _ any).
    + apply keeps_try; [| keeps_auto].
      apply (keeps_bind _ _ any); [| intros _ _; apply keeps_gamepad_update].
      apply keeps_gamepad_call. intros g _. split; split; reflexivity.
    + intros _ _. apply keeps_modify.
      intros c' (H1 & H2 & H3). destruct c'; cbn in *.
      split; [exact H1 | split; [exact H2 | discriminate]].
Qed.

Lemma run_keeps_invariant (evs : list Event) (cfg : Config.t) (w : World) :
  look_stick_invariant w -> look_stick_invariant (snd (run cfg evs w)).
Proof.
  revert cfg w. induction evs as [|ev evs IH]; intros cfg w Hw; [exact Hw |].
  destruct ev; cbn [run]; try (apply IH; now apply keeps_handle).
  now apply IH.
Qed.

Lemma init_world_invariant (cfg : Config.t) now cm vigem :
  look_stick_invariant (init_world cfg now cm vigem).
Proof.
  unfold init_world. apply keeps_initialize_gamepad.
  split; [| constructor]. cbn.
  split; [apply in_unit_range_zero | split; [apply in_unit_range_zero |]].
  discriminate.
Qed.

(** A tick keeps the invariant, whatever the configuration and the clock. *)
Lemma tick_keeps_invariant (cfg : Config.t) (now : float) (w : World) :
  look_stick_invariant w ->
  look_stick_invariant (snd (process_inputs cfg now w)).
Proof. apply keeps_process_inputs. Qed.

(** C3: from the initial state (stored look-stick output 0), after any
    sequence of ticks, input callbacks, configuration changes and
    shutdowns, with any tunable values and any mouse displacement, the
    stored [last_rx] and [last_ry], the staged look stick and the look
    stick of every report flushed to the device lie in [[-1, 1]]. *)
Theorem look_stick_stays_in_range (cfg : Config.t) (now : float)
    (cm : CursorManager.t) (vigem : bool) (evs : list Event) :
  look_stick_invariant (snd (run cfg evs (init_world cfg now cm vigem))).
Proof. apply run_keeps_invariant, init_world_invariant. Qed.

(** ** The look stick *)

Lemma right_axes_stages (cfg : Config.t) (c : GamepadController) dx dy :
  let dy' :=
    if Config.RECOIL_CONTROL_ENABLED cfg && l2_held c
    then (dy + Config.RECOIL_COMPENSATION cfg)%float else dy in
  let m := if r2_held c then Config.ADS_SENS_MULTIPLIER cfg else 1%float in
  let rx0 := (dx * Config.SENS_X cfg * m * Config.DPI_SCALING cfg)%float in
  let ry0 := (- (dy' * Config.SENS_Y cfg * m * Config.DPI_SCALING cfg))%float in
  exists rx1 ry1,
    deadzoned (Config.DEADZONE cfg) rx0 rx1 /\
    deadzoned (Config.DEADZONE cfg) ry0 ry1 /\
    clamped (smoothed (last_rx c) (Config.SMOOTHING cfg) rx1)
            (fst (right_axes cfg c dx dy)) /\
    clamped (smoothed (last_ry c) (Config.SMOOTHING cfg) ry1)
            (snd (right_axes cfg c dx dy)).
Proof.
  intros dy' m rx0 ry0. unfold right_axes. cbn [fst snd].
  fold dy' m rx0. rewrite !mul_opp_l. fold ry0.
  eexists _, _.
  split; [apply deadzone_deadzoned |].
  split; [apply deadzone_deadzoned |].
  split; apply clamp_clamped.
Qed.

(** C1: one look-stick tick on an existing device follows the documented
    pipeline: recoil added to [dy] when enabled and firing; [rx] and [ry]
    from the sensitivities, the ADS multiplier and the DPI scaling, with Y
    negated; each axis zeroed within the deadzone; each axis smoothed
    against the previous output; each axis clamped to [[-1, 1]]; the
    clamped pair staged on the device and stored in [last_rx], [last_ry]. *)
Theorem look_stick_pipeline (cfg : Config.t) (w : World) g :
  _gamepad (self w) = Some g ->
  exists w', _process_right_joystick cfg w = (Ok tt, w') /\
             look_stick_tick cfg w g w'.
Proof.
  intros Hg. rewrite (_process_right_joystick_Some cfg w g Hg).
  eexists. split; [reflexivity |]. unfold look_stick_tick.
  destruct (right_axes_stages cfg (self w) (mouse_dx (self w))
              (mouse_dy (self w))) as (rx1 & ry1 & H1 & H2 & H3 & H4).
  exists rx1, ry1, (fst (right_axes cfg (self w) (mouse_dx (self w))
                           (mouse_dy (self w)))),
    (snd (right_axes cfg (self w) (mouse_dx (self w)) (mouse_dy (self w)))).
  repeat (split; [assumption |]). reflexivity.
Qed.

Lemma look_stick_pipeline_witness :
  _gamepad (self moved) = Some vg.new /\
  exists w', _process_right_joystick Config.defaults moved = (Ok tt, w') /\
             look_stick_tick Config.defaults moved vg.new w'.
Proof.
  split; [vm_compute; reflexivity |].
  apply look_stick_pipeline. vm_compute; reflexivity.
Defined.

(** On that input: 100 pixels right give 1.3, clamped to 1; 50 pixels down
    give -0.65. *)
Example look_stick_moved :
  right_axes Config.defaults (self moved) 100 50 = (1, -0.65)%float.
Proof. vm_compute. reflexivity. Qed.

(** ** The movement stick *)

(** The loop reads the dictionary at the four direction keys only. *)
Lemma left_contributions_unfold (jk : gmap string bool) :
  left_contributions jk
  = left_step jk
      (left_step jk
         (left_step jk (left_step jk (0, 0, false)%float "w") "a") "s") "d".
Proof. reflexivity. Qed.

(** The normalisation never divides by zero. *)
Lemma normalization_divisor (jk : gmap string bool) :
  let '(cx, cy, _) := left_contributions jk in
  Py.neb cx 0 && Py.neb cy 0 = true ->
  sqrt (cx * cx + cy * cy)%float = sqrt 2.
Proof.
  rewrite left_contributions_unfold. unfold left_step.
  destruct (dict_get jk "w"), (dict_get jk "a"),
    (dict_get jk "s"), (dict_get jk "d");
    vm_compute; intros; easy.
Qed.

(** C2: whatever directions are held, the vector handed to the device has
    Euclidean norm at most 1; it is exactly (0, 0) when none is held; when
    both contributions are non-zero it is the contribution vector divided
    by its norm, of unit length; forward and right alone give
    (1/sqrt 2, 1/sqrt 2), that is (0.7071067811865475, 0.7071067811865475). *)
Theorem movement_stick_bounded (jk : gmap string bool) :
  movement_stick_ok jk (fst (left_axes jk)) (snd (left_axes jk)).
Proof.
  unfold movement_stick_ok, left_axes.
  rewrite left_contributions_unfold. unfold left_step.
  destruct (dict_get jk "w"), (dict_get jk "a"),
    (dict_get jk "s"), (dict_get jk "d");
    vm_compute; repeat split; intros; easy.
Qed.

Example movement_stick_forward_right :
  left_axes (<["w" := true]> (<["d" := true]> ∅))
  = (0.7071067811865475, 0.7071067811865475)%float.
Proof. vm_compute. reflexivity. Qed.

(** ** Re-activation *)

Lemma dict_get_all_clear (d : gmap string bool) (k : string) :
  all_clear d -> dict_get d k = false.
Proof.
  intros H. unfold dict_get. destruct (d !! k) as [v|] eqn:E; cbn.
  - exact (H k v E).
  - reflexivity.
Qed.

Lemma left_axes_all_clear (jk : gmap string bool) :
  all_clear jk -> left_axes jk = (0, 0)%float.
Proof.
  intros H. unfold left_axes. rewrite left_contributions_unfold.
  unfold left_step. rewrite !(dict_get_all_clear jk _ H). reflexivity.
Qed.

Lemma buttons_report_all_clear (cfg : Config.t) (ks : gmap string bool) g :
  all_clear ks ->
  buttons_report cfg ks g = release_all (Config.mapped_buttons cfg) g.
Proof.
  intros H. unfold buttons_report, release_all, Config.mapped_buttons.
  generalize (Config.KEY_MAPPINGS cfg) as l. intros l. revert g.
  induction l as [|kb l IH]; intros g; cbn; [reflexivity |].
  rewrite (dict_get_all_clear ks _ H). apply IH.
Qed.

(** *** The look stick at rest *)

Lemma zero_or_nan_mul (x y : float) :
  zero_or_nan x = true -> zero_or_nan (x * y) = true.
Proof.
  unfold zero_or_nan. rewrite mul_spec.
  destruct (Prim2SF x); try discriminate;
    destruct (Prim2SF y); reflexivity.
Qed.

Lemma deadzone_at_rest (dz v : float) :
  (0 <=? dz)%float = true -> zero_or_nan v = true ->
  Py.gtb (abs v) dz = false.
Proof.
  unfold zero_or_nan, Py.gtb. rewrite leb_spec, ltb_spec, abs_spec.
  change (Prim2SF 0) with (S754_zero false).
  destruct (Prim2SF v) as [sv|sv| |sv mv ev]; try discriminate; intros H _;
    destruct (Prim2SF dz) as [sd|sd| |sd md ed];
    try reflexivity; try discriminate H;
    destruct sd; try reflexivity; discriminate H.
Qed.

Lemma smoothing_off_at_rest (last : float) :
  in_unit_range last -> (last * 0 + 0 * (1 - 0))%float = 0%float.
Proof.
  intros [Hlo Hhi]. rewrite leb_spec in Hlo, Hhi.
  change (0 * (1 - 0))%float with 0%float.
  apply Prim2SF_inj. rewrite add_spec, mul_spec.
  change (Prim2SF 0) with (S754_zero false).
  destruct (Prim2SF last) as [s|s| |s m e].
  - destruct s; reflexivity.
  - destruct s; [vm_compute in Hlo | vm_compute in Hhi]; discriminate.
  - vm_compute in Hlo. discriminate.
  - destruct s; reflexivity.
Qed.

(** With nothing pending, the fire button up, smoothing off and a
    non-negative deadzone, the look stick is exactly at the origin. *)
Lemma right_axes_at_rest (cfg : Config.t) (c : GamepadController) :
  l2_held c = false ->
  Config.SMOOTHING cfg = 0%float ->
  (0 <=? Config.DEADZONE cfg)%float = true ->
  in_unit_range (last_rx c) -> in_unit_range (last_ry c) ->
  right_axes cfg c 0 0 = (0, 0)%float.
Proof.
  intros Hl2 Hsm Hdz Hx Hy. unfold right_axes.
  rewrite Hl2, andb_false_r, Hsm.
  rewrite !(deadzone_at_rest _ _ Hdz)
    by (repeat apply zero_or_nan_mul; reflexivity).
  rewrite (smoothing_off_at_rest _ Hx), (smoothing_off_at_rest _ Hy).
  reflexivity.
Qed.

(** *** Activation on an existing device *)

Lemma with_requests_twice (a b : list Effect) (w : World) :
  with_requests b (with_requests a w) = with_requests (a ++ b) w.
Proof. unfold with_requests. cbn. now rewrite app_assoc. Qed.

Lemma initialize_gamepad_Some (w : World) g :
  _gamepad (self w) = Some g -> initialize_gamepad w = (Ok true, w).
Proof.
  intros H. unfold initialize_gamepad, try_except, bind, get_self.
  rewrite H. reflexivity.
Qed.

Lemma wake_round_Some (w : World) g :
  _gamepad (self w) = Some g ->
  exists g' tr,
    wake_round w
    = (Ok tt, with_requests tr (with_self (set_gamepad (Some g')) w)) /\
    g' = vg.release_button vg.XUSB_GAMEPAD_BACK
           (vg.right_joystick_float 0 0
              (vg.press_button vg.XUSB_GAMEPAD_BACK
                 (vg.right_joystick_float 0.5 0 g))).
Proof.
  intros H. eexists _, _. split; [| reflexivity].
  unfold wake_round.
  erewrite bind_ok by (eapply gamepad_call_Some; exact H).
  erewrite bind_ok
    by (eapply gamepad_call_Some; destruct w as [[] ? ?]; reflexivity).
  erewrite bind_ok
    by (eapply gamepad_update_Some; destruct w as [[] ? ?]; reflexivity).
  erewrite bind_ok by reflexivity.
  erewrite bind_ok
    by (eapply gamepad_call_Some; destruct w as [[] ? ?]; reflexivity).
  erewrite bind_ok
    by (eapply gamepad_call_Some; destruct w as [[] ? ?]; reflexivity).
  erewrite bind_ok
    by (eapply gamepad_update_Some; destruct w as [[] ? ?]; reflexivity).
  unfold emit.
  destruct w as [[] ? ?]. unfold with_requests, with_self.
  cbn [self trace vigem_available set_gamepad _gamepad _active
       cursor_manager mouse_dx mouse_dy keys joystick_keys last_lx last_ly
       last_rx last_ry r2_held l2_held _last_update _update_interval
       mouse_listener keyboard_listener].
  rewrite <- !app_assoc. reflexivity.
Qed.

Lemma wake_rounds_Some (w : World) g :
  _gamepad (self w) = Some g ->
  exists tr,
    for_each (seq 0 2) (fun _ => wake_round) w
    = (Ok tt, with_requests tr (with_self (set_gamepad (Some (woken g))) w)).
Proof.
  intros H. cbn [seq for_each].
  destruct (wake_round_Some w g H) as (g1 & tr1 & E1 & ->).
  erewrite bind_ok by exact E1.
  match goal with
  | |- context [bind wake_round _ ?W] =>
      destruct (wake_round_Some W _ ltac:(destruct w as [[] ? ?]; reflexivity))
        as (g2 & tr2 & E2 & ->)
  end.
  erewrite bind_ok by exact E2.
  exists (tr1 ++ tr2)%list. unfold ret.
  destruct w as [[] ? ?]. unfold with_requests, with_self, woken.
  cbn [self trace vigem_available set_gamepad _gamepad _active
       cursor_manager mouse_dx mouse_dy keys joystick_keys last_lx last_ly
       last_rx last_ry r2_held l2_held _last_update _update_interval
       mouse_listener keyboard_listener].
  rewrite <- !app_assoc. reflexivity.
Qed.

Lemma activate_after_initialize (w w0 : World) g :
  _active (self w) = false ->
  initialize_gamepad w = (Ok true, w0) ->
  _gamepad (self w0) = Some g ->
  exists ml kl tr,
    activate w
    = (Ok true,
       with_requests tr
         (with_self
            (fun c =>
               set_active true
                 (set_keyboard_listener kl
                    (set_mouse_listener ml
                       (set_gamepad (Some (woken g)) c)))) w0)).
Proof.
  intros Ha Hi Hg. unfold activate.
  rewrite (bind_ok _ _ w w (self w)) by reflexivity. rewrite Ha.
  erewrite bind_ok by exact Hi.
  cbn [negb].
  rewrite (bind_ok _ _ w0 w0 (self w0)) by reflexivity. rewrite Hg.
  rewrite bool_decide_eq_true_2 by (now exists g). unfold when.
  destruct (wake_rounds_Some w0 g Hg) as (tr1 & E1).
  erewrite bind_ok by exact E1.
  match goal with
  | |- context [bind (suppress_mouse true) _ ?W] =>
      destruct (suppress_mouse_run true W) as (ml & tr2 & E2)
  end.
  erewrite bind_ok by exact E2.
  match goal with
  | |- context [bind (suppress_keyboard true) _ ?W] =>
      destruct (suppress_keyboard_run true W) as (kl & tr3 & E3)
  end.
  erewrite bind_ok by exact E3.
  erewrite bind_ok by reflexivity.
  erewrite bind_ok by reflexivity.
  erewrite bind_ok by reflexivity.
  erewrite bind_ok by reflexivity.
  destruct w0 as [[] ? ?]. exists ml, kl. eexists.
  unfold ret, with_requests, with_self.
  cbn [self trace vigem_available set_gamepad _gamepad _active
       cursor_manager mouse_dx mouse_dy keys joystick_keys last_lx last_ly
       last_rx last_ry r2_held l2_held _last_update _update_interval
       mouse_listener keyboard_listener set_mouse_listener
       set_keyboard_listener set_active].
  rewrite <- !app_assoc. reflexivity.
Qed.

Lemma activate_inactive (w : World) g :
  _active (self w) = false ->
  _gamepad (self w) = Some g ->
  exists ml kl tr,
    activate w
    = (Ok true,
       with_requests tr
         (with_self
            (fun c =>
               set_active true
                 (set_keyboard_listener kl
                    (set_mouse_listener ml
                       (set_gamepad (Some (woken g)) c)))) w)).
Proof.
  intros Ha Hg.
  apply (activate_after_initialize w w g Ha); [| exact Hg].
  now apply (initialize_gamepad_Some w g).
Qed.

Lemma staged_at_rest_neutral (cfg : Config.t) (c : GamepadController) g :
  nothing_held c ->
  mouse_dx c = 0%float -> mouse_dy c = 0%float ->
  in_unit_range (last_rx c) -> in_unit_range (last_ry c) ->
  Config.SMOOTHING cfg = 0%float ->
  (0 <=? Config.DEADZONE cfg)%float = true ->
  neutral cfg (staged_by_tick cfg c g).
Proof.
  intros (Hk & Hj & Hl2 & Hr2) Hdx Hdy Hrx Hry Hsm Hdz.
  unfold staged_by_tick.
  rewrite (left_axes_all_clear _ Hj), Hdx, Hdy,
    (right_axes_at_rest cfg c Hl2 Hsm Hdz Hrx Hry),
    (buttons_report_all_clear cfg _ _ Hk), Hl2, Hr2.
  unfold neutral. cbn.
  rewrite release_all_left_joystick, release_all_right_joystick. cbn.
  repeat split; try reflexivity.
  intros b Hb. unfold vg.is_pressed. apply bool_decide_eq_false_2. cbn.
  rewrite release_all_pressed. tauto.
Qed.

(** C6, as the code has it: re-activating an inactive controller while
    nothing is held, no mouse displacement is pending, smoothing is off and
    the deadzone is not negative, the first tick flushes a neutral report:
    both sticks at the origin, every mapped button released, both triggers
    at zero. *)
Theorem reactivation_at_rest (cfg : Config.t) (now : float) (w : World) g :
  _active (self w) = false ->
  _gamepad (self w) = Some g ->
  nothing_held (self w) ->
  mouse_dx (self w) = 0%float -> mouse_dy (self w) = 0%float ->
  in_unit_range (last_rx (self w)) -> in_unit_range (last_ry (self w)) ->
  Config.SMOOTHING cfg = 0%float ->
  (0 <=? Config.DEADZONE cfg)%float = true ->
  tick_due (self w) now = true ->
  first_tick_neutral cfg now w.
Proof.
  intros Ha Hg Hn Hdx Hdy Hrx Hry Hsm Hdz Hdue.
  destruct (activate_inactive w g Ha Hg) as (ml & kl & tr & E).
  unfold first_tick_neutral. rewrite E. cbn [snd].
  match goal with
  | |- context [process_inputs cfg now ?W] => set (w1 := W)
  end.
  assert (Hg1 : _gamepad (self w1) = Some (woken g))
    by (destruct w as [[] ? ?]; reflexivity).
  assert (Ha1 : _active (self w1) = true)
    by (destruct w as [[] ? ?]; reflexivity).
  assert (Hd1 : tick_due (self w1) now = true)
    by (destruct w as [[] ? ?]; exact Hdue).
  rewrite (process_inputs_active cfg now w1 _ Hd1 Hg1 Ha1). cbn [snd].
  eexists. split.
  - unfold with_requests. cbn [trace]. apply last_snoc.
  - apply staged_at_rest_neutral; try assumption;
      destruct w as [[] ? ?]; assumption.
Qed.

Lemma all_clear_check (d : gmap string bool) :
  forallb (fun kv => negb (snd kv)) (map_to_list d) = true -> all_clear d.
Proof.
  intros H k v Hkv. apply elem_of_map_to_list in Hkv.
  rewrite forallb_forall in H. apply list_elem_of_In in Hkv.
  specialize (H _ Hkv). cbn in H. now destruct v.
Qed.

Lemma nothing_held_check (c : GamepadController) :
  forallb (fun kv => negb (snd kv)) (map_to_list (keys c)) = true ->
  forallb (fun kv => negb (snd kv)) (map_to_list (joystick_keys c)) = true ->
  l2_held c = false -> r2_held c = false ->
  nothing_held c.
Proof.
  intros Hk Hj Hl Hr. repeat split; try assumption;
    now apply all_clear_check.
Qed.

Lemma reactivation_at_rest_witness :
  _active (self paused) = false /\
  first_tick_neutral Config.defaults 1 paused.
Proof.
  split; [vm_compute; reflexivity |].
  apply (reactivation_at_rest Config.defaults 1 paused vg.new);
    try (vm_compute; reflexivity);
    try (split; vm_compute; reflexivity).
  apply nothing_held_check; vm_compute; reflexivity.
Defined.

(** C6, as documented, fails: a mouse movement that arrived after the last
    tick before deactivation is still pending at re-activation, and the
    first tick turns it into look-stick output (here the full deflection to
    the right) although nothing is held. *)
Lemma reactivation_replays_pending_movement :
  _active (self paused_after_move) = false /\
  nothing_held (self paused_after_move) /\
  tick_due (self (snd (activate paused_after_move))) 1 = true /\
  ~ first_tick_neutral Config.defaults 1 paused_after_move.
Proof.
  split; [vm_compute; reflexivity |].
  split; [apply nothing_held_check; vm_compute; reflexivity |].
  split; [vm_compute; reflexivity |].
  intros (g & Hlast & Hn). vm_compute in Hlast.
  injection Hlast as <-. destruct Hn as (_ & Hr & _). cbn in Hr.
  apply (f_equal (fun p => (fst p =? 0)%float)) in Hr.
  vm_compute in Hr. discriminate.
Qed.

(** The same with nothing pending but smoothing on: the previous output
    leaks into the first tick after re-activation. *)
Example reactivation_with_smoothing :
  let cfg := {| Config.UPDATE_RATE_HZ := 120;
                Config.DPI_SCALING := 0.013; Config.SENS_X := 1;
                Config.SENS_Y := 1; Config.ADS_SENS_MULTIPLIER := 0.9;
                Config.DEADZONE := 0.0012; Config.SMOOTHING := 0.5;
                Config.RECOIL_CONTROL_ENABLED := true;
                Config.RECOIL_COMPENSATION := 1.8;
                Config.KEY_MAPPINGS := Config.default_mappings;
                Config.TOGGLE_KEY := "t" |} in
  let w := snd (run cfg [Tick 1; KeyPress (KeyCode (Some "t") "'t'");
                         KeyPress (KeyCode (Some "t") "'t'"); Tick 2] moved) in
  option_map vg.right_joystick (_gamepad (self w)) = Some (0.325, -0.1625)%float.
Proof. vm_compute. reflexivity. Qed.

(** ** An active controller has a device *)

Lemma initialize_gamepad_result (w : World) :
  initialize_gamepad w = (Ok false, w) \/
  exists w0 g, initialize_gamepad w = (Ok true, w0) /\
               _gamepad (self w0) = Some g.
Proof.
  destruct (_gamepad (self w)) as [g|] eqn:Hg.
  - right. exists w, g. split; [now apply (initialize_gamepad_Some w g) | exact Hg].
  - unfold initialize_gamepad, try_except, bind, get_self, new_VX360Gamepad.
    rewrite Hg. destruct (vigem_available w).
    + right. eexists _, vg.new. split; [reflexivity |].
      destruct w as [[] ? ?]; reflexivity.
    + left. reflexivity.
Qed.

Lemma activate_device (w : World) :
  device_invariant w -> device_invariant (snd (activate w)).
Proof.
  intros Hw. destruct (_active (self w)) eqn:Ha.
  - unfold activate. rewrite (bind_ok _ _ w w (self w)) by reflexivity.
    rewrite Ha. exact Hw.
  - destruct (initialize_gamepad_result w) as [Hi | (w0 & g & Hi & Hg)].
    + unfold activate. rewrite (bind_ok _ _ w w (self w)) by reflexivity.
      rewrite Ha. erewrite bind_ok by exact Hi. exact Hw.
    + destruct (activate_after_initialize w w0 g Ha Hi Hg)
        as (ml & kl & tr & E).
      rewrite E. intros _. destruct w0 as [[] ? ?]. now eexists.
Qed.

Lemma deactivate_inactive_after (cfg : Config.t) (w : World) :
  device_invariant w -> _active (self (snd (deactivate cfg w))) = false.
Proof.
  intros Hw. destruct (_active (self w)) eqn:Ha.
  - destruct (Hw Ha) as [g Hg].
    destruct (deactivate_active cfg w g Ha Hg) as (ml & kl & tr & E).
    rewrite E. destruct w as [[] ? ?]; reflexivity.
  - unfold deactivate. rewrite (bind_ok _ _ w w (self w)) by reflexivity.
    rewrite Ha. exact Ha.
Qed.

Lemma same_device_invariant (w w' : World) :
  same_device w w' -> device_invariant w -> device_invariant w'.
Proof. intros [Ha Hg] Hw H. rewrite Ha in H. auto. Qed.

Lemma process_inputs_same_device (cfg : Config.t) (now : float) (w : World) :
  same_device w (snd (process_inputs cfg now w)).
Proof.
  destruct (tick_due (self w) now) eqn:Hd.
  - destruct (_gamepad (self w)) as [g|] eqn:Hg.
    + destruct (_active (self w)) eqn:Ha.
      * rewrite (process_inputs_active cfg now w g Hd Hg Ha).
        destruct w as [[] ? ?].
        split; [reflexivity | intros _; eexists; reflexivity].
      * rewrite (process_inputs_inactive cfg now w g Hd Hg Ha).
        destruct w as [[] ? ?]. split; [reflexivity | intros H; exact H].
    + rewrite (process_inputs_no_device cfg now w Hd Hg).
      destruct w as [[] ? ?]. split; [reflexivity | intros H; exact H].
  - rewrite (process_inputs_skipped cfg now w Hd). now split.
Qed.

Lemma shutdown_inactive_after (cfg : Config.t) (w : World) :
  device_invariant w -> _active (self (snd (shutdown cfg w))) = false.
Proof.
  intros Hw. pose proof (deactivate_inactive_after cfg w Hw) as Hd.
  unfold shutdown, bind at 1.
  destruct (deactivate cfg w) as [[[]|e] w1]; cbn [snd] in Hd; [| exact Hd].
  destruct w1 as [[gp act cm mdx mdy ks jks llx lly lrx lry r2 l2 lu ui
                   ml kl] tr v]; cbn in Hd; subst act.
  destruct gp; reflexivity.
Qed.

Lemma handle_device (cfg : Config.t) (ev : Event) (w : World) :
  device_invariant w -> device_invariant (snd (handle cfg ev w)).
Proof.
  intros Hw. destruct ev as [t|k|k|x y|b p|cfg'|n|]; cbn [handle].
  - exact (same_device_invariant _ _ (process_inputs_same_device cfg t w) Hw).
  - unfold InputHandler.on_key_press, try_except.
    destruct (String.eqb _ _).
    + rewrite (bind_ok _ _ w w (self w)) by reflexivity.
      destruct (_active (self w)) eqn:Ha.
      * pose proof (deactivate_inactive_after cfg w Hw) as Hd.
        destruct (deactivate cfg w) as [[[]|e] w1]; cbn [snd] in *;
          intros H; unfold ret in H; cbn [snd] in H; congruence.
      * pose proof (activate_device w Hw) as Hd. unfold bind.
        destruct (activate w) as [[b|e] w1]; exact Hd.
    + destruct (str_in _ _); [| destruct (Config.is_mapped _ _)];
        destruct w as [[] ? ?]; exact Hw.
  - unfold InputHandler.on_key_release, try_except.
    destruct (str_in _ _); [| destruct (Config.is_mapped _ _)];
      destruct w as [[] ? ?]; exact Hw.
  - unfold InputHandler.on_mouse_move, InputHandler.attribute.
    rewrite (bind_ok _ _ w w (self w)) by reflexivity.
    destruct w as [[gp act [en [cx|] [cy|]] mdx mdy ks jks llx lly lrx lry
                    r2 l2 lu ui ml kl] tr v];
      destruct act; exact Hw.
  - destruct b; destruct w as [[] ? ?]; exact Hw.
  - exact Hw.
  - unfold update_rate. destruct (n =? 0)%Z;
      destruct w as [[] ? ?]; exact Hw.
  - intros H. rewrite (shutdown_inactive_after cfg w Hw) in H. discriminate.
Qed.

(** In every run an active controller has a device: [activate] commits the
    active state only after the device was initialised, and only
    [shutdown] drops the device, after deactivating.  This is why the
    theorems about the active state may speak of the device. *)
Lemma active_controller_has_device (cfg : Config.t) (now : float)
    (cm : CursorManager.t) (vigem : bool) (evs : list Event) :
  device_invariant (snd (run cfg evs (init_world cfg now cm vigem))).
Proof.
  assert (H0 : device_invariant (init_world cfg now cm vigem)).
  { unfold init_world, initialize_gamepad, try_except, bind, get_self,
      new_VX360Gamepad. cbn. destruct vigem; cbn; discriminate. }
  revert H0. generalize (init_world cfg now cm vigem) as w. revert cfg.
  induction evs as [|ev evs IH]; intros cfg w Hw; [exact Hw |].
  destruct ev; cbn [run]; try (apply IH; now apply handle_device).
  now apply IH.
Qed.

(** ** The toggle key and suppression *)

(** An event that carries a character is let through when the character,
    lower-cased, is the listener's toggle key, whatever the suppression
    flag. *)
Lemma toggle_character_not_suppressed
    (l : ConditionalSuppressKeyboardListener.t) (event : Key) (c : string) :
  truthy_char event = Some c ->
  lower c = ConditionalSuppressKeyboardListener._toggle_key l ->
  ConditionalSuppressKeyboardListener._suppress_event l event = false.
Proof.
  intros Hc Hk. unfold ConditionalSuppressKeyboardListener._suppress_event.
  rewrite Hc, Hk, String.eqb_refl. reflexivity.
Qed.

(** For such an event the handler and the listener agree on the key. *)
Lemma parse_key_character (event : Key) (c : string) :
  truthy_char event = Some c -> InputHandler._parse_key event = lower c.
Proof. intros H. unfold InputHandler._parse_key. now rewrite H. Qed.

(** An event without a character follows the suppression flag, also when
    its key is the toggle key. *)
Lemma special_key_follows_flag
    (l : ConditionalSuppressKeyboardListener.t) (name : string) :
  ConditionalSuppressKeyboardListener._suppress_event l (SpecialKey name)
  = ConditionalSuppressKeyboardListener._suppress l.
Proof. reflexivity. Qed.

(** C9 fails on the code where the toggle key is a special key: with F1 as
    toggle key and suppression enabled, the handler reads the event of the
    F1 key as the toggle key, and the listener's predicate suppresses it. *)
Theorem special_toggle_key_is_suppressed :
  InputHandler._parse_key (SpecialKey "f1")
  = ConditionalSuppressKeyboardListener._toggle_key f1_listener /\
  ConditionalSuppressKeyboardListener._suppress_event f1_listener
    (SpecialKey "f1") = true.
Proof. split; reflexivity. Qed.

(** The same happens to a character key once the toggle key was remapped
    in the dialog: the configuration says [x], the listener still exempts
    [t], and the press of [x] that the handler takes for the toggle is
    suppressed while the controller is active. *)
Example remapped_toggle_key_is_suppressed :
  let cfg := Config.with_toggle_key "x" Config.defaults in
  let x := KeyCode (Some "x") "'x'" in
  let w := snd (run Config.defaults [Reconfigure cfg; KeyPress x] started) in
  _active (self w) = true /\
  InputHandler._parse_key x = Config.TOGGLE_KEY cfg /\
  option_map
    (fun l => ConditionalSuppressKeyboardListener._suppress_event l x)
    (keyboard_listener (self w)) = Some true.
Proof. vm_compute. repeat split. Qed.

(** ** The pending mouse movement *)

(** X1: [_get_mouse_movement] hands over the pending displacement and
    zeroes both accumulators, so the displacement is used once: a second
    call right after the first returns (0.0, 0.0) and changes nothing. *)
Theorem pending_movement_is_drained_once (w : World) :
  let r1 := _get_mouse_movement w in
  let r2 := _get_mouse_movement (snd r1) in
  fst r1 = Ok (mouse_dx (self w), mouse_dy (self w)) /\
  snd r1 = with_self (fun c => set_mouse_dy 0 (set_mouse_dx 0 c)) w /\
  r2 = (Ok (0, 0)%float, snd r1).
Proof. destruct w as [[] ? ?]. repeat split. Qed.

(** ** Creating the device *)

(** X2: [initialize_gamepad] never raises; it answers [True] exactly when
    the controller has a device afterwards; a device that exists is kept
    and not replaced; it flushes nothing; and a second call changes
    nothing and gives the same answer. *)
Theorem initialize_gamepad_idempotent (w : World) :
  let r := initialize_gamepad w in
  (exists b, fst r = Ok b /\
             (b = true <-> is_Some (_gamepad (self (snd r))))) /\
  (forall g, _gamepad (self w) = Some g -> r = (Ok true, w)) /\
  trace (snd r) = trace w /\
  initialize_gamepad (snd r) = r.
Proof.
  unfold initialize_gamepad, try_except, bind, get_self, new_VX360Gamepad,
    modify, ret.
  destruct w as [[[g|] ? ? ? ? ? ? ? ? ? ? ? ? ? ? ? ?] tr [|]]; cbn;
    (split; [eexists; split; [reflexivity |] |]);
    try (split; [intros _; now eexists | reflexivity]);
    try (split; [discriminate | intros [? [=]]]);
    (split; [intros ? [=]; subst; reflexivity | split; reflexivity]).
Qed.

(** ** The movement stick, direction by direction *)

(** X3: the movement stick is read off the four direction flags: [d]
    counts +1 and [a] counts -1 on the X axis, [w] counts +1 and [s] counts
    -1 on the Y axis, opposite directions cancel, and when both axes are
    deflected each is scaled to 0.7071067811865475. *)
Theorem movement_stick_table (jk : gmap string bool) :
  let axis (pos neg : bool) : float :=
    (if pos then (if neg then 0 else 1)
     else (if neg then -1 else 0))%float in
  let x := axis (dict_get jk "d") (dict_get jk "a") in
  let y := axis (dict_get jk "w") (dict_get jk "s") in
  left_axes jk
  = if Py.neb x 0%float && Py.neb y 0%float
    then (x * 0.7071067811865475, y * 0.7071067811865475)%float
    else (x, y).
Proof.
  unfold left_axes. rewrite left_contributions_unfold. unfold left_step.
  destruct (dict_get jk "w"), (dict_get jk "a"),
    (dict_get jk "s"), (dict_get jk "d"); vm_compute; reflexivity.
Qed.

(** ** Key identifiers *)






(** ** What the keyboard listener lets through *)

(** X5: the keyboard listener lets an event through exactly when
    suppression is off, or the event carries a non-empty character whose
    lower-case form is the listener's toggle key. *)
Theorem keyboard_event_let_through
    (l : ConditionalSuppressKeyboardListener.t) (event : Key) :
  ConditionalSuppressKeyboardListener._suppress_event l event = false <->
  ConditionalSuppressKeyboardListener._suppress l = false \/
  exists c, truthy_char event = Some c /\
            lower c = ConditionalSuppressKeyboardListener._toggle_key l.
Proof.
  unfold ConditionalSuppressKeyboardListener._suppress_event.
  destruct (truthy_char event) as [c|].
  - destruct (String.eqb (lower c) _) eqn:E.
    + apply String.eqb_eq in E. split; [| reflexivity].
      intros _. right. now exists c.
    + apply String.eqb_neq in E. split; [now left |].
      intros [H | (c' & [= <-] & H)]; [exact H | contradiction].
  - split; [now left |]. intros [H | (c' & [=] & _)]. exact H.
Qed.

(** ** Buttons *)

Lemma is_pressed_press_button b b' g :
  vg.is_pressed b (vg.press_button b' g)
  = if decide (b = b') then true else vg.is_pressed b g.
Proof.
  unfold vg.is_pressed, vg.press_button, vg.set_pressed. cbn.
  destruct (decide (b = b')) as [->|Hne].
  - apply bool_decide_eq_true_2. apply elem_of_cons. now left.
  - apply bool_decide_ext. rewrite elem_of_cons, list_elem_of_filter. tauto.
Qed.

Lemma is_pressed_release_button b b' g :
  vg.is_pressed b (vg.release_button b' g)
  = if decide (b = b') then false else vg.is_pressed b g.
Proof.
  unfold vg.is_pressed, vg.release_button, vg.set_pressed. cbn.
  destruct (decide (b = b')) as [->|Hne].
  - apply bool_decide_eq_false_2. rewrite list_elem_of_filter. tauto.
  - apply bool_decide_ext. rewrite list_elem_of_filter. tauto.
Qed.

(** One iteration of the loop of [_process_buttons], on the report. *)
Lemma button_step_is_pressed (ks : gmap string bool) kb g b :
  vg.is_pressed b
    (if dict_get ks (fst kb) then vg.press_button (snd kb) g
     else vg.release_button (snd kb) g)
  = if decide (b = snd kb) then dict_get ks (fst kb) else vg.is_pressed b g.
Proof.
  destruct (dict_get ks (fst kb));
    [rewrite is_pressed_press_button | rewrite is_pressed_release_button];
    reflexivity.
Qed.

Lemma buttons_loop_untouched (ks : gmap string bool) l g b :
  b ∉ map snd l ->
  vg.is_pressed b
    (fold_left
       (fun g kb => if dict_get ks (fst kb) then vg.press_button (snd kb) g
                    else vg.release_button (snd kb) g) l g)
  = vg.is_pressed b g.
Proof.
  revert g. induction l as [|kb l IH]; intros g Hb; [reflexivity |].
  cbn [map] in Hb. apply not_elem_of_cons in Hb as [Hne Hb].
  cbn [fold_left]. rewrite (IH _ Hb), button_step_is_pressed.
  now destruct (decide (b = snd kb)).
Qed.

Lemma buttons_loop_synced (ks : gmap string bool) l g k b :
  NoDup (map snd l) -> (k, b) ∈ l ->
  vg.is_pressed b
    (fold_left
       (fun g kb => if dict_get ks (fst kb) then vg.press_button (snd kb) g
                    else vg.release_button (snd kb) g) l g)
  = dict_get ks k.
Proof.
  revert g. induction l as [|kb l IH]; intros g Hnd Hin.
  - now apply elem_of_nil in Hin.
  - cbn [map] in Hnd. apply NoDup_cons in Hnd as [Hfresh Hnd].
    cbn [fold_left]. apply elem_of_cons in Hin as [<- | Hin].
    + rewrite (buttons_loop_untouched ks l _ b Hfresh),
        button_step_is_pressed. cbn [fst snd].
      now destruct (decide (b = b)).
    + now apply IH.
Qed.

Lemma buttons_loop_frame (ks : gmap string bool) l g :
  let g' :=
    fold_left
      (fun g kb => if dict_get ks (fst kb) then vg.press_button (snd kb) g
                   else vg.release_button (snd kb) g) l g in
  vg.left_joystick g' = vg.left_joystick g /\
  vg.right_joystick g' = vg.right_joystick g /\
  vg.left_trigger g' = vg.left_trigger g /\
  vg.right_trigger g' = vg.right_trigger g.
Proof.
  revert g. induction l as [|kb l IH]; intros g; [now cbn |].
  cbn [fold_left]. cbv zeta in IH |- *.
  destruct (IH (if dict_get ks (fst kb) then vg.press_button (snd kb) g
                else vg.release_button (snd kb) g)) as (-> & -> & -> & ->).
  destruct (dict_get ks (fst kb)); now cbn.
Qed.

Lemma buttons_report_synced (cfg : Config.t) (ks : gmap string bool) g :
  NoDup (Config.mapped_buttons cfg) ->
  buttons_synced cfg ks g (buttons_report cfg ks g).
Proof.
  intros Hnd. unfold buttons_synced, buttons_report.
  split; [| split].
  - intros k b Hin. now apply buttons_loop_synced.
  - intros b Hb. now apply buttons_loop_untouched.
  - apply buttons_loop_frame.
Qed.

(** X6: when no button is mapped twice, [_process_buttons] brings the
    mapped buttons of the staged report in line with the key flags: after
    it a mapped button is pressed exactly when the flag of its key is set,
    whatever was pressed before; buttons outside the table, both sticks and
    both triggers are left as they were, and nothing is sent to the bus. *)
Theorem buttons_follow_key_flags (cfg : Config.t) (w : World) g :
  NoDup (Config.mapped_buttons cfg) ->
  _gamepad (self w) = Some g ->
  exists g',
    _process_buttons cfg w = (Ok tt, with_self (set_gamepad (Some g')) w) /\
    buttons_synced cfg (keys (self w)) g g'.
Proof.
  intros Hnd Hg. exists (buttons_report cfg (keys (self w)) g).
  split; [now apply _process_buttons_Some | now apply buttons_report_synced].
Qed.

Lemma default_buttons_NoDup : NoDup (Config.mapped_buttons Config.defaults).
Proof. apply (bool_decide_unpack _). vm_compute. exact I. Qed.

Lemma buttons_follow_key_flags_witness :
  NoDup (Config.mapped_buttons Config.defaults) /\
  _gamepad (self running) = Some (woken vg.new) /\
  exists g',
    _process_buttons Config.defaults running
    = (Ok tt, with_self (set_gamepad (Some g')) running) /\
    buttons_synced Config.defaults (keys (self running)) (woken vg.new) g'.
Proof.
  split; [exact default_buttons_NoDup | split; [vm_compute; reflexivity |]].
  apply buttons_follow_key_flags;
    [exact default_buttons_NoDup | vm_compute; reflexivity].
Defined.

(** ** Activation and deactivation, request by request *)

Ltac world_eq w :=
  destruct w as [[] ? ?];
  unfold ret, emit, modify, with_requests, with_self, told_listeners,
    suppression_requests;
  cbn [self trace vigem_available set_gamepad _gamepad _active
       cursor_manager mouse_dx mouse_dy keys joystick_keys last_lx last_ly
       last_rx last_ry r2_held l2_held _last_update _update_interval
       mouse_listener keyboard_listener set_mouse_listener
       set_keyboard_listener set_active set_keys set_joystick_keys
       fmap option_fmap option_map];
  rewrite <- ?app_assoc, ?app_nil_r; try reflexivity.

Lemma suppress_mouse_eq (b : bool) (w : World) :
  suppress_mouse b w
  = (Ok tt,
     with_requests
       (match mouse_listener (self w) with
        | Some _ => [SuppressMouse b]
        | None => []
        end)
       (with_self
          (fun c =>
             set_mouse_listener
               (ConditionalSuppressMouseListener.suppress_events b
                  <$> mouse_listener c) c) w)).
Proof.
  destruct w as [[? ? ? ? ? ? ? ? ? ? ? ? ? ? ? [ml|] kl] tr v].
  - reflexivity.
  - unfold suppress_mouse, bind, get_self, ret, with_requests, with_self.
    cbn. now rewrite app_nil_r.
Qed.

Lemma suppress_keyboard_eq (b : bool) (w : World) :
  suppress_keyboard b w
  = (Ok tt,
     with_requests
       (match keyboard_listener (self w) with
        | Some _ => [SuppressKeyboard b]
        | None => []
        end)
       (with_self
          (fun c =>
             set_keyboard_listener
               (ConditionalSuppressKeyboardListener.suppress_events b
                  <$> keyboard_listener c) c) w)).
Proof.
  destruct w as [[? ? ? ? ? ? ? ? ? ? ? ? ? ? ? ml [kl|]] tr v].
  - reflexivity.
  - unfold suppress_keyboard, bind, get_self, ret, with_requests, with_self.
    cbn. now rewrite app_nil_r.
Qed.

(** Both listeners told, one after the other. *)
Lemma suppress_both_eq {A} (b : bool) (k : M A) (w : World) :
  (suppress_mouse b ;; suppress_keyboard b ;; k) w
  = k (with_requests (suppression_requests b (self w))
         (with_self (told_listeners b) w)).
Proof.
  erewrite bind_ok by apply suppress_mouse_eq.
  erewrite bind_ok by apply suppress_keyboard_eq.
  f_equal. destruct w as [[? ? ? ? ? ? ? ? ? ? ? ? ? ? ? ml kl] tr v].
  unfold with_requests, with_self, told_listeners, suppression_requests.
  cbn. now rewrite <- app_assoc.
Qed.

Lemma wake_round_eq (w : World) g :
  _gamepad (self w) = Some g ->
  wake_round w
  = (Ok tt, with_requests (wake_requests g)
              (with_self (set_gamepad (Some (rest_report g))) w)).
Proof.
  intros H. unfold wake_round.
  erewrite bind_ok by (eapply gamepad_call_Some; exact H).
  erewrite bind_ok
    by (eapply gamepad_call_Some; destruct w as [[] ? ?]; reflexivity).
  erewrite bind_ok
    by (eapply gamepad_update_Some; destruct w as [[] ? ?]; reflexivity).
  erewrite bind_ok by reflexivity.
  erewrite bind_ok
    by (eapply gamepad_call_Some; destruct w as [[] ? ?]; reflexivity).
  erewrite bind_ok
    by (eapply gamepad_call_Some; destruct w as [[] ? ?]; reflexivity).
  erewrite bind_ok
    by (eapply gamepad_update_Some; destruct w as [[] ? ?]; reflexivity).
  unfold wake_requests. world_eq w.
Qed.

Lemma wake_rounds_eq (w : World) g :
  _gamepad (self w) = Some g ->
  for_each (seq 0 2) (fun _ => wake_round) w
  = (Ok tt,
     with_requests (wake_requests g ++ wake_requests (rest_report g))
       (with_self (set_gamepad (Some (rest_report (rest_report g)))) w)).
Proof.
  intros H. cbn [seq for_each].
  erewrite bind_ok by (apply wake_round_eq; exact H).
  erewrite bind_ok
    by (apply wake_round_eq; destruct w as [[] ? ?]; reflexivity).
  world_eq w.
Qed.

Lemma activate_eq (w w0 : World) g :
  _active (self w) = false ->
  initialize_gamepad w = (Ok true, w0) ->
  _gamepad (self w0) = Some g ->
  activate w
  = (Ok true, with_requests (activation_requests (self w0) g)
                (with_self (activated g) w0)).
Proof.
  intros Ha Hi Hg. unfold activate.
  rewrite (bind_ok _ _ w w (self w)) by reflexivity. rewrite Ha.
  erewrite bind_ok by exact Hi.
  cbn [negb].
  rewrite (bind_ok _ _ w0 w0 (self w0)) by reflexivity. rewrite Hg.
  rewrite bool_decide_eq_true_2 by (now exists g). unfold when.
  erewrite bind_ok by (apply wake_rounds_eq; exact Hg).
  rewrite suppress_both_eq.
  erewrite bind_ok by reflexivity.
  erewrite bind_ok by reflexivity.
  erewrite bind_ok by reflexivity.
  erewrite bind_ok by reflexivity.
  unfold activation_requests, activated. world_eq w0.
Qed.

(** X7: activating an inactive controller that has a device, or can create
    one, returns [True] and sends, in this order: two wake-up rounds (a
    flush with the look stick at (0.5, 0) and BACK pressed, a pause of
    0.03 s, a flush with the look stick centred and BACK released, a pause
    of 0.03 s), only then the suppression requests (mouse listener, then
    keyboard listener, where attached), then the cursor requests (centre,
    hide).  It leaves the controller active, with both listeners
    suppressing. *)
Theorem activation_sequence (w : World) :
  _active (self w) = false ->
  is_Some (_gamepad (self w)) \/ vigem_available w = true ->
  let g := default vg.new (_gamepad (self w)) in
  activate w
  = (Ok true, with_requests (activation_requests (self w) g)
                (with_self (activated g) w)).
Proof.
  intros Ha Hd. cbv zeta.
  destruct (_gamepad (self w)) as [g|] eqn:Hg; cbn [default].
  - apply (activate_eq w w g Ha); [| exact Hg].
    now apply (initialize_gamepad_Some w g).
  - destruct Hd as [[g Hs] | Hv]; [discriminate |].
    rewrite (activate_eq w (with_self (set_gamepad (Some vg.new)) w) vg.new Ha).
    + destruct w as [[] ? ?]. reflexivity.
    + unfold initialize_gamepad, try_except, bind, get_self,
        new_VX360Gamepad. rewrite Hg, Hv. reflexivity.
    + destruct w as [[] ? ?]. reflexivity.
Qed.

Lemma activation_sequence_witness :
  _active (self started) = false /\
  (is_Some (_gamepad (self started)) \/ vigem_available started = true) /\
  activate started
  = (Ok true,
     with_requests
       (activation_requests (self started)
          (default vg.new (_gamepad (self started))))
       (with_self (activated (default vg.new (_gamepad (self started))))
          started)).
Proof.
  split; [reflexivity | split; [right; reflexivity |]].
  apply activation_sequence; [reflexivity | right; reflexivity].
Defined.

Example activation_requests_started :
  trace running
  = [ Flush (wake_report vg.new); Sleep 0.03%float;
      Flush (rest_report vg.new); Sleep 0.03%float;
      Flush (wake_report (rest_report vg.new)); Sleep 0.03%float;
      Flush (rest_report (rest_report vg.new)); Sleep 0.03%float;
      SuppressMouse true; SuppressKeyboard true;
      SetCursorPos 960 540; HideCursor ].
Proof. vm_compute. reflexivity. Qed.

Lemma _reset_gamepad_eq (cfg : Config.t) (w : World) :
  _reset_gamepad cfg w
  = (Ok tt,
     with_requests
       (match _gamepad (self w) with
        | Some g => [Flush (reset_report cfg g)]
        | None => []
        end)
       (with_self
          (fun c => set_gamepad (reset_report cfg <$> _gamepad c) c) w)).
Proof.
  destruct (_gamepad (self w)) as [g|] eqn:Hg.
  - rewrite (_reset_gamepad_Some cfg w g Hg).
    destruct w as [[] ? ?]. cbn in Hg. subst. reflexivity.
  - unfold _reset_gamepad. rewrite (bind_ok _ _ w w (self w)) by reflexivity.
    rewrite Hg. cbn. unfold ret.
    destruct w as [[] ? ?]. cbn in Hg. subst.
    unfold with_requests, with_self. cbn. now rewrite app_nil_r.
Qed.

Lemma deactivate_eq (cfg : Config.t) (w : World) :
  _active (self w) = true ->
  deactivate cfg w
  = (Ok tt, with_requests (deactivation_requests cfg (self w))
              (with_self (deactivated_controller cfg) w)).
Proof.
  intros Ha. unfold deactivate.
  rewrite (bind_ok _ _ w w (self w)) by reflexivity. rewrite Ha. cbn [negb].
  erewrite bind_ok by reflexivity.
  erewrite bind_ok by apply _reset_gamepad_eq.
  erewrite bind_ok by reflexivity.
  erewrite bind_ok by reflexivity.
  rewrite suppress_both_eq.
  erewrite bind_ok by reflexivity.
  unfold deactivation_requests, deactivated_controller. world_eq w.
Qed.

(** ** Which calls can raise *)

Lemma try_except_ok {A} (m h : M A) (w : World) a :
  fst (m w) = Ok a -> try_except m h w = m w.
Proof.
  unfold try_except. destruct (m w) as [[a'|e] w']; cbn; [reflexivity |].
  discriminate.
Qed.

Lemma initialize_gamepad_cases (w : World) :
  match _gamepad (self w) with
  | Some _ => initialize_gamepad w = (Ok true, w)
  | None =>
      if vigem_available w
      then initialize_gamepad w
           = (Ok true, with_self (set_gamepad (Some vg.new)) w)
      else initialize_gamepad w = (Ok false, w)
  end.
Proof.
  unfold initialize_gamepad, try_except, bind, get_self, new_VX360Gamepad.
  destruct (_gamepad (self w)); [reflexivity |].
  destruct (vigem_available w); reflexivity.
Qed.

(** [activate], case by case. *)
Lemma activate_cases (w : World) :
  activate w
  = if _active (self w) then (Ok true, w)
    else match _gamepad (self w), vigem_available w with
         | None, false => (Ok false, w)
         | _, _ =>
             let g := default vg.new (_gamepad (self w)) in
             (Ok true, with_requests (activation_requests (self w) g)
                         (with_self (activated g) w))
         end.
Proof.
  destruct (_active (self w)) eqn:Ha.
  - unfold activate. rewrite (bind_ok _ _ w w (self w)) by reflexivity.
    now rewrite Ha.
  - pose proof (initialize_gamepad_cases w) as Hi.
    destruct (_gamepad (self w)) as [g|] eqn:Hg.
    + apply (activate_eq w w g Ha Hi Hg).
    + destruct (vigem_available w) eqn:Hv.
      * rewrite (activate_eq w _ vg.new Ha Hi)
          by (destruct w as [[] ? ?]; reflexivity).
        destruct w as [[] ? ?]. reflexivity.
      * unfold activate. rewrite (bind_ok _ _ w w (self w)) by reflexivity.
        rewrite Ha. erewrite bind_ok by exact Hi. reflexivity.
Qed.

(** [deactivate], case by case. *)
Lemma deactivate_cases (cfg : Config.t) (w : World) :
  deactivate cfg w
  = if _active (self w)
    then (Ok tt, with_requests (deactivation_requests cfg (self w))
                   (with_self (deactivated_controller cfg) w))
    else (Ok tt, w).
Proof.
  destruct (_active (self w)) eqn:Ha.
  - now apply deactivate_eq.
  - unfold deactivate. rewrite (bind_ok _ _ w w (self w)) by reflexivity.
    now rewrite Ha.
Qed.

Lemma activate_returns (w : World) : exists b, fst (activate w) = Ok b.
Proof.
  rewrite activate_cases.
  destruct (_active (self w)), (_gamepad (self w)), (vigem_available w);
    eexists; reflexivity.
Qed.

Lemma deactivate_returns (cfg : Config.t) (w : World) :
  fst (deactivate cfg w) = Ok tt.
Proof. rewrite deactivate_cases. now destruct (_active (self w)). Qed.

Lemma toggle_controller_returns (cfg : Config.t) (w : World) :
  fst (MainWindow._toggle_controller cfg w) = Ok tt.
Proof.
  unfold MainWindow._toggle_controller.
  rewrite (bind_ok _ _ w w (self w)) by reflexivity.
  destruct (_active (self w)); [apply deactivate_returns |].
  destruct (activate_returns w) as [b Hb]. unfold bind.
  destruct (activate w) as [[b'|e] w']; cbn in *; [reflexivity |].
  discriminate.
Qed.

(** The rest of [shutdown], after [deactivate]. *)
Lemma shutdown_device_eq (w : World) :
  (c <- get_self ;;
   when (bool_decide (is_Some (_gamepad c)))
        (try_except (gamepad_call (fun _ => vg.new) ;; gamepad_update)
                    (ret tt) ;;
         modify (set_gamepad None))) w
  = (Ok tt,
     with_requests
       (match _gamepad (self w) with
        | Some _ => [Flush vg.new]
        | None => []
        end)
       (with_self (set_gamepad None) w)).
Proof.
  rewrite (bind_ok _ _ w w (self w)) by reflexivity.
  destruct (_gamepad (self w)) as [g|] eqn:Hg.
  - rewrite bool_decide_eq_true_2 by (now exists g). unfold when.
    rewrite (bind_ok _ _ w
               (with_requests [Flush vg.new]
                  (with_self (set_gamepad (Some vg.new)) w)) tt).
    + destruct w as [[] ? ?]. reflexivity.
    + rewrite try_except_ok with (a := tt).
      * erewrite bind_ok by (eapply gamepad_call_Some; exact Hg).
        apply gamepad_update_Some. destruct w as [[] ? ?]. reflexivity.
      * erewrite bind_ok by (eapply gamepad_call_Some; exact Hg).
        erewrite gamepad_update_Some
          by (destruct w as [[] ? ?]; reflexivity).
        reflexivity.
  - rewrite bool_decide_eq_false_2 by (intros [? [=]]). unfold when, ret.
    destruct w as [[] ? ?]. cbn in Hg. subst.
    unfold with_requests, with_self. cbn. now rewrite app_nil_r.
Qed.

Lemma shutdown_eq (cfg : Config.t) (w : World) :
  shutdown cfg w
  = let w1 := snd (deactivate cfg w) in
    (Ok tt,
     with_requests
       (match _gamepad (self w1) with
        | Some _ => [Flush vg.new]
        | None => []
        end)
       (with_self (set_gamepad None) w1)).
Proof.
  unfold shutdown. pose proof (deactivate_returns cfg w) as H.
  destruct (deactivate cfg w) as [[[]|e] w1] eqn:E; cbn in H; [| discriminate].
  erewrite bind_ok by exact E. cbn [snd]. apply shutdown_device_eq.
Qed.

Lemma process_inputs_returns (cfg : Config.t) (now : float) (w : World) :
  fst (process_inputs cfg now w) = Ok tt.
Proof.
  destruct (tick_due (self w) now) eqn:Hd.
  - destruct (_gamepad (self w)) as [g|] eqn:Hg.
    + destruct (_active (self w)) eqn:Ha.
      * now rewrite (process_inputs_active cfg now w g Hd Hg Ha).
      * now rewrite (process_inputs_inactive cfg now w g Hd Hg Ha).
    + now rewrite (process_inputs_no_device cfg now w Hd Hg).
  - now rewrite (process_inputs_skipped cfg now w Hd).
Qed.


(** ** The toggle *)

Lemma toggle_key_press_eq (cfg : Config.t) (key : Key) (w : World) :
  InputHandler._parse_key key = Config.TOGGLE_KEY cfg ->
  InputHandler.on_key_press cfg key w = MainWindow._toggle_controller cfg w.
Proof.
  intros H. unfold InputHandler.on_key_press.
  rewrite H, String.eqb_refl.
  apply try_except_ok with (a := tt). apply toggle_controller_returns.
Qed.

(** X9: pressing the toggle key does what the button of the main window
    does: the key handler and [_toggle_controller] leave the same world. *)
Theorem toggle_key_is_the_window_button (cfg : Config.t) (key : Key)
    (w : World) :
  InputHandler._parse_key key = Config.TOGGLE_KEY cfg ->
  InputHandler.on_key_press cfg key w = MainWindow._toggle_controller cfg w.
Proof. apply toggle_key_press_eq. Qed.

Lemma toggle_key_is_the_window_button_witness :
  InputHandler._parse_key (KeyCode (Some "T") "'T'")
  = Config.TOGGLE_KEY Config.defaults /\
  InputHandler.on_key_press Config.defaults (KeyCode (Some "T") "'T'") started
  = MainWindow._toggle_controller Config.defaults started.
Proof.
  split; [reflexivity |].
  apply toggle_key_is_the_window_button. reflexivity.
Defined.

Lemma toggle_controller_eq (cfg : Config.t) (w : World) :
  snd (MainWindow._toggle_controller cfg w)
  = if _active (self w) then snd (deactivate cfg w) else snd (activate w).
Proof.
  unfold MainWindow._toggle_controller.
  rewrite (bind_ok _ _ w w (self w)) by reflexivity.
  destruct (_active (self w)); [reflexivity |].
  unfold bind. now destruct (activate w) as [[b|e] w'].
Qed.

(** X10: when the controller has a device, or the driver can create one, a
    toggle flips the activation state, and tells each attached listener to
    suppress exactly when the new state is active. *)
Theorem toggle_flips_activation (cfg : Config.t) (w : World) :
  is_Some (_gamepad (self w)) \/ vigem_available w = true ->
  let w' := snd (MainWindow._toggle_controller cfg w) in
  let on := negb (_active (self w)) in
  _active (self w') = on /\
  mouse_listener (self w')
  = (ConditionalSuppressMouseListener.suppress_events on
       <$> mouse_listener (self w)) /\
  keyboard_listener (self w')
  = (ConditionalSuppressKeyboardListener.suppress_events on
       <$> keyboard_listener (self w)).
Proof.
  intros Hd. cbv zeta. rewrite toggle_controller_eq.
  destruct (_active (self w)) eqn:Ha.
  - rewrite deactivate_cases, Ha. destruct w as [[] ? ?]. now cbn.
  - rewrite activate_cases, Ha.
    destruct (_gamepad (self w)) as [g|] eqn:Hg.
    + destruct w as [[] ? ?]. now cbn.
    + destruct Hd as [[g Hs] | Hv]; [discriminate |]. rewrite Hv.
      destruct w as [[] ? ?]. now cbn.
Qed.

Lemma toggle_flips_activation_witness :
  (is_Some (_gamepad (self running)) \/ vigem_available running = true) /\
  _active (self (snd (MainWindow._toggle_controller Config.defaults running)))
  = negb (_active (self running)).
Proof.
  split; [right; reflexivity |].
  apply (toggle_flips_activation Config.defaults running). right. reflexivity.
Defined.

(** ** Suppression follows activation *)

Lemma same_listeners_invariant (w w' : World) :
  same_listeners w w' -> suppression_invariant w -> suppression_invariant w'.
Proof.
  intros (Ha & Hm & Hk) [Im Ik]. unfold suppression_invariant.
  rewrite Ha, Hm, Hk. now split.
Qed.

Lemma same_listeners_refl (w : World) : same_listeners w w.
Proof. now repeat split. Qed.

Lemma process_inputs_same_listeners (cfg : Config.t) (now : float)
    (w : World) :
  same_listeners w (snd (process_inputs cfg now w)).
Proof.
  destruct (tick_due (self w) now) eqn:Hd.
  - destruct (_gamepad (self w)) as [g|] eqn:Hg.
    + destruct (_active (self w)) eqn:Ha.
      * rewrite (process_inputs_active cfg now w g Hd Hg Ha).
        destruct w as [[] ? ?]. now repeat split.
      * rewrite (process_inputs_inactive cfg now w g Hd Hg Ha).
        destruct w as [[] ? ?]. now repeat split.
    + rewrite (process_inputs_no_device cfg now w Hd Hg).
      destruct w as [[] ? ?]. now repeat split.
  - rewrite (process_inputs_skipped cfg now w Hd). apply same_listeners_refl.
Qed.

Lemma told_listeners_invariant (b : bool) (w w' : World) :
  _active (self w') = b ->
  mouse_listener (self w')
  = (ConditionalSuppressMouseListener.suppress_events b
       <$> mouse_listener (self w)) ->
  keyboard_listener (self w')
  = (ConditionalSuppressKeyboardListener.suppress_events b
       <$> keyboard_listener (self w)) ->
  suppression_invariant w'.
Proof.
  intros Ha Hm Hk. unfold suppression_invariant. rewrite Ha, Hm, Hk.
  split; intros l H.
  - destruct (mouse_listener (self w)); cbn in H; [| discriminate].
    now injection H as <-.
  - destruct (keyboard_listener (self w)); cbn in H; [| discriminate].
    now injection H as <-.
Qed.

Lemma activate_suppression (w : World) :
  suppression_invariant w -> suppression_invariant (snd (activate w)).
Proof.
  intros Hw. rewrite activate_cases.
  destruct (_active (self w)) eqn:Ha; [exact Hw |].
  destruct (_gamepad (self w)) as [g|] eqn:Hg;
    [| destruct (vigem_available w); [| exact Hw]];
    apply (told_listeners_invariant true w);
    destruct w as [[] ? ?]; reflexivity.
Qed.

Lemma deactivate_suppression (cfg : Config.t) (w : World) :
  suppression_invariant w ->
  suppression_invariant (snd (deactivate cfg w)) /\
  _active (self (snd (deactivate cfg w))) = false.
Proof.
  intros Hw. rewrite deactivate_cases.
  destruct (_active (self w)) eqn:Ha; [| now split].
  split; [| destruct w as [[] ? ?]; reflexivity].
  apply (told_listeners_invariant false w);
    destruct w as [[] ? ?]; reflexivity.
Qed.

Lemma toggle_suppression (cfg : Config.t) (w : World) :
  suppression_invariant w ->
  suppression_invariant (snd (MainWindow._toggle_controller cfg w)).
Proof.
  intros Hw. rewrite toggle_controller_eq.
  destruct (_active (self w));
    [now apply deactivate_suppression | now apply activate_suppression].
Qed.

Lemma shutdown_suppression (cfg : Config.t) (w : World) :
  suppression_invariant w -> suppression_invariant (snd (shutdown cfg w)).
Proof.
  intros Hw. rewrite shutdown_eq. cbv zeta. cbn [snd].
  destruct (deactivate_suppression cfg w Hw) as [H1 _].
  revert H1. generalize (snd (deactivate cfg w)) as w1. intros w1 H1.
  apply (same_listeners_invariant w1); [| exact H1].
  destruct w1 as [[] ? ?]. now repeat split.
Qed.

Lemma on_key_press_suppression (cfg : Config.t) (k : Key) (w : World) :
  suppression_invariant w ->
  suppression_invariant (snd (InputHandler.on_key_press cfg k w)).
Proof.
  intros Hw.
  destruct (String.eqb (InputHandler._parse_key k) (Config.TOGGLE_KEY cfg))
    eqn:E.
  - apply String.eqb_eq in E.
    rewrite (toggle_key_press_eq cfg k w E).
    now apply toggle_suppression.
  - unfold InputHandler.on_key_press, try_except. rewrite E.
    apply (same_listeners_invariant w); [| exact Hw].
    destruct (str_in _ _); [| destruct (Config.is_mapped _ _)];
      destruct w as [[] ? ?]; now repeat split.
Qed.

Lemma handle_suppression (cfg : Config.t) (ev : Event) (w : World) :
  suppression_invariant w -> suppression_invariant (snd (handle cfg ev w)).
Proof.
  intros Hw. destruct ev as [t|k|k|x y|b p|cfg'|n|]; cbn [handle].
  - exact (same_listeners_invariant _ _
             (process_inputs_same_listeners cfg t w) Hw).
  - now apply on_key_press_suppression.
  - unfold InputHandler.on_key_release, try_except.
    apply (same_listeners_invariant w); [| exact Hw].
    destruct (str_in _ _); [| destruct (Config.is_mapped _ _)];
      destruct w as [[] ? ?]; now repeat split.
  - apply (same_listeners_invariant w); [| exact Hw].
    unfold InputHandler.on_mouse_move, InputHandler.attribute.
    rewrite (bind_ok _ _ w w (self w)) by reflexivity.
    destruct w as [[gp act [en [cx|] [cy|]] mdx mdy ks jks llx lly lrx lry
                    r2 l2 lu ui ml kl] tr v];
      destruct act; now repeat split.
  - apply (same_listeners_invariant w); [| exact Hw].
    destruct b; destruct w as [[] ? ?]; now repeat split.
  - exact Hw.
  - apply (same_listeners_invariant w); [| exact Hw].
    unfold update_rate. destruct (n =? 0)%Z;
      destruct w as [[] ? ?]; now repeat split.
  - now apply shutdown_suppression.
Qed.

Lemma update_rate_same_listeners (n : Z) (w : World) :
  same_listeners w (snd (update_rate n w)).
Proof.
  unfold update_rate. destruct (n =? 0)%Z;
    destruct w as [[] ? ?]; now repeat split.
Qed.

Lemma act_suppression (a : Action) (s : Config.t * World) :
  suppression_invariant (snd s) -> suppression_invariant (snd (act a s)).
Proof.
  destruct s as [cfg w]. cbn [snd]. intros Hw.
  destruct a as [|k|old k| |v|v|v|]; cbn [act snd]; try exact Hw.
  - now apply toggle_suppression.
  - unfold KeyMappingDialog._remap_button_key.
    destruct (getitem old (Config.KEY_MAPPINGS cfg)); [| exact Hw].
    cbn [snd]. apply (same_listeners_invariant w); [| exact Hw].
    unfold with_self, same_listeners. cbn [self].
    destruct (keys (self w) !! old); destruct w as [[] ? ?];
      now repeat split.
  - unfold SettingsDialog._update_rate_changed.
    destruct v as [v|]; [| exact Hw].
    destruct (_ && _); [| exact Hw]. cbn [snd].
    exact (same_listeners_invariant _ _ (update_rate_same_listeners v w) Hw).
Qed.

Lemma step_suppression (i : Input) (s : Config.t * World) :
  suppression_invariant (snd s) -> suppression_invariant (snd (step i s)).
Proof.
  destruct i as [ev|a]; [| apply act_suppression].
  destruct s as [cfg w]. cbn [step fst snd]. intros Hw.
  destruct ev; cbn [run snd]; try exact Hw; now apply handle_suppression.
Qed.

Lemma inactive_lets_everything_through (w : World) :
  suppression_invariant w -> _active (self w) = false ->
  lets_everything_through w.
Proof.
  intros [Hm Hk] Ha. split.
  - intros l Hl. unfold ConditionalSuppressMouseListener._suppress_event.
    now rewrite (Hm l Hl).
  - intros l event Hl.
    unfold ConditionalSuppressKeyboardListener._suppress_event.
    rewrite (Hk l Hl), Ha.
    destruct (truthy_char event); [destruct (String.eqb _ _) |]; reflexivity.
Qed.

Lemma play_suppression (ins : list Input) (s : Config.t * World) :
  suppression_invariant (snd s) -> suppression_invariant (snd (play ins s)).
Proof.
  revert s. induction ins as [|i ins IH]; intros s Hs; [exact Hs |].
  cbn [play fold_left]. apply IH. now apply step_suppression.
Qed.

Lemma main_world_state (cfg : Config.t) (now : float)
    (cm : CursorManager.t) (vigem : bool) :
  let w := main_world cfg now cm vigem in
  _active (self w) = false /\ trace w = [] /\
  cursor_manager (self w) = cm /\
  (exists l, mouse_listener (self w) = Some l /\
             ConditionalSuppressMouseListener._suppress l = false) /\
  (exists l, keyboard_listener (self w) = Some l /\
             ConditionalSuppressKeyboardListener._suppress l = false).
Proof.
  unfold main_world, init_world, initialize_gamepad, try_except, bind,
    get_self, new_VX360Gamepad. cbn.
  destruct vigem; cbn; repeat split; eexists; split; reflexivity.
Qed.

Lemma main_world_suppression (cfg : Config.t) (now : float)
    (cm : CursorManager.t) (vigem : bool) :
  suppression_invariant (main_world cfg now cm vigem).
Proof.
  destruct (main_world_state cfg now cm vigem)
    as (Ha & _ & _ & (ml & Hm & Hms) & (kl & Hk & Hks)).
  unfold suppression_invariant. rewrite Ha, Hm, Hk.
  split; intros l [= <-]; assumption.
Qed.

(** X11: in every session of the application (ticks, capture callbacks,
    rate changes, window actions and shutdown, in any order, from the
    engine as [main] sets it up) each listener suppresses exactly when the
    controller is active.  In particular an inactive controller holds back
    no mouse event and no keyboard event. *)
Theorem suppression_follows_activation (cfg : Config.t) (now : float)
    (cm : CursorManager.t) (vigem : bool) (ins : list Input) :
  let w' := snd (play ins (cfg, main_world cfg now cm vigem)) in
  suppression_invariant w' /\
  (_active (self w') = false -> lets_everything_through w').
Proof.
  cbv zeta.
  assert (H : suppression_invariant
                (snd (play ins (cfg, main_world cfg now cm vigem))))
    by (apply play_suppression, main_world_suppression).
  split; [exact H | now apply inactive_lets_everything_through].
Qed.

(** ** The shutdown *)

Lemma shutdown_without_device (cfg : Config.t) (w : World) :
  _active (self w) = false -> _gamepad (self w) = None ->
  shutdown cfg w = (Ok tt, w).
Proof.
  intros Ha Hg. rewrite shutdown_eq, deactivate_cases, Ha. cbv zeta.
  cbn [snd]. rewrite Hg. destruct w as [[] ? ?]. cbn in Hg. subst.
  unfold with_requests, with_self. cbn. now rewrite app_nil_r.
Qed.

Lemma deactivate_keeps_device (cfg : Config.t) (w : World) :
  _active (self (snd (deactivate cfg w))) = false /\
  (is_Some (_gamepad (self w)) ->
   is_Some (_gamepad (self (snd (deactivate cfg w))))).
Proof.
  rewrite deactivate_cases. destruct (_active (self w)) eqn:Ha.
  - destruct w as [[[g|] ? ? ? ? ? ? ? ? ? ? ? ? ? ? ? ?] ? ?]; cbn;
      (split; [reflexivity |]); intros [? [=]]. now eexists.
  - now split.
Qed.

(** X12: [shutdown] always returns; it leaves the controller inactive and
    without a device; when there was a device, the last thing sent is the
    flush of a neutral report.  A second shutdown changes nothing, and
    every later tick returns without sending anything. *)
Theorem shutdown_releases_device (cfg : Config.t) (w : World) :
  let w' := snd (shutdown cfg w) in
  fst (shutdown cfg w) = Ok tt /\
  _active (self w') = false /\
  _gamepad (self w') = None /\
  (is_Some (_gamepad (self w)) -> last (trace w') = Some (Flush vg.new)) /\
  shutdown cfg w' = (Ok tt, w') /\
  (forall cfg' now,
     fst (process_inputs cfg' now w') = Ok tt /\
     trace (snd (process_inputs cfg' now w')) = trace w').
Proof.
  cbv zeta. rewrite shutdown_eq. cbv zeta. cbn [fst snd].
  destruct (deactivate_keeps_device cfg w) as [Ha Hg].
  revert Ha Hg. generalize (snd (deactivate cfg w)) as w1. intros w1 Ha Hg.
  set (w' := with_requests _ _).
  assert (Ha' : _active (self w') = false)
    by (destruct w1 as [[] ? ?]; exact Ha).
  assert (Hg' : _gamepad (self w') = None)
    by (destruct w1 as [[] ? ?]; reflexivity).
  split; [reflexivity |]. split; [exact Ha' |]. split; [exact Hg' |].
  split; [| split].
  - intros Hs. destruct (Hg Hs) as [g1 Hg1]. subst w'. rewrite Hg1.
    unfold with_requests. cbn [trace]. apply last_snoc.
  - now apply shutdown_without_device.
  - intros cfg' now. split; [apply process_inputs_returns |].
    destruct (tick_due (self w') now) eqn:Hd.
    + rewrite (process_inputs_no_device cfg' now w' Hd Hg'). reflexivity.
    + now rewrite (process_inputs_skipped cfg' now w' Hd).
Qed.

(** ** What reaches the device *)

Lemma flushes_app (a b : list Effect) :
  flushes (a ++ b) = (flushes a ++ flushes b)%list.
Proof. apply omap_app. Qed.

Lemma flushes_lock_to_center (cm : CursorManager.t) :
  flushes (CursorManager.lock_to_center cm) = [].
Proof.
  unfold CursorManager.lock_to_center.
  destruct cm as [[] [x|] [y|]]; reflexivity.
Qed.

(** X13: the capture callbacks other than a press of the toggle key (key
    presses and releases, mouse movements, mouse clicks) and the rate
    change never touch the device: the staged report and the activation
    state are left as they were and no report is flushed.  Only ticks,
    toggles and the shutdown write to the device. *)
Theorem callbacks_never_touch_the_device (cfg : Config.t) (ev : Event)
    (w : World) :
  (forall t, ev <> Tick t) ->
  ev <> Shutdown ->
  (forall key, ev = KeyPress key ->
     InputHandler._parse_key key <> Config.TOGGLE_KEY cfg) ->
  let w' := snd (handle cfg ev w) in
  _gamepad (self w') = _gamepad (self w) /\
  _active (self w') = _active (self w) /\
  flushes (trace w') = flushes (trace w).
Proof.
  intros Ht Hs Hk. cbv zeta.
  destruct ev as [t|k|k|x y|b p|cfg'|n|]; cbn [handle].
  - now destruct (Ht t).
  - specialize (Hk k eq_refl). apply String.eqb_neq in Hk.
    unfold InputHandler.on_key_press, try_except. rewrite Hk.
    destruct (str_in _ _); [| destruct (Config.is_mapped _ _)];
      destruct w as [[] ? ?]; now repeat split.
  - unfold InputHandler.on_key_release, try_except.
    destruct (str_in _ _); [| destruct (Config.is_mapped _ _)];
      destruct w as [[] ? ?]; now repeat split.
  - unfold InputHandler.on_mouse_move, InputHandler.attribute.
    rewrite (bind_ok _ _ w w (self w)) by reflexivity.
    destruct (_active (self w)) eqn:Ha; cbn [negb]; [| now repeat split].
    destruct (CursorManager.center_x (cursor_manager (self w))) as [cx|];
      [| now repeat split].
    erewrite bind_ok by reflexivity.
    destruct (CursorManager.center_y (cursor_manager (self w))) as [cy|];
      [| now repeat split].
    destruct w as [[] ? ?]. cbn in Ha. subst.
    split; [reflexivity | split; [reflexivity |]].
    cbn. rewrite flushes_app, flushes_lock_to_center. apply app_nil_r.
  - destruct b; destruct w as [[] ? ?]; now repeat split.
  - now repeat split.
  - unfold update_rate. destruct (n =? 0)%Z;
      destruct w as [[] ? ?]; now repeat split.
  - now destruct Hs.
Qed.

Lemma callbacks_never_touch_the_device_witness :
  let ev := MouseMove 1060 590 in
  let w' := snd (handle Config.defaults ev running) in
  _gamepad (self w') = _gamepad (self running) /\
  _active (self w') = _active (self running) /\
  flushes (trace w') = flushes (trace running).
Proof.
  apply (callbacks_never_touch_the_device Config.defaults
           (MouseMove 1060 590) running); intros; discriminate.
Defined.

(** ** From the keys and the mouse to the report *)

Lemma is_mapped_elem (cfg : Config.t) k b :
  (k, b) ∈ Config.KEY_MAPPINGS cfg -> Config.is_mapped k cfg = true.
Proof.
  intros H. unfold Config.is_mapped, Config.mapped_keys, str_in.
  apply existsb_exists. exists k. split; [| apply String.eqb_refl].
  apply list_elem_of_In in H. apply (in_map fst) in H. exact H.
Qed.

Lemma is_pressed_staged_by_tick (cfg : Config.t) c g b :
  vg.is_pressed b (staged_by_tick cfg c g)
  = vg.is_pressed b (buttons_report cfg (keys c) g).
Proof.
  unfold staged_by_tick, vg.is_pressed. cbn.
  apply bool_decide_ext. unfold buttons_report.
  generalize (Config.KEY_MAPPINGS cfg) as l. intros l.
  set (f := fun g kb => _).
  assert (H : forall l g1 g2, vg.pressed g1 = vg.pressed g2 ->
                vg.pressed (fold_left f l g1) = vg.pressed (fold_left f l g2)).
  { clear. induction l as [|kb l IH]; intros g1 g2 H; [exact H |].
    cbn [fold_left]. apply IH. subst f. cbn beta.
    destruct (dict_get _ _); cbn; now rewrite H. }
  now rewrite (H l _ g).
Qed.

(** The key handlers on a key that is mapped, and is neither the toggle key
    nor a direction key. *)
Lemma mapped_key_handler (cfg : Config.t) (key : Key) (down : bool)
    (w : World) :
  InputHandler._parse_key key <> Config.TOGGLE_KEY cfg ->
  str_in (InputHandler._parse_key key) Config.JOYSTICK_KEYS = false ->
  Config.is_mapped (InputHandler._parse_key key) cfg = true ->
  (if down then InputHandler.on_key_press cfg key w
   else InputHandler.on_key_release cfg key w)
  = (Ok tt,
     with_self
       (fun c => set_keys (<[InputHandler._parse_key key := down]> (keys c)) c)
       w).
Proof.
  intros Ht Hj Hm. apply String.eqb_neq in Ht.
  unfold InputHandler.on_key_press, InputHandler.on_key_release, try_except.
  rewrite Ht, Hj, Hm. now destruct down.
Qed.

(** X14: a key that is mapped to a button (and is neither the toggle key
    nor a direction key) reaches the device at the next tick: after its
    press the report flushed by the next due tick of an active controller
    has the button pressed, after its release it has the button released,
    provided no button is mapped twice. *)
Theorem held_key_presses_its_button (cfg : Config.t) (key : Key)
    (down : bool) (button : vg.XUSB_BUTTON) (now : float) (w : World) g :
  NoDup (Config.mapped_buttons cfg) ->
  (InputHandler._parse_key key, button) ∈ Config.KEY_MAPPINGS cfg ->
  InputHandler._parse_key key <> Config.TOGGLE_KEY cfg ->
  str_in (InputHandler._parse_key key) Config.JOYSTICK_KEYS = false ->
  _gamepad (self w) = Some g ->
  _active (self w) = true ->
  tick_due (self w) now = true ->
  let w1 := snd (if down then InputHandler.on_key_press cfg key w
                 else InputHandler.on_key_release cfg key w) in
  exists r,
    trace (snd (process_inputs cfg now w1)) = (trace w ++ [Flush r])%list /\
    vg.is_pressed button r = down.
Proof.
  intros Hnd Hin Ht Hj Hg Ha Hd. cbv zeta.
  rewrite (mapped_key_handler cfg key down w Ht Hj (is_mapped_elem _ _ _ Hin)).
  cbn [snd]. set (w1 := with_self _ w).
  assert (Hg1 : _gamepad (self w1) = Some g)
    by (destruct w as [[] ? ?]; exact Hg).
  assert (Ha1 : _active (self w1) = true)
    by (destruct w as [[] ? ?]; exact Ha).
  assert (Hd1 : tick_due (self w1) now = true)
    by (destruct w as [[] ? ?]; exact Hd).
  rewrite (process_inputs_active cfg now w1 g Hd1 Hg1 Ha1).
  eexists. split; [destruct w as [[] ? ?]; reflexivity |].
  rewrite is_pressed_staged_by_tick.
  destruct (buttons_report_synced cfg (keys (self w1)) g Hnd) as [Hs _].
  rewrite (Hs _ _ Hin). unfold dict_get.
  destruct w as [[] ? ?]. cbn. now rewrite lookup_insert_eq.
Qed.

Lemma c_is_mapped_to_B :
  (InputHandler._parse_key (KeyCode (Some "c") "'c'"), vg.XUSB_GAMEPAD_B)
  ∈ Config.KEY_MAPPINGS Config.defaults.
Proof. apply list_elem_of_In. vm_compute. tauto. Qed.

Lemma held_key_presses_its_button_witness :
  let key := KeyCode (Some "c") "'c'" in
  NoDup (Config.mapped_buttons Config.defaults) /\
  (InputHandler._parse_key key, vg.XUSB_GAMEPAD_B)
  ∈ Config.KEY_MAPPINGS Config.defaults /\
  _active (self running) = true /\
  tick_due (self running) 1 = true /\
  exists r,
    trace (snd (process_inputs Config.defaults 1
                  (snd (InputHandler.on_key_press Config.defaults key running))))
    = (trace running ++ [Flush r])%list /\
    vg.is_pressed vg.XUSB_GAMEPAD_B r = true.
Proof.
  split; [exact default_buttons_NoDup |].
  split; [exact c_is_mapped_to_B |].
  split; [reflexivity | split; [vm_compute; reflexivity |]].
  apply (held_key_presses_its_button Config.defaults
           (KeyCode (Some "c") "'c'") true vg.XUSB_GAMEPAD_B 1 running
           (woken vg.new) default_buttons_NoDup c_is_mapped_to_B);
    try discriminate; vm_compute; reflexivity.
Defined.

(** X15: a key that is not the toggle key, not a direction key and not in
    the mapping table is ignored: its press and its release return and
    leave the world as it is. *)
Theorem unmapped_key_is_ignored (cfg : Config.t) (key : Key) (w : World) :
  InputHandler._parse_key key <> Config.TOGGLE_KEY cfg ->
  str_in (InputHandler._parse_key key) Config.JOYSTICK_KEYS = false ->
  Config.is_mapped (InputHandler._parse_key key) cfg = false ->
  InputHandler.on_key_press cfg key w = (Ok tt, w) /\
  InputHandler.on_key_release cfg key w = (Ok tt, w).
Proof.
  intros Ht Hj Hm. apply String.eqb_neq in Ht.
  unfold InputHandler.on_key_press, InputHandler.on_key_release, try_except.
  now rewrite Ht, Hj, Hm.
Qed.

Lemma unmapped_key_is_ignored_witness :
  let key := SpecialKey "f5" in
  InputHandler._parse_key key <> Config.TOGGLE_KEY Config.defaults /\
  InputHandler.on_key_press Config.defaults key running = (Ok tt, running) /\
  InputHandler.on_key_release Config.defaults key running = (Ok tt, running).
Proof.
  split; [discriminate |].
  apply unmapped_key_is_ignored; [discriminate | reflexivity | reflexivity].
Defined.

(** X16: a direction key (that is not the toggle key) sets or clears its
    own flag and nothing else, also when the mapping table has an entry
    for it: the flag of the mapped key is left alone; and the next due tick
    of an active controller flushes the movement stick computed from the
    flags with that one changed. *)
Theorem direction_key_moves_the_stick (cfg : Config.t) (key : Key)
    (down : bool) (now : float) (w : World) g :
  InputHandler._parse_key key <> Config.TOGGLE_KEY cfg ->
  str_in (InputHandler._parse_key key) Config.JOYSTICK_KEYS = true ->
  _gamepad (self w) = Some g ->
  _active (self w) = true ->
  tick_due (self w) now = true ->
  let w1 := snd (if down then InputHandler.on_key_press cfg key w
                 else InputHandler.on_key_release cfg key w) in
  joystick_keys (self w1)
  = <[InputHandler._parse_key key := down]> (joystick_keys (self w)) /\
  keys (self w1) = keys (self w) /\
  exists r,
    trace (snd (process_inputs cfg now w1)) = (trace w ++ [Flush r])%list /\
    vg.left_joystick r
    = left_axes (<[InputHandler._parse_key key := down]>
                   (joystick_keys (self w))).
Proof.
  intros Ht Hj Hg Ha Hd. cbv zeta. apply String.eqb_neq in Ht.
  assert (E : (if down then InputHandler.on_key_press cfg key w
               else InputHandler.on_key_release cfg key w)
              = (Ok tt,
                 with_self
                   (fun c =>
                      set_joystick_keys
                        (<[InputHandler._parse_key key := down]>
                           (joystick_keys c)) c) w)).
  { unfold InputHandler.on_key_press, InputHandler.on_key_release,
      try_except. rewrite Ht, Hj. now destruct down. }
  rewrite E. cbn [snd]. set (w1 := with_self _ w).
  split; [destruct w as [[] ? ?]; reflexivity |].
  split; [destruct w as [[] ? ?]; reflexivity |].
  assert (Hg1 : _gamepad (self w1) = Some g)
    by (destruct w as [[] ? ?]; exact Hg).
  assert (Ha1 : _active (self w1) = true)
    by (destruct w as [[] ? ?]; exact Ha).
  assert (Hd1 : tick_due (self w1) now = true)
    by (destruct w as [[] ? ?]; exact Hd).
  rewrite (process_inputs_active cfg now w1 g Hd1 Hg1 Ha1).
  eexists. split; [destruct w as [[] ? ?]; reflexivity |].
  unfold staged_by_tick. cbn [vg.left_joystick vg.left_trigger_float
    vg.right_trigger_float].
  destruct (buttons_loop_frame (keys (self w1)) (Config.KEY_MAPPINGS cfg)
              (vg.right_joystick_float
                 (fst (right_axes cfg (self w1) (mouse_dx (self w1))
                         (mouse_dy (self w1))))
                 (snd (right_axes cfg (self w1) (mouse_dx (self w1))
                         (mouse_dy (self w1))))
                 (vg.left_joystick_float
                    (fst (left_axes (joystick_keys (self w1))))
                    (snd (left_axes (joystick_keys (self w1)))) g)))
    as [Hl _].
  unfold buttons_report. rewrite Hl. cbn [vg.left_joystick
    vg.right_joystick_float vg.left_joystick_float].
  destruct w as [[] ? ?]. cbn. now destruct (left_axes _).
Qed.

Lemma direction_key_moves_the_stick_witness :
  let key := KeyCode (Some "d") "'d'" in
  let w1 := snd (InputHandler.on_key_press Config.defaults key running) in
  _active (self running) = true /\
  tick_due (self running) 1 = true /\
  joystick_keys (self w1)
  = <[InputHandler._parse_key key := true]> (joystick_keys (self running)) /\
  keys (self w1) = keys (self running) /\
  exists r,
    trace (snd (process_inputs Config.defaults 1 w1))
    = (trace running ++ [Flush r])%list /\
    vg.left_joystick r
    = left_axes (<[InputHandler._parse_key key := true]>
                   (joystick_keys (self running))).
Proof.
  split; [reflexivity | split; [vm_compute; reflexivity |]].
  apply (direction_key_moves_the_stick Config.defaults
           (KeyCode (Some "d") "'d'") true 1 running (woken vg.new));
    try discriminate; vm_compute; reflexivity.
Defined.

Lemma staged_by_tick_triggers (cfg : Config.t) c g :
  vg.right_trigger (staged_by_tick cfg c g)
  = (if l2_held c then 1 else 0)%float /\
  vg.left_trigger (staged_by_tick cfg c g)
  = (if r2_held c then 1 else 0)%float.
Proof. now split. Qed.


(** X17: the mouse buttons drive the triggers, crosswise and all or
    nothing: after a click callback the report flushed by the next due
    tick of an active controller has the right trigger at 1.0 when the left
    button is down and at 0.0 when it is up, and the left trigger likewise
    for the right button; the middle button and the position of the click
    change nothing. *)
Theorem mouse_buttons_drive_the_triggers (cfg : Config.t) (x y : Z)
    (button : InputHandler.Button) (pressed : bool) (now : float)
    (w : World) g :
  _gamepad (self w) = Some g ->
  _active (self w) = true ->
  tick_due (self w) now = true ->
  let w1 := snd (InputHandler.on_mouse_click x y button pressed w) in
  let fire := match button with
              | InputHandler.left => pressed
              | _ => l2_held (self w)
              end in
  let aim := match button with
             | InputHandler.right => pressed
             | _ => r2_held (self w)
             end in
  exists r,
    trace (snd (process_inputs cfg now w1)) = (trace w ++ [Flush r])%list /\
    vg.right_trigger r = (if fire then 1 else 0)%float /\
    vg.left_trigger r = (if aim then 1 else 0)%float.
Proof.
  intros Hg Ha Hd. cbv zeta.
  set (w1 := snd (InputHandler.on_mouse_click x y button pressed w)).
  assert (Hg1 : _gamepad (self w1) = Some g)
    by (destruct button; destruct w as [[] ? ?]; exact Hg).
  assert (Ha1 : _active (self w1) = true)
    by (destruct button; destruct w as [[] ? ?]; exact Ha).
  assert (Hd1 : tick_due (self w1) now = true)
    by (destruct button; destruct w as [[] ? ?]; exact Hd).
  rewrite (process_inputs_active cfg now w1 g Hd1 Hg1 Ha1).
  eexists. split; [destruct button; destruct w as [[] ? ?]; reflexivity |].
  destruct (staged_by_tick_triggers cfg (self w1) g) as [-> ->].
  destruct button; destruct w as [[] ? ?]; now split.
Qed.

Lemma mouse_buttons_drive_the_triggers_witness :
  let w1 := snd (InputHandler.on_mouse_click 0 0 InputHandler.left true
                   running) in
  _active (self running) = true /\
  tick_due (self running) 1 = true /\
  exists r,
    trace (snd (process_inputs Config.defaults 1 w1))
    = (trace running ++ [Flush r])%list /\
    vg.right_trigger r = 1%float /\
    vg.left_trigger r = 0%float.
Proof.
  split; [reflexivity | split; [vm_compute; reflexivity |]].
  apply (mouse_buttons_drive_the_triggers Config.defaults 0 0
           InputHandler.left true 1 running (woken vg.new));
    vm_compute; reflexivity.
Defined.



(** ** The tick period *)

Lemma sub_diag_finite (x : float) : isfinite x = true -> (x - x)%float = 0%float.
Proof.
  unfold isfinite. intros H. apply Prim2SF_inj. rewrite sub_spec.
  change (Prim2SF 0) with (S754_zero false).
  destruct (Prim2SF x) as [s|s| |s m e]; try discriminate.
  - now destruct s.
  - unfold SF64sub, SFsub. cbv zeta. now rewrite Z.sub_diag.
Qed.

Lemma process_inputs_clock (cfg : Config.t) (now : float) (w : World) :
  tick_due (self w) now = true ->
  _last_update (self (snd (process_inputs cfg now w))) = now /\
  _update_interval (self (snd (process_inputs cfg now w)))
  = _update_interval (self w).
Proof.
  intros Hd. destruct (_gamepad (self w)) as [g|] eqn:Hg.
  - destruct (_active (self w)) eqn:Ha.
    + rewrite (process_inputs_active cfg now w g Hd Hg Ha).
      destruct w as [[] ? ?]. now split.
    + rewrite (process_inputs_inactive cfg now w g Hd Hg Ha).
      destruct w as [[] ? ?]. now split.
  - rewrite (process_inputs_no_device cfg now w Hd Hg).
    destruct w as [[] ? ?]. now split.
Qed.

(** X19: a tick that ran records its clock value, with or without a device,
    active or not; so when the period is positive a second tick at the same
    (finite) clock value is skipped: it returns and changes nothing. *)
Theorem tick_is_not_repeated (cfg : Config.t) (now : float) (w : World) :
  isfinite now = true ->
  (0 <? _update_interval (self w))%float = true ->
  tick_due (self w) now = true ->
  let w1 := snd (process_inputs cfg now w) in
  _last_update (self w1) = now /\
  process_inputs cfg now w1 = (Ok tt, w1).
Proof.
  intros Hf Hp Hd. cbv zeta.
  destruct (process_inputs_clock cfg now w Hd) as [Hl Hi].
  split; [exact Hl |].
  apply process_inputs_skipped. unfold tick_due.
  rewrite Hl, Hi, (sub_diag_finite now Hf), Hp. reflexivity.
Qed.

Lemma tick_is_not_repeated_witness :
  let w1 := snd (process_inputs Config.defaults 1 running) in
  isfinite 1 = true /\
  (0 <? _update_interval (self running))%float = true /\
  tick_due (self running) 1 = true /\
  _last_update (self w1) = 1%float /\
  process_inputs Config.defaults 1 w1 = (Ok tt, w1).
Proof.
  split; [reflexivity | split; [vm_compute; reflexivity |]].
  split; [vm_compute; reflexivity |].
  apply (tick_is_not_repeated Config.defaults 1 running);
    vm_compute; reflexivity.
Defined.

Lemma accepted_rates_checked :
  forallb
    (fun n =>
       let p := (1 / Py.float_of_int (60 + Z.of_nat n))%float in
       (0 <? p)%float && (p <=? 1 / 60)%float && (1 / 240 <=? p)%float)
    (seq 0 181) = true.
Proof. vm_compute. reflexivity. Qed.

Lemma accepted_rate_period (value : Z) :
  (60 <= value <= 240)%Z ->
  let p := (1 / Py.float_of_int value)%float in
  (0 <? p)%float = true /\ (p <=? 1 / 60)%float = true /\
  (1 / 240 <=? p)%float = true.
Proof.
  intros H. pose proof accepted_rates_checked as C.
  rewrite forallb_forall in C.
  specialize (C (Z.to_nat (value - 60))).
  replace (60 + Z.of_nat (Z.to_nat (value - 60)))%Z with value in C by lia.
  cbv zeta in C |- *.
  assert (Hin : In (Z.to_nat (value - 60)) (seq 0 181))
    by (apply in_seq; lia).
  specialize (C Hin). apply andb_true_iff in C as [C C3].
  apply andb_true_iff in C as [C1 C2]. auto.
Qed.

(** X20: the settings window accepts a tick rate exactly when it lies
    between 60 and 240: an accepted rate is stored in the configuration and
    the controller's tick period becomes 1.0 / rate, a positive number
    between 1/240 and 1/60 of a second, without raising; any other rate
    leaves the configuration and the controller as they are. *)
Theorem rate_change_is_validated (value : Z) (cfg : Config.t) (w : World) :
  let r := SettingsDialog._update_rate_changed (Some value) cfg w in
  let p := (1 / Py.float_of_int value)%float in
  ((60 <= value <= 240)%Z ->
   r = (Config.with_rate value cfg, with_self (set_update_interval p) w) /\
   fst (update_rate value w) = Ok tt /\
   (0 <? p)%float = true /\ (p <=? 1 / 60)%float = true /\
   (1 / 240 <=? p)%float = true) /\
  (~ (60 <= value <= 240)%Z -> r = (cfg, w)).
Proof.
  cbv zeta. unfold SettingsDialog._update_rate_changed. split.
  - intros H.
    assert (E : ((60 <=? value)%Z && (value <=? 240)%Z) = true)
      by (apply andb_true_iff; split; apply Z.leb_le; lia).
    rewrite E. unfold update_rate.
    destruct (Z.eqb_spec value 0) as [->|Hn]; [lia |].
    split; [reflexivity | split; [reflexivity |]].
    now apply accepted_rate_period.
  - intros H.
    assert (E : ((60 <=? value)%Z && (value <=? 240)%Z) = false).
    { apply andb_false_iff.
      destruct (Z.leb_spec 60 value); [| now left].
      destruct (Z.leb_spec value 240); [lia | now right]. }
    now rewrite E.
Qed.

(** ** The windows and the configuration *)

Lemma act_fixed_part (a : Action) (s : Config.t * World) :
  fixed_part (fst (act a s)) = fixed_part (fst s).
Proof.
  destruct s as [cfg w]. destruct a as [|k|old k| |v|v|v|]; cbn [act fst];
    try reflexivity.
  - unfold KeyMappingDialog._remap_toggle_key.
    now destruct (_ || _).
  - unfold KeyMappingDialog._remap_button_key.
    now destruct (getitem old _).
  - unfold SettingsDialog._update_rate_changed.
    destruct v as [v|]; [| reflexivity]. now destruct (_ && _).
  - unfold SettingsDialog._ads_sens_changed.
    destruct v as [v|]; [| reflexivity]. now destruct (_ && _).
  - unfold SettingsDialog._recoil_comp_changed.
    destruct v as [v|]; [| reflexivity]. now destruct (_ && _).
Qed.

Lemma session_fixed_part (acts : list Action) (s : Config.t * World) :
  fixed_part (fst (session acts s)) = fixed_part (fst s).
Proof.
  revert s. induction acts as [|a acts IH]; intros s; [reflexivity |].
  cbn [session fold_left]. fold (session acts (act a s)).
  now rewrite IH, act_fixed_part.
Qed.

Lemma reset_to_defaults_fixed_part (c c' : Config.t) :
  fixed_part c = fixed_part c' ->
  Config.reset_to_defaults c = Config.reset_to_defaults c'.
Proof.
  destruct c, c'. unfold fixed_part, Config.reset_to_defaults. cbn.
  intros [= -> -> -> -> -> ->]. reflexivity.
Qed.

(** X21: [reset_to_defaults] undoes whatever was done in the windows:
    however the rate, the two sensitivity settings, the toggle key and the
    key mappings were changed, the reset gives the configuration that a
    reset before the changes would have given; and from the shipped
    configuration it gives the shipped configuration back.  (The six
    attributes it does not assign are never assigned by a window.) *)
Theorem reset_undoes_the_windows (acts : list Action) (cfg : Config.t)
    (w : World) :
  Config.reset_to_defaults (fst (session acts (cfg, w)))
  = Config.reset_to_defaults cfg /\
  Config.reset_to_defaults (fst (session acts (Config.defaults, w)))
  = Config.defaults.
Proof.
  split.
  - apply reset_to_defaults_fixed_part. apply session_fixed_part.
  - now rewrite (reset_to_defaults_fixed_part _ Config.defaults)
      by apply session_fixed_part.
Qed.

Lemma act_settings_in_range (a : Action) (s : Config.t * World) :
  settings_in_range (fst s) -> settings_in_range (fst (act a s)).
Proof.
  destruct s as [cfg w]. cbn [fst]. intros H.
  assert (Hd : settings_in_range (Config.reset_to_defaults cfg)).
  { unfold settings_in_range. cbn. repeat split; try lia. }
  destruct a as [|k|old k| |v|v|v|]; cbn [act fst]; try exact H;
    try exact Hd.
  - unfold KeyMappingDialog._remap_toggle_key.
    now destruct (_ || _).
  - unfold KeyMappingDialog._remap_button_key.
    now destruct (getitem old _).
  - unfold SettingsDialog._update_rate_changed.
    destruct v as [v|]; [| exact H].
    destruct ((60 <=? v)%Z && (v <=? 240)%Z) eqn:E; [| exact H].
    apply andb_true_iff in E as [H1 H2]. apply Z.leb_le in H1, H2.
    destruct H as (_ & H). split; [| exact H]. cbn. lia.
  - unfold SettingsDialog._ads_sens_changed.
    destruct v as [v|]; [| exact H].
    destruct (_ <=? v)%float eqn:E1; [| exact H].
    destruct (v <=? _)%float eqn:E2; [| exact H].
    destruct H as (H0 & _ & _ & H3 & H4). cbn. now repeat split.
  - unfold SettingsDialog._recoil_comp_changed.
    destruct v as [v|]; [| exact H].
    destruct (_ <=? v)%float eqn:E1; [| exact H].
    destruct (v <=? _)%float eqn:E2; [| exact H].
    destruct H as (H0 & H1 & H2 & _ & _). cbn. now repeat split.
Qed.

(** X22: the settings stay in the ranges the settings window accepts:
    when the tick rate lies in 60..240, the ADS multiplier in 0.1..2.0 and
    the recoil compensation in 0.0..5.0 (as in the shipped configuration),
    they still do after any sequence of window actions; text the entry
    fields cannot read, values out of range, infinities and NaN are all
    refused. *)
Theorem settings_stay_in_range (acts : list Action) (s : Config.t * World) :
  settings_in_range (fst s) -> settings_in_range (fst (session acts s)).
Proof.
  revert s. induction acts as [|a acts IH]; intros s H; [exact H |].
  cbn [session fold_left]. apply IH. now apply act_settings_in_range.
Qed.

Lemma defaults_in_range : settings_in_range Config.defaults.
Proof. unfold settings_in_range. cbn. repeat split; lia. Qed.

Lemma settings_stay_in_range_witness :
  let acts := [UpdateRateChanged (Some 1000); AdsSensChanged (Some nan);
               RecoilCompChanged (Some 2.5%float); AdsSensChanged None;
               RemapToggleKey "x"; SettingsResetDefaults] in
  settings_in_range Config.defaults /\
  settings_in_range (fst (session acts (Config.defaults, started))).
Proof.
  split; [exact defaults_in_range |].
  apply (settings_stay_in_range _ (Config.defaults, started)).
  exact defaults_in_range.
Defined.

(** *** The tick period and the configured rate *)

Lemma toggle_controller_interval (cfg : Config.t) (w : World) :
  _update_interval (self (snd (MainWindow._toggle_controller cfg w)))
  = _update_interval (self w).
Proof.
  rewrite toggle_controller_eq.
  destruct (_active (self w)) eqn:Ha.
  - rewrite deactivate_cases, Ha. destruct w as [[] ? ?]. reflexivity.
  - rewrite activate_cases, Ha.
    destruct (_gamepad (self w)), (vigem_available w);
      destruct w as [[] ? ?]; reflexivity.
Qed.

Lemma act_period_in_step (a : Action) (s : Config.t * World) :
  a <> MappingResetDefaults -> period_in_step s -> period_in_step (act a s).
Proof.
  destruct s as [cfg w]. unfold period_in_step. cbn [fst snd]. intros Ha H.
  destruct a as [|k|old k| |v|v|v|]; cbn [act fst snd].
  - now rewrite toggle_controller_interval.
  - unfold KeyMappingDialog._remap_toggle_key. now destruct (_ || _).
  - unfold KeyMappingDialog._remap_button_key.
    destruct (getitem old _); [| exact H]. cbn [fst snd].
    unfold with_self. cbn [self].
    destruct (keys (self w) !! old); [| exact H].
    destruct w as [[] ? ?]. exact H.
  - now destruct Ha.
  - unfold SettingsDialog._update_rate_changed.
    destruct v as [v|]; [| exact H].
    destruct ((60 <=? v)%Z && (v <=? 240)%Z) eqn:E; [| exact H].
    apply andb_true_iff in E as [H1 H2]. apply Z.leb_le in H1, H2.
    cbn [fst snd]. unfold update_rate.
    destruct (Z.eqb_spec v 0) as [->|Hn]; [lia |].
    destruct w as [[] ? ?]. reflexivity.
  - unfold SettingsDialog._ads_sens_changed.
    destruct v as [v|]; [| exact H]. now destruct (_ && _).
  - unfold SettingsDialog._recoil_comp_changed.
    destruct v as [v|]; [| exact H]. now destruct (_ && _).
  - destruct w as [[] ? ?]. reflexivity.
Qed.

(** X23: as long as the reset button of the key-mapping window is not
    used, the controller's tick period stays the one of the configured
    rate, 1.0 / [UPDATE_RATE_HZ], through any sequence of window actions:
    the settings window changes the two together.  (The reset of the
    key-mapping window resets the rate alone, see
    [mapping_reset_leaves_period_behind].) *)
Theorem tick_period_follows_rate (acts : list Action)
    (s : Config.t * World) :
  MappingResetDefaults ∉ acts ->
  period_in_step s -> period_in_step (session acts s).
Proof.
  revert s. induction acts as [|a acts IH]; intros s Hn H; [exact H |].
  apply not_elem_of_cons in Hn as [Hne Hn].
  cbn [session fold_left]. apply (IH _ Hn).
  apply act_period_in_step; [congruence | exact H].
Qed.

Lemma tick_period_follows_rate_witness :
  let acts := [UpdateRateChanged (Some 240); ToggleController;
               RemapButtonKey "c" "x"; SettingsResetDefaults] in
  (MappingResetDefaults ∉ acts) /\
  period_in_step (Config.defaults, started) /\
  period_in_step (session acts (Config.defaults, started)).
Proof.
  assert (H : MappingResetDefaults ∉
              [UpdateRateChanged (Some 240); ToggleController;
               RemapButtonKey "c" "x"; SettingsResetDefaults]).
  { intros H. apply list_elem_of_In in H. cbn in H.
    repeat destruct H as [H|H]; try discriminate H. exact H. }
  split; [exact H | split; [reflexivity |]].
  apply (tick_period_follows_rate _ (Config.defaults, started) H).
  reflexivity.
Defined.

(** After the rate was set to 60 in the settings window, the reset of the
    key-mapping window puts the configured rate back to 120 and leaves the
    controller ticking at 60. *)
Example mapping_reset_leaves_period_behind :
  let s := session [UpdateRateChanged (Some 60); MappingResetDefaults]
             (Config.defaults, started) in
  Config.UPDATE_RATE_HZ (fst s) = 120%Z /\
  _update_interval (self (snd s)) = (1 / 60)%float /\
  not (period_in_step s).
Proof.
  split; [reflexivity | split; [reflexivity |]].
  unfold period_in_step. intros H.
  apply (f_equal (fun x => (x =? 1 / 60)%float)) in H.
  vm_compute in H. discriminate.
Qed.

(** ** Remapping a button *)

Section Dict.

Context {V : Type}.
Implicit Types (d : list (string * V)) (k : string) (v : V).

Lemma getitem_None d k : getitem k d = None <-> k ∉ map fst d.
Proof.
  induction d as [|[k' v'] d IH]; cbn.
  - split; [intros _; apply not_elem_of_nil | reflexivity].
  - rewrite not_elem_of_cons. destruct (String.eqb_spec k' k) as [->|Hne].
    + split; [discriminate | intros [H _]; now destruct H].
    + rewrite IH. split; [intros H; split; [congruence | exact H] | tauto].
Qed.

Lemma getitem_elem d k v : is_dict d -> getitem k d = Some v <-> (k, v) ∈ d.
Proof.
  unfold is_dict. induction d as [|[k' v'] d IH]; cbn; intros Hnd.
  - split; [discriminate | intros H; now apply elem_of_nil in H].
  - apply NoDup_cons in Hnd as [Hfresh Hnd]. rewrite elem_of_cons.
    destruct (String.eqb_spec k' k) as [->|Hne].
    + split; [intros [= ->]; now left |].
      intros [[= ->] | Hin]; [reflexivity |].
      destruct Hfresh. apply list_elem_of_In.
      apply list_elem_of_In in Hin. exact (in_map fst _ _ Hin).
    + rewrite (IH Hnd). split; [now right |].
      intros [[= -> ->] | Hin]; [now destruct Hne | exact Hin].
Qed.

Lemma getitem_setitem d k v k' :
  getitem k' (setitem k v d)
  = if String.eqb k k' then Some v else getitem k' d.
Proof.
  induction d as [|[k1 v1] d IH]; cbn.
  - destruct (String.eqb_spec k k'); reflexivity.
  - destruct (String.eqb_spec k1 k) as [->|Hne]; cbn.
    + destruct (String.eqb_spec k k'); reflexivity.
    + rewrite IH. destruct (String.eqb_spec k1 k') as [->|Hne'];
        [| reflexivity].
      destruct (String.eqb_spec k k') as [->|]; [now destruct Hne |].
      reflexivity.
Qed.

Lemma keys_delitem_subset d k k' :
  k' ∈ map fst (delitem k d) -> k' ∈ map fst d.
Proof.
  induction d as [|[k1 v1] d IH]; cbn; [tauto |].
  destruct (String.eqb_spec k1 k) as [->|Hne]; cbn.
  - intros H. apply elem_of_cons. now right.
  - rewrite !elem_of_cons. intros [-> | H]; [now left | right; auto].
Qed.

Lemma delitem_is_dict d k : is_dict d -> is_dict (delitem k d).
Proof.
  unfold is_dict. induction d as [|[k1 v1] d IH]; cbn; intros Hnd;
    [exact Hnd |].
  apply NoDup_cons in Hnd as [Hfresh Hnd].
  destruct (String.eqb_spec k1 k) as [->|Hne]; cbn; [exact Hnd |].
  apply NoDup_cons. split; [| now apply IH].
  intros H. apply Hfresh. now apply keys_delitem_subset in H.
Qed.

Lemma getitem_delitem d k k' :
  is_dict d ->
  getitem k' (delitem k d)
  = if String.eqb k k' then None else getitem k' d.
Proof.
  unfold is_dict. induction d as [|[k1 v1] d IH]; cbn; intros Hnd.
  - now destruct (String.eqb k k').
  - apply NoDup_cons in Hnd as [Hfresh Hnd].
    destruct (String.eqb_spec k1 k) as [->|Hne]; cbn.
    + destruct (String.eqb_spec k k') as [E|Hne']; [| reflexivity].
      subst. now apply getitem_None.
    + rewrite (IH Hnd). destruct (String.eqb_spec k1 k') as [->|Hne'];
        [| reflexivity].
      destruct (String.eqb_spec k k') as [->|]; [now destruct Hne |].
      reflexivity.
Qed.

Lemma keys_setitem d k v k' :
  k' ∈ map fst (setitem k v d) <-> k' = k \/ k' ∈ map fst d.
Proof.
  induction d as [|[k1 v1] d IH]; cbn.
  - rewrite elem_of_cons. tauto.
  - destruct (String.eqb_spec k1 k) as [->|Hne]; cbn;
      rewrite !elem_of_cons; [tauto |]. rewrite IH. tauto.
Qed.

Lemma setitem_is_dict d k v : is_dict d -> is_dict (setitem k v d).
Proof.
  unfold is_dict. induction d as [|[k1 v1] d IH]; cbn; intros Hnd.
  - apply NoDup_cons. split; [apply not_elem_of_nil | exact Hnd].
  - apply NoDup_cons in Hnd as [Hfresh Hnd].
    destruct (String.eqb_spec k1 k) as [->|Hne]; cbn.
    + apply NoDup_cons. now split.
    + apply NoDup_cons. split; [| now apply IH].
      rewrite keys_setitem. intros [-> | H]; [now destruct Hne | auto].
Qed.

Lemma setitem_fresh d k v :
  getitem k d = None -> setitem k v d = (d ++ [(k, v)])%list.
Proof.
  induction d as [|[k1 v1] d IH]; cbn; [reflexivity |].
  destruct (String.eqb_spec k1 k) as [->|Hne]; [discriminate |].
  intros H. now rewrite (IH H).
Qed.

Lemma values_delitem d k v :
  getitem k d = Some v -> map snd d ≡ₚ v :: map snd (delitem k d).
Proof.
  induction d as [|[k1 v1] d IH]; cbn; [discriminate |].
  destruct (String.eqb_spec k1 k) as [->|Hne].
  - now intros [= ->].
  - intros H. cbn. rewrite (IH H). apply perm_swap.
Qed.

Lemma values_setitem_present d k v v0 :
  is_dict d -> getitem k d = Some v0 ->
  v0 :: map snd (setitem k v d) ≡ₚ v :: map snd d.
Proof.
  unfold is_dict. induction d as [|[k1 v1] d IH]; cbn; [discriminate |].
  intros Hnd. apply NoDup_cons in Hnd as [Hfresh Hnd].
  destruct (String.eqb_spec k1 k) as [->|Hne]; cbn.
  - intros [= ->]. apply perm_swap.
  - intros H. etransitivity; [apply perm_swap |].
    etransitivity; [apply perm_skip, (IH Hnd H) |]. apply perm_swap.
Qed.

End Dict.

(** X24: remapping a button to a key that is not yet in the table moves
    the button from the old key to the new key: the new key now stands for
    the button, the old key for nothing, every other key for what it stood
    for; the table still has one entry per key and the same buttons; and
    the held flag of the old key, when it has one, becomes the flag of the
    new key. *)
Theorem remap_button_to_fresh_key (remapping_key new_key : string)
    (button : vg.XUSB_BUTTON) (cfg : Config.t) (w : World) :
  is_dict (Config.KEY_MAPPINGS cfg) ->
  getitem remapping_key (Config.KEY_MAPPINGS cfg) = Some button ->
  getitem new_key (Config.KEY_MAPPINGS cfg) = None ->
  let cfg' :=
    fst (KeyMappingDialog._remap_button_key remapping_key new_key cfg w) in
  let w' :=
    snd (KeyMappingDialog._remap_button_key remapping_key new_key cfg w) in
  getitem new_key (Config.KEY_MAPPINGS cfg') = Some button /\
  getitem remapping_key (Config.KEY_MAPPINGS cfg') = None /\
  (forall k, k <> remapping_key -> k <> new_key ->
     getitem k (Config.KEY_MAPPINGS cfg')
     = getitem k (Config.KEY_MAPPINGS cfg)) /\
  is_dict (Config.KEY_MAPPINGS cfg') /\
  Config.mapped_buttons cfg' ≡ₚ Config.mapped_buttons cfg /\
  (forall state, keys (self w) !! remapping_key = Some state ->
     keys (self w') !! new_key = Some state /\
     keys (self w') !! remapping_key = None).
Proof.
  intros Hd Hold Hnew. cbv zeta.
  assert (Hne : remapping_key <> new_key) by congruence.
  unfold KeyMappingDialog._remap_button_key. rewrite Hold. cbn [fst snd].
  cbn [Config.KEY_MAPPINGS Config.with_mappings].
  split; [| split; [| split; [| split; [| split]]]].
  - now rewrite getitem_setitem, String.eqb_refl.
  - rewrite getitem_setitem.
    destruct (String.eqb_spec new_key remapping_key) as [E|_];
      [now destruct Hne |].
    now rewrite (getitem_delitem _ _ _ Hd), String.eqb_refl.
  - intros k Hk1 Hk2. rewrite getitem_setitem.
    destruct (String.eqb_spec new_key k) as [E|_]; [now destruct Hk2 |].
    rewrite (getitem_delitem _ _ _ Hd).
    destruct (String.eqb_spec remapping_key k) as [E|_];
      [now destruct Hk1 | reflexivity].
  - apply setitem_is_dict. now apply delitem_is_dict.
  - unfold Config.mapped_buttons. cbn [Config.KEY_MAPPINGS].
    rewrite setitem_fresh.
    + cbn [Config.KEY_MAPPINGS Config.with_mappings].
      rewrite map_app. cbn [map snd].
      rewrite (values_delitem _ _ _ Hold).
      rewrite <- Permutation_cons_append. reflexivity.
    + rewrite (getitem_delitem _ _ _ Hd).
      destruct (String.eqb remapping_key new_key); [reflexivity | exact Hnew].
  - intros state Hs. unfold with_self. cbn [self]. rewrite Hs.
    destruct w as [[] ? ?]. cbn.
    split; [apply lookup_insert_eq |].
    rewrite lookup_insert_ne by congruence. apply lookup_delete_eq.
Qed.

Lemma default_mappings_is_dict : is_dict (Config.KEY_MAPPINGS Config.defaults).
Proof. apply (bool_decide_unpack _). vm_compute. exact I. Qed.

Lemma remap_button_to_fresh_key_witness :
  let r := KeyMappingDialog._remap_button_key "c" "x" Config.defaults
             running in
  is_dict (Config.KEY_MAPPINGS Config.defaults) /\
  getitem "c" (Config.KEY_MAPPINGS Config.defaults) = Some vg.XUSB_GAMEPAD_B /\
  getitem "x" (Config.KEY_MAPPINGS Config.defaults) = None /\
  getitem "x" (Config.KEY_MAPPINGS (fst r)) = Some vg.XUSB_GAMEPAD_B /\
  getitem "c" (Config.KEY_MAPPINGS (fst r)) = None.
Proof.
  split; [exact default_mappings_is_dict |].
  split; [reflexivity | split; [reflexivity |]].
  destruct (remap_button_to_fresh_key "c" "x" vg.XUSB_GAMEPAD_B
              Config.defaults running default_mappings_is_dict
              eq_refl eq_refl) as (H1 & H2 & _).
  split; [exact H1 | exact H2].
Defined.

(** X25: the key-mapping window does not refuse a key that already stands
    for another button: remapping a button onto such a key gives the key to
    the remapped button, and the button the key stood for is left without
    any key (the table has one entry less), so no key can press it any
    more. *)
Theorem remap_onto_mapped_key_drops_a_button
    (remapping_key new_key : string) (button other : vg.XUSB_BUTTON)
    (cfg : Config.t) (w : World) :
  is_dict (Config.KEY_MAPPINGS cfg) ->
  NoDup (Config.mapped_buttons cfg) ->
  getitem remapping_key (Config.KEY_MAPPINGS cfg) = Some button ->
  getitem new_key (Config.KEY_MAPPINGS cfg) = Some other ->
  remapping_key <> new_key ->
  let cfg' :=
    fst (KeyMappingDialog._remap_button_key remapping_key new_key cfg w) in
  getitem new_key (Config.KEY_MAPPINGS cfg') = Some button /\
  getitem remapping_key (Config.KEY_MAPPINGS cfg') = None /\
  (other ∉ Config.mapped_buttons cfg') /\
  S (length (Config.KEY_MAPPINGS cfg')) = length (Config.KEY_MAPPINGS cfg).
Proof.
  intros Hd Hnd Hold Hnew Hne. cbv zeta.
  unfold KeyMappingDialog._remap_button_key. rewrite Hold. cbn [fst].
  cbn [Config.KEY_MAPPINGS Config.with_mappings].
  assert (Hnew' : getitem new_key
                    (delitem remapping_key (Config.KEY_MAPPINGS cfg))
                  = Some other).
  { rewrite (getitem_delitem _ _ _ Hd).
    destruct (String.eqb_spec remapping_key new_key); [contradiction |].
    exact Hnew. }
  assert (P : other :: Config.mapped_buttons
                (Config.with_mappings
                   (setitem new_key button
                      (delitem remapping_key (Config.KEY_MAPPINGS cfg))) cfg)
              ≡ₚ Config.mapped_buttons cfg).
  { unfold Config.mapped_buttons. cbn [Config.KEY_MAPPINGS Config.with_mappings].
    rewrite (values_setitem_present _ _ _ _ (delitem_is_dict _ _ Hd) Hnew').
    symmetry. now apply values_delitem. }
  split; [| split; [| split]].
  - now rewrite getitem_setitem, String.eqb_refl.
  - rewrite getitem_setitem.
    destruct (String.eqb_spec new_key remapping_key) as [E|_];
      [now destruct Hne |].
    now rewrite (getitem_delitem _ _ _ Hd), String.eqb_refl.
  - rewrite <- P in Hnd. now apply NoDup_cons in Hnd as [H _].
  - apply Permutation_length in P. cbn [length] in P.
    unfold Config.mapped_buttons in P. rewrite !length_map in P.
    exact P.
Qed.

Lemma remap_onto_mapped_key_drops_a_button_witness :
  let cfg' := fst (KeyMappingDialog._remap_button_key "c" "r"
                     Config.defaults running) in
  is_dict (Config.KEY_MAPPINGS Config.defaults) /\
  NoDup (Config.mapped_buttons Config.defaults) /\
  getitem "r" (Config.KEY_MAPPINGS cfg') = Some vg.XUSB_GAMEPAD_B /\
  vg.XUSB_GAMEPAD_X ∉ Config.mapped_buttons cfg'.
Proof.
  split; [exact default_mappings_is_dict |].
  split; [exact default_buttons_NoDup |].
  destruct (remap_onto_mapped_key_drops_a_button "c" "r" vg.XUSB_GAMEPAD_B
              vg.XUSB_GAMEPAD_X Config.defaults running
              default_mappings_is_dict default_buttons_NoDup
              eq_refl eq_refl) as (H1 & _ & H3 & _); [discriminate |].
  split; [exact H1 | exact H3].
Defined.

(** ** The cursor *)

Lemma hide_loop_hides (n : nat) (c : Z) :
  (-1 <= c < Z.of_nat n)%Z -> hide_loop n c = (-1)%Z.
Proof.
  revert c. induction n as [|n IH]; intros c H; cbn [hide_loop].
  - lia.
  - destruct (Z.leb_spec 0 c); [| lia].
    apply IH. unfold user32.ShowCursor. lia.
Qed.

Lemma show_loop_shows (n : nat) (c : Z) :
  (- Z.of_nat n <= c <= 0)%Z -> show_loop n c = 0%Z.
Proof.
  revert c. induction n as [|n IH]; intros c H; cbn [show_loop].
  - lia.
  - destruct (Z.ltb_spec c 0); [| lia].
    apply IH. unfold user32.ShowCursor. lia.
Qed.

(** X26: [hide_cursor] hides a visible cursor and [show_cursor] brings a
    hidden one back, however often the other was called before, within the
    hundred steps each of them allows: from a display counter between 0
    and 100 [hide_cursor] leaves it at -1, from a counter between -101 and
    -1 [show_cursor] leaves it at 0; a cursor that is hidden already is
    pushed one step further down by [hide_cursor], and one that is shown
    one step further up by [show_cursor]. *)
Theorem cursor_is_hidden_and_shown (counter : Z) :
  ((0 <= counter <= 100)%Z -> counter_after_hide counter = (-1)%Z) /\
  ((-101 <= counter <= -1)%Z -> counter_after_show counter = 0%Z) /\
  ((counter < 0)%Z -> counter_after_hide counter = (counter - 1)%Z) /\
  ((0 <= counter)%Z -> counter_after_show counter = (counter + 1)%Z).
Proof.
  unfold counter_after_hide, counter_after_show, user32.ShowCursor.
  split; [| split; [| split]]; intros H.
  - apply hide_loop_hides. lia.
  - apply show_loop_shows. lia.
  - cbn [hide_loop]. destruct (Z.leb_spec 0 (counter - 1)); [lia |].
    reflexivity.
  - cbn [show_loop]. destruct (Z.ltb_spec (counter + 1) 0); [lia |].
    reflexivity.
Qed.

Lemma display_counter_app (a b : list Effect) (c : Z) :
  display_counter (a ++ b) c = display_counter b (display_counter a c).
Proof. apply fold_left_app. Qed.

Lemma display_counter_suppression (b : bool) (c : GamepadController) (k : Z) :
  display_counter (suppression_requests b c) k = k.
Proof.
  unfold suppression_requests.
  destruct (mouse_listener c), (keyboard_listener c); reflexivity.
Qed.

Lemma display_counter_lock (cm : CursorManager.t) (k : Z) :
  display_counter (CursorManager.lock_to_center cm) k = k.
Proof.
  unfold CursorManager.lock_to_center.
  destruct cm as [[] [x|] [y|]]; reflexivity.
Qed.

Lemma display_counter_activation (c : GamepadController) g :
  CursorManager.enabled (cursor_manager c) = true ->
  display_counter (activation_requests c g) 0 = (-1)%Z.
Proof.
  intros He. unfold activation_requests.
  rewrite !display_counter_app, display_counter_lock,
    display_counter_suppression.
  unfold CursorManager.hide_cursor. rewrite He. reflexivity.
Qed.

Lemma display_counter_deactivation (cfg : Config.t) (c : GamepadController) :
  CursorManager.enabled (cursor_manager c) = true ->
  display_counter (deactivation_requests cfg c) (-1) = 0%Z.
Proof.
  intros He. unfold deactivation_requests.
  rewrite !display_counter_app, display_counter_suppression.
  unfold CursorManager.show_cursor. rewrite He.
  destruct (_gamepad c); reflexivity.
Qed.

(** A call that leaves the activation state and the cursor manager alone
    and sends no request about the cursor's visibility. *)
Lemma cursor_frame (w w' : World) (es : list Effect) :
  _active (self w') = _active (self w) ->
  cursor_manager (self w') = cursor_manager (self w) ->
  trace w' = (trace w ++ es)%list ->
  (forall k, display_counter es k = k) ->
  cursor_invariant w -> cursor_invariant w'.
Proof.
  intros Ha Hc Ht Hq [He Hk]. unfold cursor_invariant.
  now rewrite Ha, Hc, Ht, display_counter_app, Hq.
Qed.

Lemma cursor_frame_nil (w w' : World) :
  _active (self w') = _active (self w) ->
  cursor_manager (self w') = cursor_manager (self w) ->
  trace w' = trace w ->
  cursor_invariant w -> cursor_invariant w'.
Proof.
  intros Ha Hc Ht. apply (cursor_frame w w' []); try assumption.
  - now rewrite app_nil_r.
  - reflexivity.
Qed.

Lemma activate_cursor (w : World) :
  cursor_invariant w -> cursor_invariant (snd (activate w)).
Proof.
  intros Hw. rewrite activate_cases.
  destruct (_active (self w)) eqn:Ha; [exact Hw |].
  destruct Hw as [He Hk]. rewrite Ha in Hk.
  assert (H : forall g,
             cursor_invariant
               (with_requests (activation_requests (self w) g)
                  (with_self (activated g) w))).
  { intros g. split.
    - destruct w as [[] ? ?]. exact He.
    - unfold with_requests. cbn [trace].
      replace (trace (with_self (activated g) w)) with (trace w)
        by (destruct w as [[] ? ?]; reflexivity).
      rewrite display_counter_app, Hk,
        (display_counter_activation _ _ He).
      destruct w as [[] ? ?]. reflexivity. }
  destruct (_gamepad (self w)) as [g|];
    [apply H | destruct (vigem_available w); [apply H |]].
  split; [exact He | cbn [snd]; rewrite Ha; exact Hk].
Qed.

Lemma deactivate_cursor (cfg : Config.t) (w : World) :
  cursor_invariant w -> cursor_invariant (snd (deactivate cfg w)).
Proof.
  intros Hw. rewrite deactivate_cases.
  destruct (_active (self w)) eqn:Ha; [| exact Hw].
  destruct Hw as [He Hk]. rewrite Ha in Hk. split.
  - destruct w as [[] ? ?]. exact He.
  - unfold with_requests. cbn [snd trace].
    replace (trace (with_self (deactivated_controller cfg) w))
      with (trace w) by (destruct w as [[] ? ?]; reflexivity).
    rewrite display_counter_app, Hk,
      (display_counter_deactivation _ _ He).
    destruct w as [[] ? ?]. reflexivity.
Qed.

Lemma toggle_cursor (cfg : Config.t) (w : World) :
  cursor_invariant w ->
  cursor_invariant (snd (MainWindow._toggle_controller cfg w)).
Proof.
  intros Hw. rewrite toggle_controller_eq.
  destruct (_active (self w));
    [now apply deactivate_cursor | now apply activate_cursor].
Qed.

Lemma process_inputs_cursor (cfg : Config.t) (now : float) (w : World) :
  cursor_invariant w -> cursor_invariant (snd (process_inputs cfg now w)).
Proof.
  destruct (tick_due (self w) now) eqn:Hd.
  - destruct (_gamepad (self w)) as [g|] eqn:Hg.
    + destruct (_active (self w)) eqn:Ha.
      * rewrite (process_inputs_active cfg now w g Hd Hg Ha).
        apply (cursor_frame w _ [Flush (staged_by_tick cfg (self w) g)]);
          destruct w as [[] ? ?]; reflexivity.
      * rewrite (process_inputs_inactive cfg now w g Hd Hg Ha).
        apply (cursor_frame w _ [Flush g]);
          destruct w as [[] ? ?]; reflexivity.
    + rewrite (process_inputs_no_device cfg now w Hd Hg).
      apply cursor_frame_nil; destruct w as [[] ? ?]; reflexivity.
  - now rewrite (process_inputs_skipped cfg now w Hd).
Qed.

Lemma shutdown_cursor (cfg : Config.t) (w : World) :
  cursor_invariant w -> cursor_invariant (snd (shutdown cfg w)).
Proof.
  intros Hw. rewrite shutdown_eq. cbv zeta. cbn [snd].
  pose proof (deactivate_cursor cfg w Hw) as H1.
  revert H1. generalize (snd (deactivate cfg w)) as w1. intros w1 H1.
  apply (cursor_frame w1 _
           (match _gamepad (self w1) with
            | Some _ => [Flush vg.new]
            | None => []
            end)); try (destruct w1 as [[] ? ?]; reflexivity);
    [| exact H1].
  intros k. now destruct (_gamepad (self w1)).
Qed.

Lemma handle_cursor (cfg : Config.t) (ev : Event) (w : World) :
  cursor_invariant w -> cursor_invariant (snd (handle cfg ev w)).
Proof.
  intros Hw. destruct ev as [t|k|k|x y|b p|cfg'|n|]; cbn [handle].
  - now apply process_inputs_cursor.
  - destruct (String.eqb (InputHandler._parse_key k) (Config.TOGGLE_KEY cfg))
      eqn:E.
    + apply String.eqb_eq in E. rewrite (toggle_key_press_eq cfg k w E).
      now apply toggle_cursor.
    + unfold InputHandler.on_key_press, try_except. rewrite E.
      apply (cursor_frame_nil w); [| | | exact Hw];
        (destruct (str_in _ _); [| destruct (Config.is_mapped _ _)]);
        destruct w as [[] ? ?]; reflexivity.
  - unfold InputHandler.on_key_release, try_except.
    apply (cursor_frame_nil w); [| | | exact Hw];
      (destruct (str_in _ _); [| destruct (Config.is_mapped _ _)]);
      destruct w as [[] ? ?]; reflexivity.
  - unfold InputHandler.on_mouse_move, InputHandler.attribute.
    rewrite (bind_ok _ _ w w (self w)) by reflexivity.
    destruct (_active (self w)) eqn:Ha; cbn [negb]; [| exact Hw].
    destruct (CursorManager.center_x (cursor_manager (self w))) as [cx|];
      [| exact Hw].
    erewrite bind_ok by reflexivity.
    destruct (CursorManager.center_y (cursor_manager (self w))) as [cy|];
      [| exact Hw].
    apply (cursor_frame w _
             (CursorManager.lock_to_center (cursor_manager (self w))));
      [| | | apply display_counter_lock | exact Hw];
      destruct w as [[] ? ?]; reflexivity.
  - apply (cursor_frame_nil w); [| | | exact Hw];
      destruct b; destruct w as [[] ? ?]; reflexivity.
  - exact Hw.
  - unfold update_rate.
    apply (cursor_frame_nil w); [| | | exact Hw];
      destruct (n =? 0)%Z; destruct w as [[] ? ?]; reflexivity.
  - now apply shutdown_cursor.
Qed.

Lemma act_cursor (a : Action) (s : Config.t * World) :
  cursor_invariant (snd s) -> cursor_invariant (snd (act a s)).
Proof.
  destruct s as [cfg w]. cbn [snd]. intros Hw.
  destruct a as [|k|old k| |v|v|v|]; cbn [act snd]; try exact Hw.
  - now apply toggle_cursor.
  - unfold KeyMappingDialog._remap_button_key.
    destruct (getitem old (Config.KEY_MAPPINGS cfg)); [| exact Hw].
    cbn [snd]. unfold with_self.
    destruct (keys (self w) !! old); [| destruct w; exact Hw].
    destruct w as [[] ? ?]. exact Hw.
  - unfold SettingsDialog._update_rate_changed.
    destruct v as [v|]; [| exact Hw].
    destruct (_ && _); [| exact Hw]. cbn [snd].
    exact (handle_cursor cfg (UpdateRate v) w Hw).
Qed.

Lemma step_cursor (i : Input) (s : Config.t * World) :
  cursor_invariant (snd s) -> cursor_invariant (snd (step i s)).
Proof.
  destruct i as [ev|a]; [| apply act_cursor].
  destruct s as [cfg w]. cbn [step fst snd]. intros Hw.
  destruct ev; cbn [run snd]; try exact Hw;
    try (now apply (handle_cursor cfg _ w Hw)).
  exact (handle_cursor (Config.with_rate new_rate cfg)
           (UpdateRate new_rate) w Hw).
Qed.

Lemma play_cursor (ins : list Input) (s : Config.t * World) :
  cursor_invariant (snd s) -> cursor_invariant (snd (play ins s)).
Proof.
  revert s. induction ins as [|i ins IH]; intros s Hs; [exact Hs |].
  cbn [play fold_left]. apply IH. now apply step_cursor.
Qed.

(** X27: when the cursor manager is enabled (and the display counter is at
    zero when the engine starts), the cursor is hidden exactly while the
    controller is active, through every session of the application: the
    counter is -1 while active and back at 0 while inactive; it never
    drifts, however often the controller is toggled. *)
Theorem cursor_hidden_while_active (cfg : Config.t) (now : float)
    (cm : CursorManager.t) (vigem : bool) (ins : list Input) :
  CursorManager.enabled cm = true ->
  let w' := snd (play ins (cfg, main_world cfg now cm vigem)) in
  display_counter (trace w') 0 = (if _active (self w') then -1 else 0)%Z /\
  user32.visible (display_counter (trace w') 0) = negb (_active (self w')).
Proof.
  intros He. cbv zeta.
  assert (H0 : cursor_invariant (main_world cfg now cm vigem)).
  { destruct (main_world_state cfg now cm vigem) as (Ha & Ht & Hc & _).
    unfold cursor_invariant. now rewrite Ha, Ht, Hc. }
  destruct (play_cursor ins (cfg, main_world cfg now cm vigem) H0)
    as [_ H].
  split; [exact H |]. rewrite H. now destruct (_active _).
Qed.

Lemma cursor_hidden_while_active_witness :
  let ins := [Engine (KeyPress (KeyCode (Some "t") "'t'"));
              Engine (MouseMove 1060 590); Engine (Tick 1);
              Window ToggleController; Window ToggleController] in
  let w' := snd (play ins (Config.defaults,
                           main_world Config.defaults 0 sample_cursor true)) in
  CursorManager.enabled sample_cursor = true /\
  display_counter (trace w') 0 = (-1)%Z /\
  _active (self w') = true.
Proof.
  split; [reflexivity |].
  destruct (cursor_hidden_while_active Config.defaults 0 sample_cursor true
              [Engine (KeyPress (KeyCode (Some "t") "'t'"));
               Engine (MouseMove 1060 590); Engine (Tick 1);
               Window ToggleController; Window ToggleController] eq_refl)
    as [H _].
  split; [rewrite H |]; vm_compute; reflexivity.
Defined.

(** ** The device in every session *)

Lemma act_device (a : Action) (s : Config.t * World) :
  device_invariant (snd s) -> device_invariant (snd (act a s)).
Proof.
  destruct s as [cfg w]. cbn [snd]. intros Hw.
  destruct a as [|k|old k| |v|v|v|]; cbn [act snd]; try exact Hw.
  - rewrite toggle_controller_eq. destruct (_active (self w)) eqn:Ha.
    + intros H. rewrite (deactivate_inactive_after cfg w Hw) in H.
      discriminate.
    + now apply activate_device.
  - unfold KeyMappingDialog._remap_button_key.
    destruct (getitem old (Config.KEY_MAPPINGS cfg)); [| exact Hw].
    cbn [snd]. unfold with_self.
    destruct (keys (self w) !! old); [| destruct w; exact Hw].
    destruct w as [[] ? ?]. exact Hw.
  - unfold SettingsDialog._update_rate_changed.
    destruct v as [v|]; [| exact Hw].
    destruct (_ && _); [| exact Hw]. cbn [snd].
    exact (handle_device cfg (UpdateRate v) w Hw).
Qed.

Lemma step_device (i : Input) (s : Config.t * World) :
  device_invariant (snd s) -> device_invariant (snd (step i s)).
Proof.
  destruct i as [ev|a]; [| apply act_device].
  destruct s as [cfg w]. cbn [step fst snd]. intros Hw.
  destruct ev; cbn [run snd]; try exact Hw;
    try (now apply (handle_device cfg _ w Hw)).
  exact (handle_device (Config.with_rate new_rate cfg)
           (UpdateRate new_rate) w Hw).
Qed.

Lemma play_device (ins : list Input) (s : Config.t * World) :
  device_invariant (snd s) -> device_invariant (snd (play ins s)).
Proof.
  revert s. induction ins as [|i ins IH]; intros s Hs; [exact Hs |].
  cbn [play fold_left]. apply IH. now apply step_device.
Qed.

(** X28: in every session of the application (ticks, capture callbacks,
    rate changes, window actions and shutdown, in any order) an active
    controller has a device: the active state is entered only after the
    device was initialised, and the device is dropped only by the
    shutdown, which deactivates first. *)
Theorem active_controller_has_device_in_every_session (cfg : Config.t)
    (now : float) (cm : CursorManager.t) (vigem : bool)
    (ins : list Input) :
  let w' := snd (play ins (cfg, main_world cfg now cm vigem)) in
  _active (self w') = true -> is_Some (_gamepad (self w')).
Proof.
  cbv zeta.
  assert (H0 : device_invariant (main_world cfg now cm vigem)).
  { destruct (main_world_state cfg now cm vigem) as (Ha & _).
    intros H. rewrite Ha in H. discriminate. }
  exact (play_device ins (cfg, main_world cfg now cm vigem) H0).
Qed.

Lemma active_controller_has_device_in_every_session_witness :
  let ins := [Window ToggleController; Engine (Tick 1);
              Window (RemapButtonKey "c" "x")] in
  let w' := snd (play ins (Config.defaults,
                           main_world Config.defaults 0 sample_cursor true)) in
  _active (self w') = true /\ is_Some (_gamepad (self w')).
Proof.
  split; [vm_compute; reflexivity |].
  apply (active_controller_has_device_in_every_session Config.defaults 0
           sample_cursor true
           [Window ToggleController; Engine (Tick 1);
            Window (RemapButtonKey "c" "x")]).
  vm_compute. reflexivity.
Defined.

(** ** The toggle key is no held key *)

(** X29: the toggle key is handled before the direction keys and the
    mapping table: a press of it sets no direction flag and no key flag,
    also when the same key is a direction key or has an entry in the
    mapping table. *)
Theorem toggle_key_sets_no_flag (cfg : Config.t) (key : Key) (w : World) :
  InputHandler._parse_key key = Config.TOGGLE_KEY cfg ->
  let w' := snd (InputHandler.on_key_press cfg key w) in
  (forall k, dict_get (keys (self w')) k = true ->
             dict_get (keys (self w)) k = true) /\
  (forall k, dict_get (joystick_keys (self w')) k = true ->
             dict_get (joystick_keys (self w)) k = true).
Proof.
  intros H. cbv zeta.
  rewrite (toggle_key_press_eq cfg key w H), toggle_controller_eq.
  destruct (_active (self w)) eqn:Ha.
  - rewrite deactivate_cases, Ha. cbn [snd].
    split; intros k Hk; exfalso; revert Hk;
      destruct w as [[] ? ?]; cbn;
      rewrite (dict_get_all_clear _ k (fmap_false_all_clear _));
      discriminate.
  - rewrite activate_cases, Ha.
    destruct (_gamepad (self w)), (vigem_available w);
      destruct w as [[] ? ?]; split; intros k Hk; exact Hk.
Qed.

Lemma toggle_key_sets_no_flag_witness :
  let key := KeyCode (Some "w") "'w'" in
  let cfg := Config.with_toggle_key "w" Config.defaults in
  let w' := snd (InputHandler.on_key_press cfg key started) in
  InputHandler._parse_key key = Config.TOGGLE_KEY cfg /\
  str_in (InputHandler._parse_key key) Config.JOYSTICK_KEYS = true /\
  (forall k, dict_get (joystick_keys (self w')) k = true ->
             dict_get (joystick_keys (self started)) k = true).
Proof.
  split; [reflexivity | split; [reflexivity |]].
  apply (toggle_key_sets_no_flag
           (Config.with_toggle_key "w" Config.defaults)
           (KeyCode (Some "w") "'w'") started). reflexivity.
Defined.

(** ** The reset of the key-mapping window *)

Lemma flags_of_keys_lookup (l : list string) (k : string) :
  (list_to_map (map (fun k => (k, false)) l) : gmap string bool) !! k
  = if str_in k l then Some false else None.
Proof.
  unfold str_in. induction l as [|k1 l IH]; cbn [map existsb list_to_map].
  - apply lookup_empty.
  - change (list_to_map ((k1, false) :: ?r))
      with (<[k1 := false]> (list_to_map r : gmap string bool)).
    rewrite lookup_insert. destruct (decide (k1 = k)) as [->|Hne].
    + now rewrite String.eqb_refl.
    + destruct (String.eqb_spec k k1) as [->|_]; [now destruct Hne |].
      exact IH.
Qed.

(** X30: the reset button of the key-mapping window resets the
    configuration with [reset_to_defaults] and replaces the key flags by
    one flag per default key, none set: a key that was held is forgotten,
    and flags of keys that are no default keys are dropped.  The direction
    flags, the device, the activation state and the tick period are left
    as they were. *)
Theorem mapping_reset_clears_key_flags (cfg : Config.t) (w : World) :
  let r := KeyMappingDialog._reset_defaults cfg w in
  fst r = Config.reset_to_defaults cfg /\
  (forall k, keys (self (snd r)) !! k
             = if Config.is_mapped k Config.defaults then Some false
               else None) /\
  all_clear (keys (self (snd r))) /\
  joystick_keys (self (snd r)) = joystick_keys (self w) /\
  _gamepad (self (snd r)) = _gamepad (self w) /\
  _active (self (snd r)) = _active (self w) /\
  _update_interval (self (snd r)) = _update_interval (self w) /\
  trace (snd r) = trace w.
Proof.
  cbv zeta. unfold KeyMappingDialog._reset_defaults. cbn [fst snd].
  assert (L : forall k,
             keys (self (with_self
                           (set_keys
                              (list_to_map
                                 (map (fun k => (k, false))
                                    (Config.mapped_keys
                                       (Config.reset_to_defaults cfg)))))
                           w)) !! k
             = if Config.is_mapped k Config.defaults then Some false
               else None).
  { intros k. unfold with_self, set_keys. cbn [self keys].
    apply flags_of_keys_lookup. }
  split; [reflexivity |]. split; [exact L |].
  split; [| destruct w as [[] ? ?]; now repeat split].
  intros k v Hk. rewrite L in Hk.
  destruct (Config.is_mapped k Config.defaults); congruence.
Qed.
